(** * himawari_api: filename metadata, time-window search and path rewriting

    A shallow embedding of [himawari_api/io.py].  Python dictionaries whose
    iteration order matters (the alias tables, the grouped result of a search)
    are association lists; the per-file [info_dict] is a finite map from field
    names to values; exceptions are an explicit error type threaded through a
    small error monad. *)

From Stdlib Require Import ZArith String Ascii Lia.
From stdpp Require Import gmap strings list sorting.

Open Scope string_scope.
Open Scope Z_scope.

(** ** Exceptions and the error monad *)

(** The pieces of an f-string message: literal text and interpolated values.
    [Unsupported] is not a Python exception: it marks an input on which the
    behaviour of a library call is left outside this development. *)
Inductive frag : Type :=
| Txt (s : string)
| Keys (l : list string)
| Stamp (t : Z)
| Num (n : Z).

Inductive exn : Type :=
| ValueError (msg : list frag)
| TypeError (msg : list frag)
| KeyError (key : string)
| IndexError
| AttributeError
| OSError (msg : list frag)
| NotImplementedError (msg : list frag)
| UnboundLocalError (name : string)
| Unsupported (what : string).

Inductive result (A : Type) : Type :=
| Ok (a : A)
| Raise (e : exn).
Arguments Ok {A} a.
Arguments Raise {A} e.

#[global] Instance result_ret : MRet result := fun A a => Ok a.
#[global] Instance result_bind : MBind result := fun A B f m =>
  match m with
  | Ok a => f a
  | Raise e => Raise e
  end.

(** [d[key]] on a dictionary: a missing key raises [KeyError]. *)
Definition getitem {V : Type} (d : gmap string V) (key : string) : result V :=
  match d !! key with
  | Some v => Ok v
  | None => Raise (KeyError key)
  end.

(** A call [f(k1=..., k2=...)]: a keyword that is not among the parameters
    of [f] raises [TypeError] before the body of [f] runs. *)
Definition call_keywords {A : Type} (f : string) (parameters keywords : list string)
    (body : result A) : result A :=
  match List.find (λ k, negb (bool_decide (k ∈ parameters))) keywords with
  | Some k => Raise (TypeError [Txt f; Txt "() got an unexpected keyword argument '";
                                Txt k; Txt "'"])
  | None => body
  end.

(** ** Python strings (ASCII) *)

Definition ascii_upper (c : ascii) : ascii :=
  let n := nat_of_ascii c in
  if ((97 <=? n) && (n <=? 122))%nat then ascii_of_nat (n - 32) else c.

Definition ascii_lower (c : ascii) : ascii :=
  let n := nat_of_ascii c in
  if ((65 <=? n) && (n <=? 90))%nat then ascii_of_nat (n + 32) else c.

(** [s.upper()] *)
Fixpoint str_upper (s : string) : string :=
  match s with
  | EmptyString => EmptyString
  | String c s' => String (ascii_upper c) (str_upper s')
  end.

Fixpoint str_lower (s : string) : string :=
  match s with
  | EmptyString => EmptyString
  | String c s' => String (ascii_lower c) (str_lower s')
  end.

(** [s.capitalize()] *)
Definition str_capitalize (s : string) : string :=
  match s with
  | EmptyString => EmptyString
  | String c s' => String (ascii_upper c) (str_lower s')
  end.

(** [needle in hay] *)
Fixpoint str_in (needle hay : string) : bool :=
  String.prefix needle hay ||
  match hay with
  | EmptyString => false
  | String _ hay' => str_in needle hay'
  end.

(** [s.split(sep, maxsplit)] for a one-character separator. *)
Fixpoint str_split (sep : ascii) (maxsplit : nat) (s : string) : list string :=
  match maxsplit with
  | O => [s]
  | S m =>
      match s with
      | EmptyString => [EmptyString]
      | String c s' =>
          if Ascii.eqb c sep then EmptyString :: str_split sep m s'
          else match str_split sep maxsplit s' with
               | piece :: rest => String c piece :: rest
               | [] => [String c EmptyString]
               end
      end
  end.

(** [s.replace(c, "")] for a one-character [c]. *)
Fixpoint str_remove (c : ascii) (s : string) : string :=
  match s with
  | EmptyString => EmptyString
  | String a s' => if Ascii.eqb a c then str_remove c s' else String a (str_remove c s')
  end.

(** [os.path.basename(p)]: what follows the last slash. *)
Fixpoint basename (p : string) : string :=
  match p with
  | EmptyString => EmptyString
  | String c p' => if str_in "/" p then basename p' else p
  end.

(** [a.endswith("/")] *)
Fixpoint ends_with_slash (a : string) : bool :=
  match a with
  | EmptyString => false
  | String c EmptyString => Ascii.eqb c "/"
  | String _ a' => ends_with_slash a'
  end.

(** [os.path.join(a, b)] *)
Definition path_join (a b : string) : string :=
  if String.prefix "/" b then b
  else if bool_decide (a = "") || ends_with_slash a then a +:+ b
  else a +:+ "/" +:+ b.

(** [s[n:]] and [s[-n:]] *)
Fixpoint str_drop (n : nat) (s : string) : string :=
  match n, s with
  | O, _ => s
  | S n', String _ s' => str_drop n' s'
  | S _, EmptyString => EmptyString
  end.

Definition str_last (n : nat) (s : string) : string :=
  str_drop (String.length s - n) s.

(** [s[i]]: out of range raises [IndexError]. *)
Definition str_index (s : string) (i : nat) : result string :=
  match String.get i s with
  | Some c => Ok (String c EmptyString)
  | None => Raise IndexError
  end.

(** *** [int(s)]

    Surrounding whitespace is stripped, one sign is allowed, and the digits
    may be grouped by single underscores.  On an ASCII string the blanks are
    the space and the control characters 9 to 13. *)

Definition is_space (c : ascii) : bool :=
  let n := nat_of_ascii c in
  ((n =? 32) || ((9 <=? n) && (n <=? 13)))%nat.

Definition digit_of (c : ascii) : option Z :=
  let n := nat_of_ascii c in
  if ((48 <=? n) && (n <=? 57))%nat then Some (Z.of_nat n - 48) else None.

Fixpoint lstrip (s : string) : string :=
  match s with
  | String c s' => if is_space c then lstrip s' else s
  | EmptyString => EmptyString
  end.

Definition strip (s : string) : string :=
  String.rev (lstrip (String.rev (lstrip s))).

(** Digits after the first one; [after_digit] tells whether the previous
    character was a digit (an underscore must sit between two digits). *)
Fixpoint int_digits (acc : Z) (after_digit : bool) (s : string) : option Z :=
  match s with
  | EmptyString => if after_digit then Some acc else None
  | String c s' =>
      match digit_of c with
      | Some d => int_digits (acc * 10 + d) true s'
      | None =>
          if Ascii.eqb c "_" && after_digit then int_digits acc false s'
          else None
      end
  end.

Definition int_unsigned (s : string) : option Z :=
  match s with
  | String c _ =>
      match digit_of c with
      | Some _ => int_digits 0 false s
      | None => None
      end
  | EmptyString => None
  end.

Definition int_of_str (s : string) : result Z :=
  let body := strip s in
  let parsed :=
    match body with
    | String "-" rest => Z.opp <$> int_unsigned rest
    | String "+" rest => int_unsigned rest
    | _ => int_unsigned body
    end in
  match parsed with
  | Some n => Ok n
  | None => Raise (ValueError [Txt "invalid literal for int() with base 10: "; Txt s])
  end.

(** ** Time

    A naive [datetime] is a [Z]: the number of microseconds elapsed since a
    fixed midnight.  A [timedelta] is a [Z] too, a number of microseconds. *)

Definition timedelta (minutes seconds : Z) : Z := (minutes * 60 + seconds) * 1000000.

(** [t.replace(microsecond=0)] *)
Definition replace_microsecond (t : Z) : Z := t - t mod 1000000.

(** [t.replace(microsecond=0, second=0)] *)
Definition replace_second_microsecond (t : Z) : Z := t - t mod 60000000.

(** The time of day [hh:mm] on the reference day. *)
Definition hhmm (h m : Z) : Z := timedelta (h * 60 + m) 0.

(** ** Alias tables *)

Definition _satellites : list (string * list string) :=
  [ ("himawari-8", ["H8"; "H08"; "HIMAWARI-8"; "HIMAWARI8"]);
    ("himawari-9", ["H9"; "H08"; "HIMAWARI-9"; "HIMAWARI9"]) ].

Definition _sectors : list (string * list string) :=
  [ ("FLDK", ["FLDK"; "FULL"; "FULLDISK"; "FULL DISK"; "F"]);
    ("Japan", ["JAPAN"; "JAPAN_AREA"; "JAPAN AREA"; "J"]);
    ("Target", ["TARGET"; "TARGET_AREA"; "TARGET AREA"; "T"]);
    ("Landmark", ["LANDMARK"; "M"; "MESOSCALE"]) ].

Definition _channels : list (string * list string) :=
  [ ("B01", ["B01"; "C01"; "1"; "01"; "0.47"; "0.46"; "BLUE"; "B"]);
    ("B02", ["B02"; "C02"; "2"; "02"; "0.51"; "RED"; "R"]);
    ("B03", ["B03"; "C03"; "3"; "03"; "0.64"; "GREEN"; "G"]);
    ("B04", ["B04"; "C04"; "4"; "04"; "0.86"; "CIRRUS"]);
    ("B05", ["B05"; "C05"; "5"; "05"; "1.6"; "SNOW/ICE"]);
    ("B06", ["B06"; "C06"; "6"; "06"; "2.3"; "CLOUD PARTICLE SIZE"; "CPS"]);
    ("B07", ["B07"; "C07"; "7"; "07"; "3.9"; "IR SHORTWAVE WINDOW"; "IR SHORTWAVE"]);
    ("B08", ["B08"; "C08"; "8"; "08"; "6.2"; "UPPER-LEVEL TROPOSPHERIC WATER VAPOUR";
             "UPPER-LEVEL WATER VAPOUR"]);
    ("B09", ["B09"; "C09"; "9"; "09"; "6.9"; "7.0"; "MID-LEVEL TROPOSPHERIC WATER VAPOUR";
             "MID-LEVEL WATER VAPOUR"]);
    ("B10", ["B10"; "C10"; "10"; "10"; "7.3"; "LOWER-LEVEL TROPOSPHERIC WATER VAPOUR";
             "LOWER-LEVEL WATER VAPOUR"]);
    ("B11", ["B11"; "C11"; "11"; "11"; "8.6"; "CLOUD-TOP PHASE"; "CTP"]);
    ("B12", ["B12"; "C12"; "12"; "12"; "9.6"; "OZONE"]);
    ("B13", ["B13"; "C13"; "13"; "10.4"; "CLEAN IR LONGWAVE WINDOW"; "CLEAN IR"]);
    ("B14", ["B14"; "C14"; "14"; "11.2"; "IR LONGWAVE WINDOW"; "IR LONGWAVE"]);
    ("B15", ["B16"; "C15"; "15"; "12.3"; "12.4"; "DIRTY LONGWAVE WINDOW"; "DIRTY IR"]);
    ("B16", ["B16"; "C16"; "16"; "13.3"; "CO2 IR LONGWAVE"; "CO2"; "CO2 IR"]) ].

Definition PROTOCOLS : list string := ["s3"; "local"; "file"].
Definition BUCKET_PROTOCOLS : list string := ["s3"].

(** [list(table.keys())] *)
Definition keys {V : Type} (table : list (string * V)) : list string := table.*1.

(** The loop [for key, possible_values in table.items(): if s in
    possible_values: ...; break]: the first key, in table order, whose alias
    list holds [s]. *)
Fixpoint find_alias (table : list (string * list string)) (s : string) : option string :=
  match table with
  | [] => None
  | (key, possible_values) :: rest =>
      if bool_decide (s ∈ possible_values) then Some key else find_alias rest s
  end.

Definition available_satellites : list string := keys _satellites.
Definition available_channels : list string := keys _channels.
Definition available_connection_types : list string := ["bucket"; "https"; "nc_bytes"].

Definition available_group_keys : list string :=
  [ "product"; "scene_abbr"; "channel"; "sector"; "platform_shortname";
    "start_time"; "end_time"; "production_time"; "spatial_res";
    "segment_number"; "segment_total" ].

(** ** Checks *)

Definition _check_protocol (protocol : option string) : result (option string) :=
  match protocol with
  | None => Ok None
  | Some p =>
      if negb (bool_decide (p ∈ PROTOCOLS))
      then Raise (ValueError [Txt "Valid `protocol` are "; Keys PROTOCOLS; Txt "."])
      else if bool_decide (p = "local") then Ok (Some "file")
      else Ok (Some p)
  end.

Definition _check_satellite (satellite : string) : result string :=
  match find_alias _satellites (str_upper satellite) with
  | Some satellite_key => Ok satellite_key
  | None => Raise (ValueError [Txt "Available satellite: "; Keys (keys _satellites)])
  end.

Definition _check_channel (channel : string) : result string :=
  let channel := str_upper channel in
  if bool_decide (channel ∈ keys _channels) then Ok channel
  else
    match find_alias _channels (str_upper channel) with
    | Some channel_key => Ok channel_key
    | None => Raise (ValueError [Txt "Available channels: "; Keys (keys _channels)])
    end.

(** [[_check_channel(channel) for channel in channels]] *)
Fixpoint check_each {A B : Type} (f : A → result B) (l : list A) : result (list B) :=
  match l with
  | [] => Ok []
  | x :: l' => y ← f x; ys ← check_each f l'; Ok (y :: ys)
  end.

Definition _check_channels (channels : option (list string)) : result (option (list string)) :=
  match channels with
  | None => Ok None
  | Some channels => channels ← check_each _check_channel channels; Ok (Some channels)
  end.

Definition _check_group_by_key (group_by_key : option string) : result (option string) :=
  match group_by_key with
  | None => Ok None
  | Some k =>
      if negb (bool_decide (k ∈ available_group_keys))
      then Raise (ValueError [Txt k; Txt " is not a valid group_by_key. ";
                              Txt "Valid group_by_key are "; Keys available_group_keys; Txt "."])
      else Ok (Some k)
  end.

Definition _check_connection_type (connection_type protocol : option string)
  : result (option string) :=
  let connection_type := if protocol is None then None else connection_type in
  let connection_type :=
    if bool_decide (protocol ∈ [Some "file"; Some "local"]) then None else connection_type in
  if bool_decide (protocol ∈ [Some "s3"]) then
    let connection_type := if connection_type is None then Some "bucket" else connection_type in
    let valid_connection_type := ["bucket"; "https"; "nc_bytes"] in
    if negb (bool_decide (connection_type ∈ Some <$> valid_connection_type))
    then Raise (ValueError [Txt "Valid `connection_type` are "; Keys valid_connection_type; Txt "."])
    else Ok connection_type
  else Ok connection_type.

(** ** Regularity of a list of time steps *)

(** [sorted(l)] *)
Definition sorted (l : list Z) : list Z := merge_sort Z.le l.

(** [np.diff(l)] *)
Fixpoint np_diff (l : list Z) : list Z :=
  match l with
  | x :: (y :: _) as l' => (y - x) :: np_diff l'
  | _ => []
  end.

(** [np.unique(l)]: the distinct elements, in ascending order. *)
Definition np_unique (l : list Z) : list Z := merge_sort Z.le (remove_dups l).

Definition _check_interval_regularity (list_datetime : list Z) : result unit :=
  if (length list_datetime <? 2)%nat then Ok tt
  else
    let list_datetime := sorted list_datetime in
    let list_timedelta := np_diff list_datetime in
    let list_unique_timedelta := np_unique list_timedelta in
    if negb (length list_unique_timedelta =? 1)%nat
    then Raise (ValueError [Txt "The time interval is not regular!"])
    else Ok tt.

(** ** Glob pattern of the file names of a product level *)

(** The [else] branch compares the unbound local [fname_pattern] with
    ["*.nc*"] instead of assigning it. *)
Definition get_fname_glob_pattern (product_level : string) : result string :=
  if bool_decide (product_level = "L1b") then Ok "*.bz2*"
  else Raise (UnboundLocalError "fname_pattern").

(** ** Buckets and paths *)

(** [get_bucket(protocol, satellite)]: the dictionary has the one key ["s3"]. *)
Definition get_bucket (protocol : option string) (satellite : string) : result string :=
  let bucket_dict : gmap string string :=
    {[ "s3" := "s3://noaa-" +:+ str_remove "-" satellite ]} in
  match protocol with
  | Some protocol => getitem bucket_dict protocol
  | None => Raise (KeyError "None")
  end.

Definition himawari8_patterns : list string := ["himawari8"; "himawari-8"; "H8"; "H08"].
Definition himawari9_patterns : list string := ["himawari9"; "himawari-9"; "H9"; "H09"].

(** [np.any([pattern in path for pattern in patterns])] *)
Definition any_in (patterns : list string) (path : string) : bool :=
  existsb (λ pattern, str_in pattern path) patterns.

Definition infer_satellite_from_path (path : string) : result string :=
  if any_in himawari8_patterns path then Ok "himawari-8"
  else if any_in himawari9_patterns path then Ok "himawari-9"
  else Raise (ValueError [Txt "Unexpected HIMAWARI file path."]).

Definition _switch_to_https_fpath (fpath protocol : string) : result string :=
  satellite ← infer_satellite_from_path fpath;
  let https_base_url_dict : gmap string string :=
    {[ "s3" := "https://noaa-" +:+ str_remove "-" satellite +:+ ".s3.amazonaws.com" ]} in
  base_url ← getitem https_base_url_dict protocol;
  match str_split "/" 3 fpath !! 3%nat with
  | Some suffix => Ok (path_join base_url suffix)
  | None => Raise IndexError
  end.

Definition _switch_to_https_fpaths (fpaths : list string) (protocol : string)
  : result (list string) :=
  check_each (λ fpath, _switch_to_https_fpath fpath protocol) fpaths.

Definition _get_bucket_prefix (protocol : option string) : result string :=
  if bool_decide (protocol = Some "s3") then Ok "s3://"
  else if bool_decide (protocol = Some "file") then Ok ""
  else Raise (NotImplementedError [Txt "Current available protocols are 's3', 'local'."]).

Definition _get_product_name (product_level product sector : string) : result string :=
  let sensor := "AHI" in
  if bool_decide (product_level = "L2") && negb (bool_decide (sector = "FLDK"))
  then Raise (ValueError [Txt "L2 product level provides only FLDK sector."])
  else
    let sector := if bool_decide (sector = "Landmark") then "Target" else sector in
    if bool_decide (product = "Rad")
    then Ok (sensor +:+ "-" +:+ product_level +:+ "-" +:+ sector)
    else if bool_decide (product ∈ ["CMSK"; "CHGT"; "CPHS"])
    then Ok (sensor +:+ "-" +:+ product_level +:+ "-" +:+ sector +:+ "-Clouds")
    else if bool_decide (product ∈ ["RRQPE"])
    then Ok (sensor +:+ "-" +:+ product_level +:+ "-" +:+ sector +:+ "-RainfallRate")
    else Raise (ValueError [Txt "Retrieval not implemented for  product '"; Txt product; Txt "'."]).

(** ** Output options *)

(** The values held by an [info_dict]: strings, integers and datetimes come
    from the file name; a list of strings is the scene abbreviation of the
    Japan sector. *)
Inductive value : Type :=
| VStr (s : string)
| VInt (n : Z)
| VTime (t : Z)
| VList (l : list string).

#[global] Instance value_eq_dec : EqDecision value.
Proof. solve_decision. Defined.

(** What a search returns: a list of paths, or the paths grouped under the
    values of a key (a dictionary, in insertion order). *)
Inductive fpaths_t : Type :=
| FList (fpaths : list string)
| FDict (groups : list (value * list string)).

Definition _add_nc_bytes (fpaths : list string) : list string :=
  (λ fpath, fpath +:+ "#mode=bytes") <$> fpaths.

(** [{k: f(l_fpaths) for k, l_fpaths in fpaths.items()}] *)
Fixpoint for_items {K A B : Type} (f : A → result B) (d : list (K * A)) : result (list (K * B)) :=
  match d with
  | [] => Ok []
  | (k, a) :: d' => b ← f a; r ← for_items f d'; Ok ((k, b) :: r)
  end.

Definition _set_connection_type (fpaths : fpaths_t) (satellite : string)
    (protocol connection_type : option string) : result fpaths_t :=
  match protocol with
  | None => Ok fpaths
  | Some protocol =>
      if bool_decide (protocol = "file") then Ok fpaths
      else if bool_decide (connection_type = Some "bucket") then Ok fpaths
      else if bool_decide (connection_type ∈ [Some "https"; Some "nc_bytes"]) then
        match fpaths with
        | FList fpaths =>
            fpaths ← _switch_to_https_fpaths fpaths protocol;
            if bool_decide (connection_type = Some "nc_bytes")
            then Ok (FList (_add_nc_bytes fpaths))
            else Ok (FList fpaths)
        | FDict fpaths =>
            fpaths ← for_items (λ l_fpaths, _switch_to_https_fpaths l_fpaths protocol) fpaths;
            if bool_decide (connection_type = Some "nc_bytes")
            then Ok (FDict (prod_map id _add_nc_bytes <$> fpaths))
            else Ok (FDict fpaths)
        end
      else Raise (NotImplementedError
                    [Txt "'bucket','https', 'nc_bytes' are the only `connection_type` available."])
  end.

(** ** Metadata of a file name *)

Definition l2_products : list string :=
  [ "HYDRO_RAIN_RATE"; "RRQPE"; "CLOUD_HEIGHT"; "CHGT";
    "CLOUD_MASK"; "CMSK"; "CLOUD_PHASE"; "CPHS" ].

Definition _infer_product_level (fpath : string) : result string :=
  let fname := basename fpath in
  let bool_valid_product := (λ product, str_in product fname) <$> l2_products in
  if existsb id bool_valid_product then Ok "L2"
  else if str_in "HS" fname then Ok "L1b"
  else Raise (ValueError [Txt "`product_level` could not be inferred from "; Txt fname; Txt "."]).

Definition _infer_product (fpath : string) : result string :=
  let fname := basename fpath in
  match List.find (λ product, str_in product fname) l2_products with
  | Some product => Ok product
  | None =>
      if str_in "HS" fname then Ok "Rad"
      else Raise (ValueError [Txt "`product` could not be inferred from "; Txt fname; Txt "."])
  end.

Definition _infer_satellite (fpath : string) : result string :=
  let fname := basename fpath in
  if any_in himawari8_patterns fpath then Ok "himawari-8"
  else if any_in himawari9_patterns fpath then Ok "himawari-9"
  else Raise (ValueError [Txt "`satellite` could not be inferred from "; Txt fname; Txt "."]).

(** The region index of an ["R..."] token decides sector and scene. *)
Definition region_of_index (region_index : Z) : string * value :=
  if (region_index =? 3)%Z then ("Target", VStr "R3")
  else if (region_index =? 4)%Z then ("Landmark", VStr "R4")
  else ("Landmark", VStr "R5").

(** Returns [(sector, scene_abbr, observation_number)]; the observation
    number of a full-disk token is [None].  A token that is not a string fails
    where Python first misuses it: [in] on a number or a datetime, [int] of a
    list. *)
Definition _separate_sector_observation_number (sector_observation_number : value)
  : result (string * value * option Z) :=
  match sector_observation_number with
  | VStr s =>
      if str_in "FLDK" s then Ok ("FLDK", VStr "F", None)
      else if str_in "JP" s then
        observation_number ← int_of_str (str_last 2 s);
        Ok ("JP", VList ["R1"; "R2"], Some observation_number)
      else if str_in "R" s then
        c ← str_index s 1;
        region_index ← int_of_str c;
        let '(sector, scene_abbr) := region_of_index region_index in
        observation_number ← int_of_str (str_drop 2 s);
        Ok (sector, scene_abbr, Some observation_number)
      else Raise (NotImplementedError [Txt "Adapt the file patterns."])
  | VList l =>
      if bool_decide ("FLDK" ∈ l) then Ok ("FLDK", VStr "F", None)
      else if bool_decide ("JP" ∈ l) then Raise (TypeError [Txt "int() argument"])
      else if bool_decide ("R" ∈ l) then
        match l !! 1%nat with
        | Some c => _ ← int_of_str c; Raise (TypeError [Txt "int() argument"])
        | None => Raise IndexError
        end
      else Raise (NotImplementedError [Txt "Adapt the file patterns."])
  | VInt _ | VTime _ => Raise (TypeError [Txt "argument is not iterable"])
  end.

(** [v + td] for a datetime [v]; any other value cannot be added to a
    [timedelta]. *)
Definition add_timedelta (v : value) (td : Z) : result value :=
  match v with
  | VTime t => Ok (VTime (t + td))
  | _ => Raise (TypeError [Txt "unsupported operand type(s) for +"])
  end.

(** [try: info_dict[time] = info_dict[time].replace(microsecond=0) except: None] *)
Definition drop_microsecond (info_dict : gmap string value) (time : string)
  : gmap string value :=
  match info_dict !! time with
  | Some (VTime t) => <[time := VTime (replace_microsecond t)]> info_dict
  | _ => info_dict
  end.

(** The start and end of the scan numbered [observation_number] in a sector
    scanned every [cadence]. *)
Definition shift_times (info_dict : gmap string value) (observation_number : option Z)
    (cadence : Z) : result (gmap string value) :=
  start_time ← getitem info_dict "start_time";
  match observation_number with
  | None => Raise (TypeError [Txt "unsupported operand type(s) for -"])
  | Some observation_number =>
      start_time ← add_timedelta start_time ((observation_number - 1) * cadence);
      end_time ← add_timedelta start_time (observation_number * cadence);
      Ok (<["end_time" := end_time]> (<["start_time" := start_time]> info_dict))
  end.

(** The text of a field inside a message. *)
Definition value_frag (v : value) : frag :=
  match v with
  | VStr s => Txt s
  | VInt n => Num n
  | VTime t => Stamp t
  | VList l => Keys l
  end.

(** [v.upper()] of a field: only strings have the method. *)
Definition value_upper (v : value) : result string :=
  match v with
  | VStr s => Ok (str_upper s)
  | _ => Raise AttributeError
  end.

(** [v in l] for a list [l] of strings. *)
Definition value_in (v : value) (l : list string) : bool :=
  match v with
  | VStr s => bool_decide (s ∈ l)
  | _ => false
  end.

(** [a < b] for a field [a] and a datetime [b]. *)
Definition value_lt (a : option value) (b : Z) : result bool :=
  match a with
  | Some (VTime t) => Ok (bool_decide (t < b))
  | _ => Raise (TypeError [Txt "'<' not supported"])
  end.

(** [a > b] for a field [a] and a datetime [b]. *)
Definition value_gt (a : option value) (b : Z) : result bool :=
  match a with
  | Some (VTime t) => Ok (bool_decide (t > b))
  | _ => Raise (TypeError [Txt "'>' not supported"])
  end.

(** ** More helpers on paths *)

Definition available_protocols : list string := BUCKET_PROTOCOLS.

(** [s.split(sep)] for a one-character separator, without a bound on the
    number of pieces. *)
Fixpoint str_split_all (sep : ascii) (s : string) : list string :=
  match s with
  | EmptyString => [EmptyString]
  | String c s' =>
      if Ascii.eqb c sep then EmptyString :: str_split_all sep s'
      else match str_split_all sep s' with
           | piece :: rest => String c piece :: rest
           | [] => [String c EmptyString]
           end
  end.

(** [os.path.join] of the pieces that follow the third slash; with no
    piece there, [join] is called without its first argument. *)
Definition remove_bucket_address (fpath : string) : result string :=
  let fel := drop 3 (str_split_all "/" fpath) in
  match fel with
  | [] => Raise (TypeError [Txt "join() missing 1 required positional argument: 'a'"])
  | a :: p => Ok (foldl path_join a p)
  end.

(** [_check_time(time)] on a datetime or on [None]. *)
Definition _check_time (time : option Z) : result Z :=
  match time with
  | Some time => Ok time
  | None => Raise (TypeError [Txt "Specify time with datetime.datetime objects or a ";
                              Txt "string of format 'YYYY-MM-DD hh:mm:ss'."])
  end.

(** [len(fpaths)] *)
Definition len_fpaths (fpaths : fpaths_t) : nat :=
  match fpaths with
  | FList fpaths => length fpaths
  | FDict groups => length groups
  end.

(** [np.argmax(l)]: the index of the first greatest element. *)
Fixpoint np_argmax (l : list Z) : nat :=
  match l with
  | [] => 0%nat
  | x :: l' =>
      match l' with
      | [] => 0%nat
      | _ :: _ =>
          let i := np_argmax l' in
          if bool_decide (l' !!! i ≤ x) then 0%nat else S i
      end
  end.

(** [l[0:n]] *)
Definition first_n (n : Z) (l : list Z) : list Z :=
  if bool_decide (n < 0) then take (length l - Z.to_nat (- n)) l
  else take (Z.to_nat n) l.

(** What [get_key_from_filepaths] returns: the values of the key, in a list
    or under the keys of the dictionary it was given. *)
Inductive key_values_t : Type :=
| KList (values : list value)
| KDict (groups : list (value * list value)).

Section Catalogue.

(** The table [himawari_api.listing.GLOB_FNAME_PATTERN] of file name
    patterns, [{sensor: {product_level: {product: pattern}}}], and
    [trollsift.Parser(fpattern).parse(fname)] are not part of this module. *)
Variable GLOB_FNAME_PATTERN : gmap string (gmap string (gmap string string)).
Variable Parser_parse : string → string → result (gmap string value).

Definition _get_info_from_filename (fname : string) : result (gmap string value) :=
  let sensor := "AHI" in
  product_level ← _infer_product_level fname;
  product ← _infer_product fname;
  by_level ← getitem GLOB_FNAME_PATTERN sensor;
  by_product ← getitem by_level product_level;
  fpattern ← getitem by_product product;
  info_dict ← Parser_parse fpattern fname;
  let info_dict := <["sensor" := VStr sensor]> info_dict in
  let info_dict := <["product_level" := VStr product_level]> info_dict in
  let info_dict :=
    foldl drop_microsecond info_dict
          ["start_time"; "end_time"; "production_time"; "creation_time"] in
  info_dict ←
    match info_dict !! "sector_observation_number" with
    | Some sector_observation_number =>
        '(sector, scene_abbr, observation_number) ←
          _separate_sector_observation_number sector_observation_number;
        let info_dict := <["sector" := VStr sector]> info_dict in
        let info_dict := <["scene_abbr" := scene_abbr]> info_dict in
        info_dict ←
          (if bool_decide (sector = "Japan")
              || (bool_decide (sector = "Target") && bool_decide (scene_abbr = VStr "R3"))
           then shift_times info_dict observation_number (timedelta 2 30)
           else Ok info_dict);
        if bool_decide (sector = "Landmark") && value_in scene_abbr ["R4"; "R5"]
        then shift_times info_dict observation_number (timedelta 0 30)
        else Ok info_dict
    | None => Ok info_dict
    end;
  info_dict ←
    match info_dict !! "end_time" with
    | None =>
        start_time ← getitem info_dict "start_time";
        end_time ← add_timedelta start_time (timedelta 10 0);
        Ok (<["end_time" := end_time]> info_dict)
    | Some _ => Ok info_dict
    end;
  let info_dict :=
    match info_dict !! "sector" with
    | None => <["sector" := VStr "FLDK"]> info_dict
    | Some _ => info_dict
    end in
  level ← getitem info_dict "product_level";
  product ←
    (if bool_decide (level = VStr "L2") then
       product ← getitem info_dict "product";
       if value_in product ["CLOUD_MASK"; "CMSK"] then Ok (VStr "CMSK")
       else if value_in product ["CPHS"; "CLOUD_PHASE"] then Ok (VStr "CPHS")
       else if value_in product ["CHGT"; "CLOUD_HEIGHT"] then Ok (VStr "CHGT")
       else if value_in product ["RRQPE"; "HYDRO_RAIN_RATE"] then Ok (VStr "RRQPE")
       else Raise (NotImplementedError [])
     else Ok (VStr product));
  let info_dict := <["product" := product]> info_dict in
  satellite ←
    match info_dict !! "platform_shortname", info_dict !! "platform_fullname" with
    | Some platform_shortname, _ =>
        upper ← value_upper platform_shortname;
        if bool_decide ("H08" = upper) then Ok "HIMAWARI-8"
        else if bool_decide ("H09" = upper) then Ok "HIMAWARI-9"
        else Raise (ValueError [Txt "Processing of satellite ";
                                value_frag platform_shortname; Txt " not yet implemented."])
    | None, Some platform_fullname =>
        upper ← value_upper platform_fullname;
        if bool_decide ("HIMAWARI8" = upper) then Ok "HIMAWARI-8"
        else if bool_decide ("HIMAWARI9" = upper) then Ok "HIMAWARI-9"
        else Raise (ValueError [Txt "Processing of satellite ";
                                value_frag platform_fullname; Txt " not yet implemented."])
    | None, None => Raise (ValueError [Txt "Satellite name not derivable from file name."])
    end;
  Ok (<["satellite" := VStr satellite]> info_dict).

Definition _get_info_from_filepath (fpath : string) : result (gmap string value) :=
  let fname := basename fpath in
  _get_info_from_filename fname.

(** [[_get_info_from_filepath(fpath)[key] for fpath in fpaths]] *)
Definition _get_key_from_filepaths (fpaths : list string) (key : string)
  : result (list value) :=
  check_each (λ fpath, info_dict ← _get_info_from_filepath fpath; getitem info_dict key) fpaths.

(** ** Filtering *)

(** Returns the path when the file is selected, [None] otherwise. *)
Definition _filter_file (fpath product_level : string) (start_time end_time : option Z)
    (channels scene_abbr : option (list string)) : result (option string) :=
  info_dict ← _get_info_from_filepath fpath;
  let by_channels :=
    match channels, info_dict !! "channel" with
    | Some channels, Some file_channel => value_in file_channel channels
    | _, _ => true
    end in
  if negb by_channels then Ok None
  else
    let by_scene_abbr :=
      match scene_abbr, info_dict !! "scene_abbr" with
      | Some scene_abbr, Some file_scene_abbr => value_in file_scene_abbr scene_abbr
      | _, _ => true
      end in
    if negb by_scene_abbr then Ok None
    else
      ends_before ←
        match start_time with
        | Some start_time => value_lt (info_dict !! "end_time") start_time
        | None => Ok false
        end;
      if (ends_before : bool) then Ok None
      else
        starts_after ←
          match end_time with
          | Some end_time => value_gt (info_dict !! "start_time") end_time
          | None => Ok false
          end;
        if (starts_after : bool) then Ok None
        else Ok (Some fpath).

Definition _filter_files (fpaths : list string) (product_level : string)
    (start_time end_time : option Z) (channels scene_abbr : option (list string))
  : result (list string) :=
  fpaths ← check_each
             (λ fpath, _filter_file fpath product_level start_time end_time channels scene_abbr)
             fpaths;
  Ok (omap (M:=list) (λ fpath : option string, fpath) fpaths).


(** ** Products, levels and sectors *)

(** The tables [himawari_api.listing.PRODUCTS],
    [{sensor: {product_level: {product: ...}}}] in insertion order, and
    [himawari_api.listing.AHI_L2_SECTOR_EXCEPTIONS] are not part of this
    module. *)
Variable PRODUCTS : list (string * list (string * list string)).
Variable AHI_L2_SECTOR_EXCEPTIONS : gmap string (list string).

(** [d[key]] on a dictionary kept in insertion order. *)
Definition assoc_get {V : Type} (d : list (string * V)) (key : string) : result V :=
  match List.find (λ kv, bool_decide (kv.1 = key)) d with
  | Some kv => Ok kv.2
  | None => Raise (KeyError key)
  end.

(** [np.unique(l)] on strings. *)
Definition np_unique_str (l : list string) : list string :=
  merge_sort (λ a b, String.leb a b) (remove_dups l).

(** The keys of a dictionary filled by successive [d[k] = v]: every key
    once, at the place of its first insertion. *)
Definition inserted_keys (l : list string) : list string :=
  foldl (λ acc k, if bool_decide (k ∈ acc) then acc else (acc ++ [k])%list) [] l.

Definition available_product_levels : result (list string) :=
  by_level ← assoc_get PRODUCTS "AHI";
  Ok (np_unique_str (keys by_level)).

(** The first steps of [_check_product_level], the only ones that run when
    no [product] is given: the level is capitalized and looked up in the
    two level names. *)
Definition _check_product_level_name (product_level : string) : result string :=
  let product_level := str_capitalize product_level in
  if negb (bool_decide (product_level ∈ ["L1b"; "L2"]))
  then Raise (ValueError [Txt "Available product levels are ['L1b', 'L2']."])
  else Ok product_level.

(** [_check_product_levels] calls [_check_product_level] without product. *)
Definition _check_product_levels (product_levels : list string) : result (list string) :=
  check_each _check_product_level_name product_levels.

(** The dictionary [{product_level: [products]}] of the sensor, restricted
    to [product_levels]. *)
Definition get_dict_info_products (product_levels : option (list string))
  : result (list (string * list string)) :=
  let sensor := "AHI" in
  product_levels ←
    match product_levels with
    | None => available_product_levels
    | Some product_levels => Ok product_levels
    end;
  product_levels ← _check_product_levels product_levels;
  product_level_dict ← assoc_get PRODUCTS sensor;
  Ok (filter (λ kv, kv.1 ∈ product_levels) product_level_dict).

(** [d[k] = v] on a dictionary kept in insertion order: a key that is
    there keeps its place and takes the new value. *)
Fixpoint assoc_set {V : Type} (d : list (string * V)) (k : string) (v : V)
  : list (string * V) :=
  match d with
  | [] => [(k, v)]
  | (k', v') :: d' => if bool_decide (k' = k) then (k, v) :: d' else (k', v') :: assoc_set d' k v
  end.

(** [{product: product_level}]; the listing is asked for with the keywords
    [sensors] and [product_levels]. *)
Definition get_dict_product_product_level (sensors product_levels : option (list string))
  : result (list (string * string)) :=
  products_listing_dict ←
    call_keywords "get_dict_info_products" ["product_levels"] ["sensors"; "product_levels"]
      (get_dict_info_products product_levels);
  Ok (foldl (λ d level_products,
               foldl (λ d product, assoc_set d product level_products.1) d level_products.2)
        [] products_listing_dict).

(** [{product_level: [products]}]: one key per level among the values, in
    the iteration order of a set, which is not fixed (taken here as the
    order of first occurrence), each with its products in their order. *)
Definition get_dict_product_level_products (sensors product_levels : option (list string))
  : result (list (string * list string)) :=
  products_product_level_dict ← get_dict_product_product_level sensors product_levels;
  Ok ((λ level, (level, (filter (λ kv, kv.2 = level) products_product_level_dict).*1))
        <$> remove_dups products_product_level_dict.*2).

Definition _check_product_level (product_level : string) (product : option string)
  : result string :=
  product_level ← _check_product_level_name product_level;
  match product with
  | None => Ok product_level
  | Some product =>
      product_level_products ← get_dict_product_level_products None None;
      products ← assoc_get product_level_products product_level;
      if negb (bool_decide (product ∈ products))
      then Raise (ValueError [Txt "`product_level` '"; Txt product_level;
                              Txt "' does not include product '"; Txt product; Txt "'."])
      else Ok product_level
  end.

(** The keys of [get_dict_product_sensor(product_levels)]. *)
Definition available_products (product_levels : option (list string))
  : result (list string) :=
  products_listing_dict ← get_dict_info_products product_levels;
  Ok (inserted_keys (mjoin products_listing_dict.*2)).

Definition _check_product (product : string) (product_level : option string)
  : result string :=
  valid_products ← available_products ((λ level, [level]) <$> product_level);
  match List.find (λ possible_values,
                     bool_decide (str_upper possible_values = str_upper product))
                  valid_products with
  | Some product_key => Ok product_key
  | None =>
      match product_level with
      | None => Raise (ValueError [Txt "Available products: "; Keys valid_products])
      | Some product_level =>
          Raise (ValueError [Txt "Available "; Txt product_level; Txt " products: ";
                             Keys valid_products])
      end
  end.

Definition available_sectors (product : option string) : result (list string) :=
  let sectors_keys := keys _sectors in
  match product with
  | None => Ok sectors_keys
  | Some product =>
      product ← _check_product product None;
      match AHI_L2_SECTOR_EXCEPTIONS !! product with
      | None => Ok sectors_keys
      | Some specific_sectors => Ok specific_sectors
      end
  end.

Definition _check_sector (sector product : option string) : result string :=
  match sector with
  | None => Raise (ValueError [Txt "'sector' must be specified."])
  | Some sector =>
      match find_alias _sectors (str_upper sector) with
      | None => Raise (ValueError [Txt "Available sectors: "; Keys (keys _sectors)])
      | Some sector_key =>
          valid_sectors ← available_sectors product;
          match product with
          | Some product =>
              if negb (bool_decide (sector_key ∈ valid_sectors))
              then Raise (ValueError [Txt "Valid sectors for product "; Txt product;
                                      Txt " are "; Keys valid_sectors; Txt "."])
              else Ok sector_key
          | None => Ok sector_key
          end
      end
  end.

(** ** Time and filter checks *)

(** [datetime.datetime.utcnow()]: the clock does not move during a call. *)
Variable utcnow : Z.

Definition _check_start_end_time (start_time end_time : Z) : result (Z * Z) :=
  let start_time := replace_microsecond start_time in
  let end_time := replace_microsecond end_time in
  if bool_decide (start_time > end_time)
  then Raise (ValueError [Txt "Provide start_time occuring before of end_time"])
  else if bool_decide (start_time > utcnow)
  then Raise (ValueError [Txt "Provide a start_time occuring in the past."])
  else if bool_decide (end_time > utcnow)
  then Raise (ValueError [Txt "Provide a end_time occuring in the past."])
  else Ok (start_time, end_time).

(** [np.all(np.isin(scene_abbr, valid_scene_abbr))] *)
Definition all_isin (scene_abbr valid_scene_abbr : list string) : bool :=
  forallb (λ s, bool_decide (s ∈ valid_scene_abbr)) scene_abbr.

(** For the Target and Landmark sectors the test of the scene is computed
    and dropped, and the error is raised whatever the scene. *)
Definition _check_scene_abbr (scene_abbr : option (list string)) (sector : option string)
  : result (option (list string)) :=
  match scene_abbr with
  | None => Ok None
  | Some scene_abbr =>
      if bool_decide (sector = Some "FLDK")
      then Raise (ValueError
                    [Txt "`scene_abbr` must be specified only for Japan and Target sectors !"])
      else
        let valid_scene_abbr := ["R1"; "R2"; "R3"; "R4"; "R5"] in
        if negb (all_isin scene_abbr valid_scene_abbr)
        then Raise (ValueError [Txt "Valid `scene_abbr` values are ";
                                Keys valid_scene_abbr; Txt "."])
        else if bool_decide (sector = Some "Japan") && negb (all_isin scene_abbr ["R1"; "R2"])
        then Raise (ValueError [Txt "Valid `scene_abbr` for Japan sector are ";
                                Keys ["R1"; "R2"]; Txt "."])
        else if bool_decide (sector = Some "Target")
        then Raise (ValueError [Txt "Valid `scene_abbr` for Target sector are ";
                                Keys ["R3"]; Txt "."])
        else if bool_decide (sector = Some "Landmark")
        then Raise (ValueError [Txt "Valid `scene_abbr` for Landmark sector are ";
                                Keys ["R4"; "R5"]; Txt "."])
        else Ok (Some scene_abbr)
  end.

(** The dictionary [filter_parameters], with its two keys; a bare string
    stands for the list holding it. *)
Record filter_parameters_t : Type := FilterParameters {
  fp_channels : option (list string);
  fp_scene_abbr : option (list string)
}.

(** The truth value of an optional list: [None] and [[]] are false. *)
Definition truthy {A : Type} (l : option (list A)) : bool :=
  match l with
  | Some (_ :: _) => true
  | _ => false
  end.

Definition _check_filter_parameters (filter_parameters : filter_parameters_t)
    (sector : string) : result filter_parameters_t :=
  let channels := fp_channels filter_parameters in
  let scene_abbr := fp_scene_abbr filter_parameters in
  channels ← (if truthy channels then _check_channels channels else Ok channels);
  scene_abbr ← (if truthy scene_abbr then _check_scene_abbr scene_abbr (Some sector)
                else Ok scene_abbr);
  Ok (FilterParameters channels scene_abbr).

Definition _get_acquisition_max_timedelta (sector : option string) : result Z :=
  if bool_decide (sector = Some "Target") then Ok (timedelta 2 30)
  else if bool_decide (sector = Some "Japan") then Ok (timedelta 2 30)
  else if bool_decide (sector = Some "FLDK") then Ok (timedelta 10 0)
  else if bool_decide (sector = Some "Landmark") then Ok (timedelta 0 30)
  else Raise (ValueError [Txt "Unknown sector."]).

(** ** Grouping *)

(** The order of the values of one kind; values of different kinds are
    never compared (see [sortable]). *)
Definition value_leb (a b : value) : bool :=
  match a, b with
  | VInt x, VInt y => bool_decide (x ≤ y)
  | VTime x, VTime y => bool_decide (x ≤ y)
  | VStr x, VStr y => String.leb x y
  | _, _ => true
  end.

Definition is_VStr (v : value) : bool := if v is VStr _ then true else false.
Definition is_VInt (v : value) : bool := if v is VInt _ then true else false.
Definition is_VTime (v : value) : bool := if v is VTime _ then true else false.

(** The key values numpy sorts without coercion: all strings, all integers
    or all datetimes. *)
Definition sortable (l : list value) : bool :=
  forallb is_VStr l || forallb is_VInt l || forallb is_VTime l.

(** [np.unique] and [np.split] on the sorted paths: one group per key
    value, in ascending order of the keys. *)
Fixpoint group_sorted (l : list (value * string)) : list (value * list string) :=
  match l with
  | [] => []
  | (k, fpath) :: l' =>
      match group_sorted l' with
      | (k', fpaths) :: groups =>
          if bool_decide (k = k') then (k, fpath :: fpaths) :: groups
          else (k, [fpath]) :: (k', fpaths) :: groups
      | [] => [(k, [fpath])]
      end
  end.

(** [a[a.argsort()]] on the pairs of a key value and its path: ascending
    keys.  numpy fixes no order among equal keys on long arrays; on short
    ones it keeps the order of the input, which is what [insert_pair] does.
    No statement of this development depends on the order inside a group. *)
Fixpoint insert_pair (x : value * string) (l : list (value * string))
  : list (value * string) :=
  match l with
  | [] => [x]
  | y :: l' => if value_leb x.1 y.1 then x :: l else y :: insert_pair x l'
  end.

Definition sort_pairs (l : list (value * string)) : list (value * string) :=
  foldr insert_pair [] l.

(** Key values that are lists (the scenes of the Japan sector) or of
    different kinds make arrays of another shape or type, on which the
    calls below do something else: these inputs are left out. *)
Definition _group_fpaths_by_key (fpaths : list string) (product_level : option string)
    (key : string) : result (list (value * list string)) :=
  list_key_values ← _get_key_from_filepaths fpaths key;
  if negb (sortable list_key_values)
  then Raise (Unsupported "numpy arrays of mixed or nested key values")
  else
    let sorted_pairs := sort_pairs (zip list_key_values fpaths) in
    Ok (group_sorted sorted_pairs).

(** ** Search *)

(** [os.path.exists], [os.path.isdir], the external
    [himawari_api.utils.time._dt_to_year_month_day_hhmm] and the [glob] of
    the [fsspec] filesystem of a protocol. *)
Variable os_path_exists : string → bool.
Variable os_path_isdir : string → bool.
Variable _dt_to_year_month_day_hhmm : Z → list string.
Variable fs_glob : string → string → result (list string).

Definition _check_base_dir (base_dir : option string) : result (option string) :=
  match base_dir with
  | None => Ok None
  | Some dir =>
      if negb (os_path_exists dir)
      then Raise (OSError [Txt "`base_dir` "; Txt dir; Txt " does not exist."])
      else if negb (os_path_isdir dir)
      then Raise (OSError [Txt "`base_dir` "; Txt dir; Txt " is not a directory."])
      else Ok (Some dir)
  end.

(** The filesystem is named by its protocol. *)
Definition get_filesystem (protocol : option string) : result string :=
  if bool_decide (protocol = Some "s3") then Ok "s3"
  else if bool_decide (protocol ∈ [Some "local"; Some "file"]) then Ok "file"
  else Raise (NotImplementedError [Txt "Current available protocols are 's3', 'local'."]).

Definition _get_product_dir (satellite product_level product sector : string)
    (protocol base_dir : option string) : result string :=
  bucket ←
    match base_dir with
    | None => get_bucket protocol satellite
    | Some base_dir =>
        let bucket := path_join base_dir (str_upper satellite) in
        if negb (os_path_exists bucket)
        then Raise (OSError [Txt "The directory "; Txt bucket; Txt " does not exist."])
        else Ok bucket
    end;
  product_name ← _get_product_name product_level product sector;
  Ok (path_join bucket product_name).

(** [pd.date_range(start_time, end_time, freq="10min")] *)
Definition date_range (start_time end_time : Z) : list Z :=
  (λ k, start_time + k * timedelta 10 0)
    <$> seqZ 0 ((end_time - start_time) `div` timedelta 10 0 + 1).

(** [sep.join(l)] *)
Fixpoint str_join (sep : string) (l : list string) : string :=
  match l with
  | [] => ""
  | [s] => s
  | s :: l' => s +:+ sep +:+ str_join sep l'
  end.

(** The loop over the directories: list, put the bucket prefix back,
    filter, accumulate. *)
Fixpoint search_directories (fs bucket_prefix product_level : string)
    (start_time end_time : Z) (filter_parameters : filter_parameters_t)
    (list_glob_pattern : list string) : result (list string) :=
  match list_glob_pattern with
  | [] => Ok []
  | glob_pattern :: rest =>
      fpaths ← fs_glob fs glob_pattern;
      let fpaths := (λ fpath, bucket_prefix +:+ fpath) <$> fpaths in
      fpaths ← _filter_files fpaths product_level (Some start_time) (Some end_time)
                 (fp_channels filter_parameters) (fp_scene_abbr filter_parameters);
      list_fpaths ← search_directories fs bucket_prefix product_level start_time end_time
                      filter_parameters rest;
      Ok (fpaths ++ list_fpaths)%list
  end.

Definition find_files (satellite product_level product : string) (start_time end_time : Z)
    (sector : option string) (filter_parameters : filter_parameters_t)
    (group_by_key connection_type base_dir protocol : option string) : result fpaths_t :=
  if bool_decide (protocol = None) && bool_decide (base_dir = None)
  then Raise (ValueError [Txt "Specify 1 between `base_dir` and `protocol`"])
  else
    protocol ←
      match base_dir, protocol with
      | Some _, Some p =>
          if negb (bool_decide (p ∈ ["file"; "local"]))
          then Raise (ValueError [Txt "If base_dir is specified, protocol must be None."])
          else Ok protocol
      | Some _, None => Ok (Some "file")
      | None, _ => Ok protocol
      end;
    protocol ← _check_protocol protocol;
    base_dir ← _check_base_dir base_dir;
    connection_type ← _check_connection_type connection_type protocol;
    satellite ← _check_satellite satellite;
    product_level ← _check_product_level product_level None;
    product ← _check_product product (Some product_level);
    sector ← _check_sector sector (Some product);
    '(start_time, end_time) ← _check_start_end_time start_time end_time;
    filter_parameters ← _check_filter_parameters filter_parameters sector;
    group_by_key ← _check_group_by_key group_by_key;
    fs ← get_filesystem protocol;
    bucket_prefix ← _get_bucket_prefix protocol;
    product_dir ← _get_product_dir satellite product_level product sector protocol base_dir;
    let list_hourly_times := date_range start_time end_time in
    let list_time_dir_tree :=
      (λ dt, str_join "/" (_dt_to_year_month_day_hhmm dt)) <$> list_hourly_times in
    fname_glob_pattern ← get_fname_glob_pattern product_level;
    let list_glob_pattern :=
      (λ time_dir_tree, path_join (path_join product_dir time_dir_tree) fname_glob_pattern)
        <$> list_time_dir_tree in
    list_fpaths ← search_directories fs bucket_prefix product_level start_time end_time
                    filter_parameters list_glob_pattern;
    fpaths ←
      match group_by_key with
      | Some key =>
          if bool_decide (key = "") then Ok (FList list_fpaths)
          else groups ← _group_fpaths_by_key list_fpaths (Some product_level) key;
             Ok (FDict groups)
      | None => Ok (FList list_fpaths)
      end;
    _set_connection_type fpaths satellite protocol connection_type.

(** ** Closest and previous time steps *)

(** [list(fpath_dict.keys())]; a list of paths has no keys. *)
Definition dict_keys (fpaths : fpaths_t) : result (list value) :=
  match fpaths with
  | FDict groups => Ok groups.*1
  | FList _ => Raise AttributeError
  end.

(** A key used as a datetime. *)
Definition as_datetime (v : value) : result Z :=
  match v with
  | VTime t => Ok t
  | _ => Raise (TypeError [Txt "unsupported operand type(s)"])
  end.

(** [np.argmin(l)]: the index of the first least element. *)
Fixpoint np_argmin (l : list Z) : nat :=
  match l with
  | [] => 0%nat
  | x :: l' =>
      match l' with
      | [] => 0%nat
      | _ :: _ =>
          let i := np_argmin l' in
          if bool_decide (x ≤ l' !!! i) then 0%nat else S i
      end
  end.

Definition find_closest_start_time (time : Z) (satellite product_level product : string)
    (sector base_dir protocol : option string) (filter_parameters : filter_parameters_t)
  : result Z :=
  let time := replace_second_microsecond time in
  timedelta ← _get_acquisition_max_timedelta sector;
  let start_time := time - timedelta in
  let end_time := time + timedelta in
  fpath_dict ← find_files satellite product_level product start_time end_time sector
                 filter_parameters (Some "start_time") None base_dir protocol;
  keys ← dict_keys fpath_dict;
  list_datetime ← check_each as_datetime keys;
  let list_datetime := sorted list_datetime in
  if (length list_datetime =? 0)%nat
  then Raise (ValueError [Txt "No data available in previous and next ";
                          Num (timedelta `div` 60000000); Txt " minutes around ";
                          Stamp time; Txt "."])
  else
    let idx_closest := np_argmin ((λ t, Z.abs (t - time)) <$> list_datetime) in
    match list_datetime !! idx_closest with
    | Some datetime_closest => Ok datetime_closest
    | None => Raise IndexError
    end.

(** [l.remove(x)]: drops the first [x]; an absent [x] is an error. *)
Fixpoint list_remove (x : Z) (l : list Z) : result (list Z) :=
  match l with
  | [] => Raise (ValueError [Txt "list.remove(x): x not in list"])
  | y :: l' => if bool_decide (y = x) then Ok l' else l'' ← list_remove x l'; Ok (y :: l'')
  end.

(** [l[-n:]] *)
Definition last_n (n : Z) (l : list Z) : list Z :=
  if bool_decide (n = 0) then l
  else if bool_decide (n < 0) then drop (Z.to_nat (- n)) l
  else drop (length l - Z.to_nat n) l.

(** [{tt: fpath_dict[tt] for tt in list_datetime}] *)
Fixpoint select_keys (groups : list (value * list string)) (list_datetime : list Z)
  : result (list (value * list string)) :=
  match list_datetime with
  | [] => Ok []
  | t :: rest =>
      match List.find (λ kv, bool_decide (kv.1 = VTime t)) groups with
      | Some kv => selected ← select_keys groups rest; Ok ((VTime t, kv.2) :: selected)
      | None => Raise (KeyError "tt")
      end
  end.

Definition find_previous_files (start_time N : Z) (satellite product_level product : string)
    (sector : option string) (filter_parameters : filter_parameters_t)
    (connection_type base_dir protocol : option string)
    (include_start_time check_consistency : bool) : result fpaths_t :=
  sector ← _check_sector sector None;
  product_level ← _check_product_level product_level None;
  let start_time := replace_second_microsecond start_time in
  closest_time ← find_closest_start_time start_time satellite product_level product
                   (Some sector) base_dir protocol filter_parameters;
  if check_consistency && negb (bool_decide (closest_time = start_time))
  then Raise (ValueError [Txt "start_time='"; Stamp start_time;
                          Txt "' is not an actual start_time. ";
                          Txt "The closest start_time is '"; Stamp closest_time; Txt "'"])
  else
    timedelta ← _get_acquisition_max_timedelta (Some sector);
    let start_time := closest_time - timedelta * (N + 1) in
    let end_time := closest_time in
    fpath_dict ← find_files satellite product_level product start_time end_time (Some sector)
                   filter_parameters (Some "start_time") connection_type base_dir protocol;
    keys ← dict_keys fpath_dict;
    list_datetime ← check_each as_datetime keys;
    let list_datetime := sorted list_datetime in
    list_datetime ← (if negb include_start_time then list_remove closest_time list_datetime
                     else Ok list_datetime);
    let list_datetime := sorted list_datetime in
    if (length list_datetime =? 0)%nat
    then Raise (ValueError [Txt "No data available between "; Stamp start_time;
                            Txt " and "; Stamp end_time; Txt "."])
    else if bool_decide (Z.of_nat (length list_datetime) < N)
    then Raise (ValueError [Txt "No "; Num N; Txt " timesteps available between ";
                            Stamp start_time; Txt " and "; Stamp end_time; Txt "."])
    else
      let list_datetime := last_n N list_datetime in
      groups ← match fpath_dict with
               | FDict groups => select_keys groups list_datetime
               | FList _ => Raise (TypeError [Txt "list indices must be integers"])
               end;
      _ ← (if check_consistency
           then _check_interval_regularity
                  (if negb include_start_time then (list_datetime ++ [closest_time])%list
                   else list_datetime)
           else Ok tt);
      Ok (FDict groups).

(** ** The other entry points *)

Definition get_key_from_filepaths (fpaths : fpaths_t) (key : string) : result key_values_t :=
  match fpaths with
  | FDict groups =>
      groups ← for_items (λ v, _get_key_from_filepaths v key) groups;
      Ok (KDict groups)
  | FList fpaths =>
      values ← _get_key_from_filepaths fpaths key;
      Ok (KList values)
  end.

Definition filter_files (fpaths : list string) (product_level : string)
    (start_time end_time : option Z) (scene_abbr channels : option (list string))
  : result (list string) :=
  product_level ← _check_product_level product_level None;
  channels ← _check_channels channels;
  scene_abbr ← _check_scene_abbr scene_abbr None;
  start_time ← _check_time start_time;
  end_time ← _check_time end_time;
  '(start_time, end_time) ← _check_start_end_time start_time end_time;
  _filter_files fpaths product_level (Some start_time) (Some end_time) channels scene_abbr.

(** With the key [None] the lookup [info_dict[None]] of the first path
    fails. *)
Definition group_files (fpaths : fpaths_t) (key : option string)
  : result (list (value * list string)) :=
  match fpaths with
  | FDict _ =>
      Raise (TypeError [Txt "It's not possible to group a dictionary ! ";
                        Txt "Pass a list of filepaths instead."])
  | FList fpaths =>
      key ← _check_group_by_key key;
      match key with
      | Some key => _group_fpaths_by_key fpaths None key
      | None =>
          match fpaths with
          | [] => Ok []
          | fpath :: _ => _ ← _get_info_from_filepath fpath; Raise (KeyError "None")
          end
      end
  end.

(** A key handed to [np.argmax]; this development follows numpy on
    datetimes only. *)
Definition datetime_key (v : value) : result Z :=
  match v with
  | VTime t => Ok t
  | _ => Raise (Unsupported "numpy argmax on keys that are not datetimes")
  end.

Definition find_latest_start_time (satellite product_level product : string)
    (sector connection_type base_dir protocol : option string)
    (filter_parameters : filter_parameters_t) (look_ahead_minutes : Z) : result Z :=
  let start_time := utcnow - timedelta look_ahead_minutes 0 in
  let end_time := utcnow in
  fpath_dict ← find_files satellite product_level product start_time end_time sector
                 filter_parameters (Some "start_time") connection_type base_dir protocol;
  if (len_fpaths fpath_dict =? 0)%nat
  then Raise (ValueError [Txt "No data found. Maybe try to increase `look_ahead_minutes`."])
  else
    keys ← dict_keys fpath_dict;
    list_datetime ← check_each datetime_key keys;
    let idx_latest := np_argmax list_datetime in
    match list_datetime !! idx_latest with
    | Some datetime_latest => Ok datetime_latest
    | None => Raise IndexError
    end.

(** [fpath_dict[key]] *)
Definition dict_getitem (fpaths : fpaths_t) (key : value) : result (list string) :=
  match fpaths with
  | FDict groups =>
      match List.find (λ kv, bool_decide (kv.1 = key)) groups with
      | Some kv => Ok kv.2
      | None => Raise (KeyError "datetime_closest")
      end
  | FList _ => Raise (TypeError [Txt "list indices must be integers"])
  end.

(** The argument [connection_type] is not handed to the search. *)
Definition find_closest_files (time : Z) (satellite product_level product : string)
    (sector connection_type base_dir protocol : option string)
    (filter_parameters : filter_parameters_t) : result (list string) :=
  let time := replace_second_microsecond time in
  timedelta ← _get_acquisition_max_timedelta sector;
  let start_time := time - timedelta in
  let end_time := time + timedelta in
  fpath_dict ← find_files satellite product_level product start_time end_time sector
                 filter_parameters (Some "start_time") None base_dir protocol;
  keys ← dict_keys fpath_dict;
  list_datetime ← check_each as_datetime keys;
  let list_datetime := sorted list_datetime in
  if (length list_datetime =? 0)%nat
  then Raise (ValueError [Txt "No data available in previous and next ";
                          Num (timedelta `div` 60000000); Txt " minutes around ";
                          Stamp time; Txt "."])
  else
    let idx_closest := np_argmin ((λ t, Z.abs (t - time)) <$> list_datetime) in
    match list_datetime !! idx_closest with
    | Some datetime_closest => dict_getitem fpath_dict (VTime datetime_closest)
    | None => Raise IndexError
    end.

Definition find_next_files (start_time N : Z) (satellite product_level product : string)
    (sector : option string) (filter_parameters : filter_parameters_t)
    (connection_type base_dir protocol : option string)
    (include_start_time check_consistency : bool) : result fpaths_t :=
  sector ← _check_sector sector None;
  product_level ← _check_product_level product_level None;
  let start_time := replace_second_microsecond start_time in
  closest_time ← find_closest_start_time start_time satellite product_level product
                   (Some sector) base_dir protocol filter_parameters;
  if check_consistency && negb (bool_decide (closest_time = start_time))
  then Raise (ValueError [Txt "start_time='"; Stamp start_time;
                          Txt "' is not an actual start_time. ";
                          Txt "The closest start_time is '"; Stamp closest_time; Txt "'"])
  else
    timedelta ← _get_acquisition_max_timedelta (Some sector);
    let start_time := closest_time in
    let end_time := closest_time + timedelta * (N + 1) in
    fpath_dict ← find_files satellite product_level product start_time end_time (Some sector)
                   filter_parameters (Some "start_time") connection_type base_dir protocol;
    keys ← dict_keys fpath_dict;
    list_datetime ← check_each as_datetime keys;
    let list_datetime := sorted list_datetime in
    list_datetime ← (if negb include_start_time then list_remove closest_time list_datetime
                     else Ok list_datetime);
    let list_datetime := sorted list_datetime in
    if (length list_datetime =? 0)%nat
    then Raise (ValueError [Txt "No data available between "; Stamp start_time;
                            Txt " and "; Stamp end_time; Txt "."])
    else if bool_decide (Z.of_nat (length list_datetime) < N)
    then Raise (ValueError [Txt "No "; Num N; Txt " timesteps available between ";
                            Stamp start_time; Txt " and "; Stamp end_time; Txt "."])
    else
      let list_datetime := first_n N list_datetime in
      groups ← match fpath_dict with
               | FDict groups => select_keys groups list_datetime
               | FList _ => Raise (TypeError [Txt "list indices must be integers"])
               end;
      _ ← (if check_consistency
           then _check_interval_regularity
                  (if negb include_start_time then (list_datetime ++ [closest_time])%list
                   else list_datetime)
           else Ok tt);
      Ok (FDict groups).

(** The latest start time is looked up without [connection_type]. *)
Definition find_latest_files (satellite product_level product : string)
    (sector connection_type base_dir protocol : option string)
    (filter_parameters : filter_parameters_t) (N : Z) (check_consistency : bool)
    (look_ahead_minutes : Z) : result fpaths_t :=
  latest_time ← find_latest_start_time satellite product_level product sector None base_dir
                  protocol filter_parameters look_ahead_minutes;
  find_previous_files latest_time N satellite product_level product sector filter_parameters
    connection_type base_dir protocol true check_consistency.

End Catalogue.

(** ** Predicates used in the statements *)

(** All the elements of a list are the same. *)
Definition all_equal (l : list Z) : Prop := ∀ x y, x ∈ l → y ∈ l → x = y.

(** A file with acquisition window [[fs, fe]] is left out by a query with
    optional bounds [qs] and [qe]: it ends before [qs] or starts after [qe]. *)
Definition outside_window (fs fe : Z) (qs qe : option Z) : Prop :=
  (∃ s, qs = Some s ∧ fe < s) ∨ (∃ e, qe = Some e ∧ fs > e).

(** The object-store path of [suffix] in the bucket of [satellite], and its
    public HTTPS form. *)
Definition bucket_path (satellite suffix : string) : string :=
  "s3://noaa-" +:+ str_remove "-" satellite +:+ "/" +:+ suffix.

Definition https_path (satellite suffix : string) : string :=
  "https://noaa-" +:+ str_remove "-" satellite +:+ ".s3.amazonaws.com" +:+ "/" +:+ suffix.

(** The satellite whose public endpoint a path of the bucket of
    [satellite] is sent to: the one read in the path, where the patterns of
    Himawari-8 are looked for first. *)
Definition endpoint_satellite (satellite suffix : string) : string :=
  if any_in himawari8_patterns suffix then "himawari-8" else satellite.

(** What the loop over the time fields does to one field. *)
Definition without_microsecond (field : option value) : option value :=
  match field with
  | Some (VTime t) => Some (VTime (replace_microsecond t))
  | _ => field
  end.

(** The times written in a file name are in order: there is no end time, or
    start and end are datetimes with the start not after the end. *)
Definition parsed_times_ordered (parsed : gmap string value) : Prop :=
  parsed !! "end_time" = None
  ∨ ∃ s e, parsed !! "start_time" = Some (VTime s)
           ∧ parsed !! "end_time" = Some (VTime e) ∧ s ≤ e.

(** The observation number read in the sector token, if any, is not
    negative. *)
Definition index_not_negative (parsed : gmap string value) : Prop :=
  ∀ token sector scene_abbr n,
    parsed !! "sector_observation_number" = Some token →
    _separate_sector_observation_number token = Ok (sector, scene_abbr, Some n) →
    0 ≤ n.

(** The file name has no sector token, or the token of the full disk, which
    carries no observation number. *)
Definition no_observation_number (parsed : gmap string value) : Prop :=
  ∀ token, parsed !! "sector_observation_number" = Some token →
           ∃ sector scene_abbr,
             _separate_sector_observation_number token = Ok (sector, scene_abbr, None).

(** The metadata of the file give a datetime start, not after [e]. *)
Definition starts_by (GLOB_FNAME_PATTERN : gmap string (gmap string (gmap string string)))
    (Parser_parse : string → string → result (gmap string value)) (e : Z) (fpath : string)
  : Prop :=
  ∃ info_dict ts, _get_info_from_filepath GLOB_FNAME_PATTERN Parser_parse fpath = Ok info_dict
                  ∧ info_dict !! "start_time" = Some (VTime ts) ∧ ts ≤ e.

(** A call returned, it did not raise. *)
Definition succeeds {A : Type} (r : result A) : bool :=
  if r is Ok _ then true else false.

(** The start times under which a search grouped the files it found. *)
Definition start_times_of (fpath_dict : fpaths_t) : result (list Z) :=
  keys ← dict_keys fpath_dict;
  check_each as_datetime keys.

(** [s.count(c)] *)
Fixpoint str_count (c : ascii) (s : string) : nat :=
  match s with
  | EmptyString => 0%nat
  | String a s' => if Ascii.eqb a c then S (str_count c s') else str_count c s'
  end.

(** The metadata of the file give a datetime start and a datetime end, and
    the acquisition [[start, end]] meets the window [[s, e]]. *)
Definition overlaps (GLOB_FNAME_PATTERN : gmap string (gmap string (gmap string string)))
    (Parser_parse : string → string → result (gmap string value)) (s e : Z) (fpath : string)
  : Prop :=
  ∃ info_dict ts te, _get_info_from_filepath GLOB_FNAME_PATTERN Parser_parse fpath = Ok info_dict
                     ∧ info_dict !! "start_time" = Some (VTime ts)
                     ∧ info_dict !! "end_time" = Some (VTime te)
                     ∧ ts ≤ e ∧ s ≤ te.

(** ** Sample data for the examples *)

(** A pattern table with the radiance product only, and a test double of the
    parser: the fields of a file name are read in a table. *)
Definition sample_patterns : gmap string (gmap string (gmap string string)) :=
  {[ "AHI" :=
       {[ "L1b" := {[ "Rad" := "HS_{platform_shortname}_{start_time}_{channel}_{sector_observation_number}.DAT.bz2" ]};
          "L2" := {[ "CMSK" := "AHI-{product}_{platform_shortname}_s{start_time}_e{end_time}.nc" ]} ]} ]}.

Definition sample_parse (table : list (string * gmap string value)) (fpattern fname : string)
  : result (gmap string value) :=
  match List.find (λ kv, bool_decide (kv.1 = fname)) table with
  | Some kv => Ok kv.2
  | None => Raise (ValueError [Txt "String does not match pattern."])
  end.

(** The fields of a radiance file of Himawari-8, channel B01. *)
Definition rad_fields (start_time : Z) (token : string) : gmap string value :=
  {[ "platform_shortname" := VStr "H08";
     "start_time" := VTime start_time;
     "channel" := VStr "B01";
     "sector_observation_number" := VStr token ]}.

(** The name of the radiance file scanned at [hh:mm] with the sector token
    [token]. *)
Definition rad_name (hh_mm token : string) : string :=
  "HS_H08_20210101_" +:+ hh_mm +:+ "_B01_" +:+ token +:+ "_R10_S0110.DAT.bz2".

(** The name and the fields of a cloud-mask file of Himawari-8 whose name
    gives its start and its end. *)
Definition cmsk_name (start_hh_mm end_hh_mm : string) : string :=
  "AHI-CMSK_h08_s20210101" +:+ start_hh_mm +:+ "_e20210101" +:+ end_hh_mm +:+ ".nc".

Definition cmsk_fields (start_time end_time : Z) : gmap string value :=
  {[ "platform_shortname" := VStr "h08";
     "product" := VStr "CMSK";
     "start_time" := VTime start_time;
     "end_time" := VTime end_time ]}.

Definition sample_table : list (string * gmap string value) :=
  [ (rad_name "1000" "FLDK", rad_fields (hhmm 10 0) "FLDK");
    (rad_name "1000" "JP02", rad_fields (hhmm 10 0) "JP02");
    (rad_name "1000" "R302", rad_fields (hhmm 10 0) "R302");
    (rad_name "1000" "R403", rad_fields (hhmm 10 0) "R403");
    (rad_name "1000" "R301", rad_fields (hhmm 10 0) "R301");
    (rad_name "1010" "FLDK", rad_fields (hhmm 10 10) "FLDK");
    (rad_name "0950" "FLDK", rad_fields (hhmm 9 50) "FLDK");
    (rad_name "0940" "FLDK", rad_fields (hhmm 9 40) "FLDK");
    (rad_name "0930" "FLDK", rad_fields (hhmm 9 30) "FLDK");
    (cmsk_name "1000" "1010", cmsk_fields (hhmm 10 0) (hhmm 10 10));
    (cmsk_name "1010" "1000", cmsk_fields (hhmm 10 10) (hhmm 10 0)) ].


(** The products of the sensor, no sector exception, a clock at 23:00 of the
    reference day. *)
Definition sample_products : list (string * list (string * list string)) :=
  [ ("AHI", [ ("L1b", ["Rad"]); ("L2", ["CMSK"; "CHGT"; "CPHS"; "RRQPE"]) ]) ].

Definition sample_exceptions : gmap string (list string) := ∅.

Definition sample_utcnow : Z := hhmm 23 0.

(** A test double of the object store: whatever the pattern, the listing of
    a directory holding the given files of the bucket of Himawari-8. *)
Definition sample_glob (fnames : list string) (fs glob_pattern : string)
  : result (list string) :=
  Ok ((λ fname, "noaa-himawari8/AHI-L1b/" +:+ fname) <$> fnames).

(** The same for a directory of the bucket of Himawari-9. *)
Definition sample_glob_himawari9 (fnames : list string) (fs glob_pattern : string)
  : result (list string) :=
  Ok ((λ fname, "noaa-himawari9/AHI-L1b-FLDK/2021/01/01/1000/" +:+ fname) <$> fnames).

Definition sample_dt_to_year_month_day_hhmm (dt : Z) : list string :=
  ["2021"; "01"; "01"; "1000"].

(** The search over the sample store. *)
Definition sample_find_files (fnames : list string) (start_time end_time : Z)
    (sector : option string) : result fpaths_t :=
  find_files sample_patterns (sample_parse sample_table) sample_products
    sample_exceptions sample_utcnow (λ _, true) (λ _, true) sample_dt_to_year_month_day_hhmm
    (sample_glob fnames) "H8" "L1b" "Rad" start_time end_time sector
    (FilterParameters None None) (Some "start_time") None None (Some "s3").

Definition sample_find_closest_start_time (fnames : list string) (time : Z)
    (sector : option string) : result Z :=
  find_closest_start_time sample_patterns (sample_parse sample_table) sample_products
    sample_exceptions sample_utcnow (λ _, true) (λ _, true) sample_dt_to_year_month_day_hhmm
    (sample_glob fnames) time "H8" "L1b" "Rad" sector None (Some "s3")
    (FilterParameters None None).

Definition sample_find_previous_files (fnames : list string) (start_time N : Z)
    (sector : option string) : result fpaths_t :=
  find_previous_files sample_patterns (sample_parse sample_table) sample_products
    sample_exceptions sample_utcnow (λ _, true) (λ _, true) sample_dt_to_year_month_day_hhmm
    (sample_glob fnames) start_time N "H8" "L1b" "Rad" sector (FilterParameters None None)
    None None (Some "s3") false true.

(** The four scans of the Target sector filed under 10:00, and a clock at
    10:15 of the reference day. *)
Definition sample_table_target : list (string * gmap string value) :=
  [ (rad_name "1000" "R301", rad_fields (hhmm 10 0) "R301");
    (rad_name "1000" "R302", rad_fields (hhmm 10 0) "R302");
    (rad_name "1000" "R303", rad_fields (hhmm 10 0) "R303");
    (rad_name "1000" "R304", rad_fields (hhmm 10 0) "R304") ].

Definition sample_target_scans : list string :=
  [ rad_name "1000" "R301"; rad_name "1000" "R302";
    rad_name "1000" "R303"; rad_name "1000" "R304" ].

Definition sample_clock : Z := hhmm 10 15.

(** * Properties *)

(** ** The error monad *)

Lemma bind_Ok {A B : Type} (m : result A) (f : A → result B) (b : B) :
  m ≫= f = Ok b ↔ ∃ a, m = Ok a ∧ f a = Ok b.
Proof.
  destruct m as [a|e]; simpl; split.
  - intros H. exists a. split; [reflexivity | exact H].
  - intros (a' & Ha & H). injection Ha as ->. exact H.
  - discriminate.
  - intros (a' & Ha & _). discriminate.
Qed.

(** Splits a successful chain of binds in a hypothesis into its steps. *)
Ltac inv_bind H :=
  let a := fresh "a" in
  let Ha := fresh "Ha" in
  apply bind_Ok in H; destruct H as (a & Ha & H).

Tactic Notation "inv_bind_as" hyp(H) ident(a) ident(Ha) :=
  apply bind_Ok in H; destruct H as (a & Ha & H).

Lemma check_each_Ok {A B : Type} (f : A → result B) (l : list A) (r : list B) :
  check_each f l = Ok r ↔ Forall2 (λ x y, f x = Ok y) l r.
Proof.
  revert r. induction l as [|x l IH]; intros r; simpl.
  - split.
    + intros [= <-]. constructor.
    + intros H. inversion H. reflexivity.
  - split.
    + intros H. inv_bind H. inv_bind H. injection H as <-.
      constructor; [assumption | by apply IH].
    + intros H. inversion H as [|? y ? ys Hx Hl]; subst.
      apply bind_Ok. exists y. split; [assumption|].
      apply bind_Ok. exists ys. split; [by apply IH | reflexivity].
Qed.

(** ** Sorting and the regularity check *)

Lemma sorted_Permutation (l : list Z) : sorted l ≡ₚ l.
Proof. apply merge_sort_Permutation. Qed.

Lemma sorted_length (l : list Z) : length (sorted l) = length l.
Proof. by rewrite sorted_Permutation. Qed.

Lemma sorted_elem_of (l : list Z) (x : Z) : x ∈ sorted l ↔ x ∈ l.
Proof. by rewrite sorted_Permutation. Qed.

Lemma sorted_StronglySorted (l : list Z) : StronglySorted Z.le (sorted l).
Proof. apply StronglySorted_merge_sort; apply _. Qed.

Lemma np_diff_length (l : list Z) : length (np_diff l) = (length l - 1)%nat.
Proof.
  induction l as [|x [|y l] IH]; [reflexivity..|].
  change (np_diff (x :: y :: l)) with ((y - x) :: np_diff (y :: l)).
  simpl in *. rewrite IH. lia.
Qed.

Lemma NoDup_all_equal_length (l : list Z) :
  NoDup l → all_equal l → (length l ≤ 1)%nat.
Proof.
  intros Hnd Heq. destruct l as [|x [|y l]]; simpl; [lia..|].
  exfalso. apply NoDup_cons in Hnd as [Hx _]. apply Hx.
  rewrite (Heq x y); [left | left | right; left].
Qed.

Lemma np_unique_length_1 (l : list Z) :
  l ≠ [] → (length (np_unique l) = 1%nat ↔ all_equal l).
Proof.
  intros Hne. unfold np_unique.
  rewrite (Permutation_length (merge_sort_Permutation Z.le (remove_dups l))).
  split.
  - intros Hlen x y Hx Hy.
    apply elem_of_remove_dups in Hx, Hy.
    destruct (remove_dups l) as [|a [|b r]]; simpl in Hlen; try lia.
    apply list_elem_of_singleton in Hx, Hy. congruence.
  - intros Heq.
    assert (length (remove_dups l) ≤ 1)%nat as Hle.
    { apply NoDup_all_equal_length; [apply NoDup_remove_dups|].
      intros x y Hx Hy. apply Heq; by apply elem_of_remove_dups. }
    destruct l as [|a l]; [done|].
    assert (a ∈ remove_dups (a :: l)) as Ha by (apply elem_of_remove_dups; left).
    destruct (remove_dups (a :: l)); [by apply elem_of_nil in Ha | simpl in *; lia].
Qed.

Lemma check_interval_regularity_cases (l : list Z) :
  ((2 ≤ length l)%nat ∧ ¬ all_equal (np_diff (sorted l))
   ∧ _check_interval_regularity l
     = Raise (ValueError [Txt "The time interval is not regular!"]))
  ∨ (¬ ((2 ≤ length l)%nat ∧ ¬ all_equal (np_diff (sorted l)))
     ∧ _check_interval_regularity l = Ok tt).
Proof.
  unfold _check_interval_regularity.
  destruct (Nat.ltb_spec (length l) 2) as [Hlt|Hge].
  { right. split; [lia | reflexivity]. }
  assert (np_diff (sorted l) ≠ []) as Hne.
  { intros Hnil. apply (f_equal length) in Hnil.
    rewrite np_diff_length, sorted_length in Hnil. simpl in Hnil. lia. }
  pose proof (np_unique_length_1 _ Hne) as Hu.
  destruct (Nat.eqb_spec (length (np_unique (np_diff (sorted l)))) 1) as [H1|H1]; simpl.
  - right. split; [|reflexivity]. intros [_ Hn]. apply Hn, Hu, H1.
  - left. split; [lia|]. split; [|reflexivity]. intros Ha. apply H1, Hu, Ha.
Qed.

(** C8: the regularity check raises the irregular-interval error exactly when
    the list holds at least two time steps and the consecutive differences of
    the sorted time steps are not all equal; it passes on
    [10:00, 10:10, 10:20] and raises on [10:00, 10:10, 10:25]. *)
Theorem check_interval_regularity_raises_iff :
  (∀ l : list Z,
     _check_interval_regularity l = Raise (ValueError [Txt "The time interval is not regular!"])
     ↔ (2 ≤ length l)%nat ∧ ¬ all_equal (np_diff (sorted l)))
  ∧ (∀ l : list Z,
       _check_interval_regularity l = Ok tt
       ↔ ¬ ((2 ≤ length l)%nat ∧ ¬ all_equal (np_diff (sorted l))))
  ∧ _check_interval_regularity [hhmm 10 0; hhmm 10 10; hhmm 10 20] = Ok tt
  ∧ _check_interval_regularity [hhmm 10 0; hhmm 10 10; hhmm 10 25]
    = Raise (ValueError [Txt "The time interval is not regular!"]).
Proof.
  split; [|split; [|split; reflexivity]].
  - intros l. destruct (check_interval_regularity_cases l) as [(H2 & Hn & ->)|[Hn ->]].
    + split; [intros _; by split | reflexivity].
    + split; [discriminate | intros H; by destruct Hn].
  - intros l. destruct (check_interval_regularity_cases l) as [(H2 & Hn & ->)|[Hn ->]].
    + split; [discriminate | intros H; destruct H; by split].
    + split; [intros _; exact Hn | reflexivity].
Qed.

(** ** Glob pattern *)

(** C6: the glob pattern of level L1b is the archive wildcard; for level L2
    the function stops on its unbound local instead of returning the NetCDF
    wildcard. *)
Theorem get_fname_glob_pattern_L2_unbound :
  get_fname_glob_pattern "L1b" = Ok "*.bz2*"
  ∧ get_fname_glob_pattern "L2" = Raise (UnboundLocalError "fname_pattern")
  ∧ get_fname_glob_pattern "L2" ≠ Ok "*.nc*".
Proof. repeat split; discriminate. Qed.

(** ** Aliases *)

Lemma find_alias_Some (table : list (string * list string)) (s key : string) :
  find_alias table s = Some key → ∃ l, (key, l) ∈ table ∧ s ∈ l.
Proof.
  induction table as [|[k l] table IH]; simpl; [discriminate|].
  case_bool_decide as Hin.
  - intros [= <-]. exists l. split; [left | exact Hin].
  - intros H. destruct (IH H) as (l' & Hl' & Hs). exists l'. split; [by right | exact Hs].
Qed.

Lemma find_alias_None (table : list (string * list string)) (s : string) :
  find_alias table s = None ↔ ∀ key l, (key, l) ∈ table → s ∉ l.
Proof.
  induction table as [|[k l] table IH]; simpl.
  - split; [intros _ key l H; by apply elem_of_nil in H | done].
  - case_bool_decide as Hin.
    + split; [discriminate|]. intros H. exfalso. apply (H k l); [left | exact Hin].
    + rewrite IH. split.
      * intros H key l' Hk. apply elem_of_cons in Hk as [[= -> ->]|Hk]; [exact Hin | by eapply H].
      * intros H key l' Hk. apply (H key). by right.
Qed.

(** A satellite name whose upper-case form is in no alias list is refused,
    and the error lists the canonical keys. *)
Lemma check_satellite_unknown (satellite : string) :
  (∀ key l, (key, l) ∈ _satellites → str_upper satellite ∉ l) →
  _check_satellite satellite
  = Raise (ValueError [Txt "Available satellite: "; Keys ["himawari-8"; "himawari-9"]]).
Proof.
  intros H. unfold _check_satellite. by rewrite (proj2 (find_alias_None _ _) H).
Qed.

(** C5: the alias "H08" is listed under himawari-9 and resolves to
    himawari-8, "H09" is refused, and the alias "B16" listed under B15
    resolves to B16. *)
Theorem check_satellite_H08_listed_twice :
  (∃ l, ("himawari-9", l) ∈ _satellites ∧ "H08" ∈ l)
  ∧ _check_satellite "H08" = Ok "himawari-8"
  ∧ _check_satellite "H09"
    = Raise (ValueError [Txt "Available satellite: "; Keys ["himawari-8"; "himawari-9"]])
  ∧ (∃ l, ("B15", l) ∈ _channels ∧ "B16" ∈ l)
  ∧ _check_channel "B16" = Ok "B16".
Proof.
  split; [|split; [reflexivity|split; [reflexivity|split; [|reflexivity]]]].
  - eexists. split; [right; left|]. right; left.
  - eexists. split; [do 14 right; left|]. left.
Qed.

(** ** Filtering by time window *)

Lemma filter_file_window GLOB_FNAME_PATTERN Parser_parse
    (fpath product_level : string) (info_dict : gmap string value) (fs fe : Z)
    (qs qe : option Z) :
  _get_info_from_filepath GLOB_FNAME_PATTERN Parser_parse fpath = Ok info_dict →
  info_dict !! "start_time" = Some (VTime fs) →
  info_dict !! "end_time" = Some (VTime fe) →
  (outside_window fs fe qs qe
   ∧ _filter_file GLOB_FNAME_PATTERN Parser_parse fpath product_level qs qe None None = Ok None)
  ∨ (¬ outside_window fs fe qs qe
     ∧ _filter_file GLOB_FNAME_PATTERN Parser_parse fpath product_level qs qe None None
       = Ok (Some fpath)).
Proof.
  intros Hinfo Hs He. unfold _filter_file, outside_window. rewrite Hinfo. simpl.
  rewrite Hs, He.
  destruct qs as [s|], qe as [e|]; simpl; repeat case_bool_decide; simpl;
    first [ left; split; [|reflexivity]; eauto; fail
          | right; split; [|reflexivity];
            intros [(? & [= <-] & ?)|(? & [= <-] & ?)]; lia
          | right; split; [|reflexivity];
            intros [(? & ? & ?)|(? & ? & ?)]; first [discriminate | simplify_eq; lia] ].
Qed.

Lemma get_key_from_filepaths_singleton GLOB_FNAME_PATTERN Parser_parse
    (fpath key : string) (v : value) :
  _get_key_from_filepaths GLOB_FNAME_PATTERN Parser_parse [fpath] key = Ok [v] →
  ∃ info_dict, _get_info_from_filepath GLOB_FNAME_PATTERN Parser_parse fpath = Ok info_dict
               ∧ info_dict !! key = Some v.
Proof.
  unfold _get_key_from_filepaths. simpl. intros H.
  inv_bind_as H v' Hv. inv_bind_as Hv info_dict Hinfo. injection H as ->.
  exists info_dict. split; [exact Hinfo|]. unfold getitem in Hv.
  destruct (info_dict !! key); [by injection Hv as -> | discriminate].
Qed.

(** C2: without channel or scene filter, a file whose metadata give the
    window [[fs, fe]] is kept exactly when it is not the case that it ends
    strictly before the start of the query or starts strictly after its end;
    the window [10:00, 10:10] is kept for [10:05, 10:06], [09:55, 10:01] and
    [10:09, 10:20] and left out for [10:11, 10:20] and [09:00, 09:59]. *)
Theorem filter_file_interval_overlap GLOB_FNAME_PATTERN Parser_parse
    (fpath product_level : string) (fs fe : Z) :
  _get_key_from_filepaths GLOB_FNAME_PATTERN Parser_parse [fpath] "start_time"
  = Ok [VTime fs] →
  _get_key_from_filepaths GLOB_FNAME_PATTERN Parser_parse [fpath] "end_time"
  = Ok [VTime fe] →
  let keep := _filter_file GLOB_FNAME_PATTERN Parser_parse fpath product_level in
  (∀ qs qe, keep qs qe None None = Ok (Some fpath) ↔ ¬ outside_window fs fe qs qe)
  ∧ (∀ qs qe, keep qs qe None None = Ok None ↔ outside_window fs fe qs qe)
  ∧ (fs = hhmm 10 0 → fe = hhmm 10 10 →
     keep (Some (hhmm 10 5)) (Some (hhmm 10 6)) None None = Ok (Some fpath)
     ∧ keep (Some (hhmm 9 55)) (Some (hhmm 10 1)) None None = Ok (Some fpath)
     ∧ keep (Some (hhmm 10 9)) (Some (hhmm 10 20)) None None = Ok (Some fpath)
     ∧ keep (Some (hhmm 10 11)) (Some (hhmm 10 20)) None None = Ok None
     ∧ keep (Some (hhmm 9 0)) (Some (hhmm 9 59)) None None = Ok None).
Proof.
  intros Hstart Hend keep.
  apply get_key_from_filepaths_singleton in Hstart as (info_dict & Hinfo & Hs).
  apply get_key_from_filepaths_singleton in Hend as (info_dict' & Hinfo' & He).
  rewrite Hinfo in Hinfo'. injection Hinfo' as <-.
  assert (∀ qs qe, keep qs qe None None = Ok (Some fpath) ↔ ¬ outside_window fs fe qs qe) as Hk.
  { intros qs qe. unfold keep.
    destruct (filter_file_window _ _ fpath product_level _ _ _ qs qe Hinfo Hs He)
      as [[Ho ->]|[Ho ->]]; split; try done. }
  assert (∀ qs qe, keep qs qe None None = Ok None ↔ outside_window fs fe qs qe) as Hn.
  { intros qs qe. unfold keep.
    destruct (filter_file_window _ _ fpath product_level _ _ _ qs qe Hinfo Hs He)
      as [[Ho ->]|[Ho ->]]; split; try done. }
  split; [exact Hk|]. split; [exact Hn|].
  intros -> ->. unfold outside_window in *.
  repeat split.
  - apply Hk. intros [(? & [= <-] & H)|(? & [= <-] & H)]; vm_compute in H; discriminate.
  - apply Hk. intros [(? & [= <-] & H)|(? & [= <-] & H)]; vm_compute in H; discriminate.
  - apply Hk. intros [(? & [= <-] & H)|(? & [= <-] & H)]; vm_compute in H; discriminate.
  - apply Hn. left. eexists. split; [reflexivity|]. reflexivity.
  - apply Hn. right. eexists. split; [reflexivity|]. reflexivity.
Qed.

Lemma filter_file_interval_overlap_witness :
  let fpath := "s3://noaa-himawari8/AHI-L1b-FLDK/2021/01/01/1000/" +:+ rad_name "1000" "FLDK" in
  let keep := _filter_file sample_patterns (sample_parse sample_table) fpath "L1b" in
  (∀ qs qe, keep qs qe None None = Ok (Some fpath)
            ↔ ¬ outside_window (hhmm 10 0) (hhmm 10 10) qs qe)
  ∧ (∀ qs qe, keep qs qe None None = Ok None ↔ outside_window (hhmm 10 0) (hhmm 10 10) qs qe)
  ∧ (hhmm 10 0 = hhmm 10 0 → hhmm 10 10 = hhmm 10 10 →
     keep (Some (hhmm 10 5)) (Some (hhmm 10 6)) None None = Ok (Some fpath)
     ∧ keep (Some (hhmm 9 55)) (Some (hhmm 10 1)) None None = Ok (Some fpath)
     ∧ keep (Some (hhmm 10 9)) (Some (hhmm 10 20)) None None = Ok (Some fpath)
     ∧ keep (Some (hhmm 10 11)) (Some (hhmm 10 20)) None None = Ok None
     ∧ keep (Some (hhmm 9 0)) (Some (hhmm 9 59)) None None = Ok None).
Proof.
  intros fpath keep.
  apply (filter_file_interval_overlap sample_patterns (sample_parse sample_table) fpath "L1b");
    vm_compute; reflexivity.
Defined.

(** ** Connection types *)

Lemma str_split_0 (sep : ascii) (s : string) : str_split sep 0 s = [s].
Proof. by destruct s. Qed.

Lemma str_split_bucket_path (satellite suffix : string) :
  satellite ∈ available_satellites →
  str_split "/" 3 (bucket_path satellite suffix) !! 3%nat = Some suffix.
Proof.
  intros Hsat. unfold available_satellites, keys, _satellites in Hsat. simpl in Hsat.
  apply elem_of_cons in Hsat as [->|Hsat];
    [|apply list_elem_of_singleton in Hsat as ->].
  - transitivity (("s3:" :: "" :: "noaa-himawari8" :: str_split "/" 0 suffix) !! 3%nat);
      [reflexivity | by rewrite str_split_0].
  - transitivity (("s3:" :: "" :: "noaa-himawari9" :: str_split "/" 0 suffix) !! 3%nat);
      [reflexivity | by rewrite str_split_0].
Qed.

Lemma prefix_app_l (p a b : string) :
  String.prefix p a = true → String.prefix p (a +:+ b) = true.
Proof.
  revert a. induction p as [|c p IH]; intros a H.
  - by destruct (a +:+ b).
  - destruct a as [|c' a]; [discriminate|]. simpl in *.
    destruct (ascii_dec c c'); [by apply IH | discriminate].
Qed.

Lemma str_in_app_l (p a b : string) : str_in p a = true → str_in p (a +:+ b) = true.
Proof.
  induction a as [|c a IH]; intros H.
  - destruct p; [by destruct b | discriminate].
  - change (String c a +:+ b) with (String c (a +:+ b)).
    change (String.prefix p (String c a) || str_in p a = true) in H.
    change (String.prefix p (String c (a +:+ b)) || str_in p (a +:+ b) = true).
    apply orb_true_iff in H as [H|H]; apply orb_true_iff.
    + left. by apply (prefix_app_l p (String c a) b).
    + right. by apply IH.
Qed.

Lemma any_in_app_l (patterns : list string) (a b : string) :
  any_in patterns a = true → any_in patterns (a +:+ b) = true.
Proof.
  unfold any_in. rewrite !existsb_exists. intros (p & Hp & H).
  exists p. split; [exact Hp | by apply str_in_app_l].
Qed.

(** The satellite read in a path of a bucket: the name of the bucket of
    Himawari-8 holds a pattern of Himawari-8; the name of the bucket of
    Himawari-9 holds none, so that the patterns of Himawari-8 are looked for
    in what follows the bucket. *)
Lemma infer_satellite_bucket_path (satellite suffix : string) :
  satellite ∈ available_satellites →
  infer_satellite_from_path (bucket_path satellite suffix)
  = Ok (endpoint_satellite satellite suffix).
Proof.
  intros Hsat. unfold available_satellites, keys, _satellites in Hsat. simpl in Hsat.
  unfold infer_satellite_from_path, endpoint_satellite.
  apply elem_of_cons in Hsat as [->|Hsat];
    [|apply list_elem_of_singleton in Hsat as ->].
  - change (bucket_path "himawari-8" suffix) with ("s3://noaa-himawari8" +:+ ("/" +:+ suffix)).
    rewrite (any_in_app_l himawari8_patterns) by reflexivity.
    by destruct (any_in himawari8_patterns suffix).
  - change (bucket_path "himawari-9" suffix) with ("s3://noaa-himawari9" +:+ ("/" +:+ suffix)).
    assert (any_in himawari8_patterns ("s3://noaa-himawari9" +:+ ("/" +:+ suffix))
            = any_in himawari8_patterns suffix) as -> by (vm_compute; reflexivity).
    rewrite (any_in_app_l himawari9_patterns) by reflexivity.
    by destruct (any_in himawari8_patterns suffix).
Qed.

Lemma switch_to_https_fpath_bucket_path (satellite suffix : string) :
  satellite ∈ available_satellites →
  String.prefix "/" suffix = false →
  _switch_to_https_fpath (bucket_path satellite suffix) "s3"
  = Ok (https_path (endpoint_satellite satellite suffix) suffix).
Proof.
  intros Hsat Hrel. unfold _switch_to_https_fpath.
  rewrite (infer_satellite_bucket_path _ _ Hsat).
  assert (∀ base, ends_with_slash base = false → base ≠ "" →
                  path_join base suffix = base +:+ "/" +:+ suffix) as Hjoin.
  { intros base Hb Hne. unfold path_join. rewrite Hrel, Hb.
    by rewrite bool_decide_eq_false_2. }
  assert (endpoint_satellite satellite suffix ∈ available_satellites) as Hend.
  { unfold endpoint_satellite. destruct (any_in himawari8_patterns suffix); [left | exact Hsat]. }
  rewrite (str_split_bucket_path _ _ Hsat).
  unfold available_satellites, keys, _satellites in Hend. simpl in Hend.
  apply elem_of_cons in Hend as [->|Hend];
    [|apply list_elem_of_singleton in Hend as ->].
  - change (Ok (path_join "https://noaa-himawari8.s3.amazonaws.com" suffix)
            = Ok (https_path "himawari-8" suffix)).
    by rewrite Hjoin.
  - change (Ok (path_join "https://noaa-himawari9.s3.amazonaws.com" suffix)
            = Ok (https_path "himawari-9" suffix)).
    by rewrite Hjoin.
Qed.

Lemma switch_to_https_fpaths_bucket_path (satellite : string) (suffixes : list string) :
  satellite ∈ available_satellites →
  Forall (λ suffix, String.prefix "/" suffix = false) suffixes →
  _switch_to_https_fpaths (bucket_path satellite <$> suffixes) "s3"
  = Ok ((λ suffix, https_path (endpoint_satellite satellite suffix) suffix) <$> suffixes).
Proof.
  intros Hsat Hall. unfold _switch_to_https_fpaths.
  induction Hall as [|suffix suffixes Hd _ IH]; [reflexivity|].
  cbn [fmap list_fmap check_each].
  rewrite (switch_to_https_fpath_bucket_path _ _ Hsat Hd). simpl.
  rewrite IH. reflexivity.
Qed.

(** C9, as the code has it: on the paths of a bucket, "bucket" changes
    nothing.  "https" keeps what follows the bucket and puts before it the
    public endpoint of the satellite that is read in the path: that is the
    endpoint of the bucket for every path of the bucket of Himawari-8, and
    for the paths of the bucket of Himawari-9 that hold no pattern of
    Himawari-8 after the bucket; the other paths of the bucket of
    Himawari-9 get the endpoint of Himawari-8, whatever the satellite the
    function was given.  "nc_bytes" adds "#mode=bytes" to the https form.
    On the local filesystem the connection type is forced to [None] and the
    paths are returned as they are. *)
Theorem set_connection_type_modes (satellite : string) (suffixes : list string) :
  satellite ∈ available_satellites →
  Forall (λ suffix, String.prefix "/" suffix = false) suffixes →
  let fpaths := bucket_path satellite <$> suffixes in
  let https suffix := https_path (endpoint_satellite satellite suffix) suffix in
  _set_connection_type (FList fpaths) satellite (Some "s3") (Some "bucket") = Ok (FList fpaths)
  ∧ _set_connection_type (FList fpaths) satellite (Some "s3") (Some "https")
    = Ok (FList (https <$> suffixes))
  ∧ _set_connection_type (FList fpaths) satellite (Some "s3") (Some "nc_bytes")
    = Ok (FList ((λ suffix, https suffix +:+ "#mode=bytes") <$> suffixes))
  ∧ (∀ suffix,
       https suffix = https_path satellite suffix
       ↔ satellite = "himawari-8" ∨ any_in himawari8_patterns suffix = false)
  ∧ (∀ connection_type local_paths,
       _check_connection_type connection_type (Some "file") = Ok None
       ∧ _check_connection_type connection_type (Some "local") = Ok None
       ∧ _set_connection_type local_paths satellite (Some "file") connection_type
         = Ok local_paths).
Proof.
  intros Hsat Hall fpaths https. split; [reflexivity|]. split; [|split; [|split]].
  - unfold _set_connection_type. simpl. unfold fpaths.
    by rewrite (switch_to_https_fpaths_bucket_path _ _ Hsat Hall).
  - unfold _set_connection_type. simpl. unfold fpaths.
    rewrite (switch_to_https_fpaths_bucket_path _ _ Hsat Hall). simpl.
    unfold _add_nc_bytes. by rewrite <- list_fmap_compose.
  - intros suffix. unfold https, endpoint_satellite.
    unfold available_satellites, keys, _satellites in Hsat. simpl in Hsat.
    destruct (any_in himawari8_patterns suffix).
    + apply elem_of_cons in Hsat as [->|Hsat];
        [|apply list_elem_of_singleton in Hsat as ->].
      * split; [by left | reflexivity].
      * split; [discriminate | by intros [|]].
    + split; [by right | reflexivity].
  - intros ct local_paths. repeat split; by destruct ct.
Qed.

Lemma set_connection_type_modes_witness :
  let satellite := "himawari-9" in
  let suffixes :=
    ["AHI-L1b-FLDK/2022/12/13/0000/HS_H09_20221213_0000_B01_FLDK_R10_S0110.DAT.bz2"] in
  let fpaths := bucket_path satellite <$> suffixes in
  let https suffix := https_path (endpoint_satellite satellite suffix) suffix in
  (_set_connection_type (FList fpaths) satellite (Some "s3") (Some "https")
   = Ok (FList ["https://noaa-himawari9.s3.amazonaws.com/AHI-L1b-FLDK/2022/12/13/0000/HS_H09_20221213_0000_B01_FLDK_R10_S0110.DAT.bz2"]))
  ∧ _set_connection_type (FList fpaths) satellite (Some "s3") (Some "bucket") = Ok (FList fpaths)
  ∧ _set_connection_type (FList fpaths) satellite (Some "s3") (Some "https")
    = Ok (FList (https <$> suffixes))
  ∧ _set_connection_type (FList fpaths) satellite (Some "s3") (Some "nc_bytes")
    = Ok (FList ((λ suffix, https suffix +:+ "#mode=bytes") <$> suffixes))
  ∧ (∀ suffix,
       https suffix = https_path satellite suffix
       ↔ satellite = "himawari-8" ∨ any_in himawari8_patterns suffix = false)
  ∧ (∀ connection_type local_paths,
       _check_connection_type connection_type (Some "file") = Ok None
       ∧ _check_connection_type connection_type (Some "local") = Ok None
       ∧ _set_connection_type local_paths satellite (Some "file") connection_type
         = Ok local_paths).
Proof.
  intros satellite suffixes fpaths https. split; [vm_compute; reflexivity|].
  apply (set_connection_type_modes satellite suffixes).
  - right. left.
  - repeat constructor.
Defined.

(** C9, as stated, fails: a file whose name holds "H08", listed in the
    bucket of Himawari-9, is found by a search for Himawari-9 and comes out
    with its bucket path under "bucket"; under "https" and "nc_bytes" it is
    sent to the public endpoint of Himawari-8, although the function is
    given the satellite Himawari-9: the bucket root is not replaced by its
    own endpoint. *)
Lemma set_connection_type_other_endpoint :
  let suffix := "AHI-L1b-FLDK/2021/01/01/1000/" +:+ rad_name "1000" "FLDK" in
  let fpath := "s3://noaa-himawari9/" +:+ suffix in
  let search connection_type :=
    find_files sample_patterns (sample_parse sample_table) sample_products
      sample_exceptions sample_utcnow (λ _, true) (λ _, true) sample_dt_to_year_month_day_hhmm
      (sample_glob_himawari9 [rad_name "1000" "FLDK"])
      "himawari-9" "L1b" "Rad" (hhmm 10 0) (hhmm 10 5) (Some "FLDK")
      (FilterParameters None None) None (Some connection_type) None (Some "s3") in
  get_bucket (Some "s3") "himawari-9" = Ok "s3://noaa-himawari9"
  ∧ search "bucket" = Ok (FList [fpath])
  ∧ search "https" = Ok (FList ["https://noaa-himawari8.s3.amazonaws.com/" +:+ suffix])
  ∧ _set_connection_type (FList [fpath]) "himawari-9" (Some "s3") (Some "bucket")
    = Ok (FList [fpath])
  ∧ _set_connection_type (FList [fpath]) "himawari-9" (Some "s3") (Some "https")
    = Ok (FList ["https://noaa-himawari8.s3.amazonaws.com/" +:+ suffix])
  ∧ _set_connection_type (FList [fpath]) "himawari-9" (Some "s3") (Some "nc_bytes")
    = Ok (FList ["https://noaa-himawari8.s3.amazonaws.com/" +:+ suffix +:+ "#mode=bytes"]).
Proof. repeat split; vm_compute; reflexivity. Qed.

(** ** Metadata of a file name *)

Lemma replace_microsecond_mono (s e : Z) :
  s ≤ e → replace_microsecond s ≤ replace_microsecond e.
Proof.
  intros H. unfold replace_microsecond.
  rewrite (Z.div_mod s 1000000) at 1 by lia. rewrite (Z.div_mod e 1000000) at 1 by lia.
  assert (s `div` 1000000 ≤ e `div` 1000000) by (apply Z.div_le_mono; lia). lia.
Qed.

Lemma drop_microsecond_lookup (d : gmap string value) (k : string) :
  drop_microsecond d k !! k = without_microsecond (d !! k).
Proof.
  unfold drop_microsecond, without_microsecond.
  destruct (d !! k) as [[]|] eqn:E; rewrite ?lookup_insert_eq, ?E; reflexivity.
Qed.

Lemma drop_microsecond_lookup_ne (d : gmap string value) (k k' : string) :
  k ≠ k' → drop_microsecond d k !! k' = d !! k'.
Proof.
  intros Hne. unfold drop_microsecond.
  destruct (d !! k) as [[]|]; rewrite ?lookup_insert_ne by done; reflexivity.
Qed.

Lemma shift_times_Ok (d d' : gmap string value) (n : option Z) (cadence : Z) :
  shift_times d n cadence = Ok d' →
  ∃ s k, d !! "start_time" = Some (VTime s) ∧ n = Some k
         ∧ d' = <["end_time" := VTime (s + (k - 1) * cadence + k * cadence)]>
                  (<["start_time" := VTime (s + (k - 1) * cadence)]> d).
Proof.
  unfold shift_times, getitem. intros H.
  destruct (d !! "start_time") as [v|]; [|discriminate]. simpl in H.
  destruct n as [k|]; [|discriminate].
  destruct v as [| |s|]; try discriminate. simpl in H.
  injection H as <-. by exists s, k.
Qed.

Lemma time_fields_lookup (d : gmap string value) (k : string) :
  k ∈ ["start_time"; "end_time"] →
  foldl drop_microsecond d ["start_time"; "end_time"; "production_time"; "creation_time"] !! k
  = without_microsecond (d !! k).
Proof.
  intros Hk. simpl.
  apply elem_of_cons in Hk as [->|Hk]; [|apply list_elem_of_singleton in Hk as ->].
  - rewrite !drop_microsecond_lookup_ne by done. apply drop_microsecond_lookup.
  - rewrite !drop_microsecond_lookup_ne by done. rewrite drop_microsecond_lookup.
    by rewrite drop_microsecond_lookup_ne.
Qed.

Lemma time_fields_lookup_other (d : gmap string value) (k : string) :
  k ∉ ["start_time"; "end_time"; "production_time"; "creation_time"] →
  foldl drop_microsecond d ["start_time"; "end_time"; "production_time"; "creation_time"] !! k
  = d !! k.
Proof.
  intros Hk. simpl.
  rewrite !drop_microsecond_lookup_ne; [reflexivity|intros <-; apply Hk..].
  - left.
  - right; left.
  - do 2 right; left.
  - do 3 right; left.
Qed.

(** The two time fields of the result, in terms of the fields read in the
    file name: either no shift took place, or the times were shifted by the
    observation number [k] of the token at a cadence [c]. *)
Lemma get_info_from_filename_times GLOB_FNAME_PATTERN Parser_parse
    (fname : string) (info_dict : gmap string value) :
  _get_info_from_filename GLOB_FNAME_PATTERN Parser_parse fname = Ok info_dict →
  ∃ fpattern parsed,
    Parser_parse fpattern fname = Ok parsed
    ∧ ((info_dict !! "start_time" = without_microsecond (parsed !! "start_time")
        ∧ ((∃ v, parsed !! "end_time" = Some v
                 ∧ info_dict !! "end_time" = without_microsecond (Some v))
           ∨ (parsed !! "end_time" = None
              ∧ ∃ s, info_dict !! "start_time" = Some (VTime s)
                     ∧ info_dict !! "end_time" = Some (VTime (s + timedelta 10 0)))))
       ∨ (∃ token sector scene_abbr k s c,
            parsed !! "sector_observation_number" = Some token
            ∧ _separate_sector_observation_number token = Ok (sector, scene_abbr, Some k)
            ∧ 0 < c
            ∧ without_microsecond (parsed !! "start_time") = Some (VTime s)
            ∧ info_dict !! "start_time" = Some (VTime (s + (k - 1) * c))
            ∧ info_dict !! "end_time" = Some (VTime (s + (k - 1) * c + k * c)))).
Proof.
  unfold _get_info_from_filename. intros H.
  inv_bind_as H level Hlevel. inv_bind_as H product Hproduct.
  inv_bind_as H by_level Hby_level. inv_bind_as H by_product Hby_product.
  inv_bind_as H fpattern Hfpattern. inv_bind_as H parsed Hparse.
  cbn zeta in H.
  exists fpattern, parsed. split; [exact Hparse|].
  set (d1 := <["product_level":=VStr level]> (<["sensor":=VStr "AHI"]> parsed)) in *.
  set (d0 := foldl drop_microsecond d1 _) in *.
  assert (d0 !! "start_time" = without_microsecond (parsed !! "start_time")) as Hs0.
  { unfold d0. rewrite time_fields_lookup by (left). unfold d1.
    by rewrite !lookup_insert_ne. }
  assert (d0 !! "end_time" = without_microsecond (parsed !! "end_time")) as He0.
  { unfold d0. rewrite time_fields_lookup by (right; left). unfold d1.
    by rewrite !lookup_insert_ne. }
  assert (d0 !! "sector_observation_number" = parsed !! "sector_observation_number") as Ht0.
  { unfold d0. rewrite time_fields_lookup_other.
    - unfold d1. by rewrite !lookup_insert_ne.
    - intros Hin. repeat (apply elem_of_cons in Hin as [Hin|Hin]; [discriminate|]).
      by apply elem_of_nil in Hin. }
  clearbody d0. clear d1.
  inv_bind_as H d2 Hd2. inv_bind_as H d3 Hd3.
  (* what follows the default of the end time leaves the two time fields alone *)
  assert (info_dict !! "start_time" = d3 !! "start_time"
          ∧ info_dict !! "end_time" = d3 !! "end_time") as [Hs Hend].
  { inv_bind_as H lv Hlv. inv_bind_as H pr Hpr. inv_bind_as H sat Hsat. injection H as <-.
    rewrite !lookup_insert_ne by done.
    destruct (d3 !! "sector"); rewrite ?lookup_insert_ne by done; done. }
  clear H.
  (* the default of the end time *)
  assert (d3 !! "start_time" = d2 !! "start_time"
          ∧ ((∃ v, d2 !! "end_time" = Some v ∧ d3 !! "end_time" = Some v)
             ∨ (d2 !! "end_time" = None
                ∧ ∃ s, d2 !! "start_time" = Some (VTime s)
                       ∧ d3 !! "end_time" = Some (VTime (s + timedelta 10 0))))) as [Hs3 He3].
  { destruct (d2 !! "end_time") as [v|] eqn:E.
    - injection Hd3 as <-. rewrite E. split; [done|]. left. by exists v.
    - unfold getitem in Hd3.
      destruct (d2 !! "start_time") as [[| |s|]|] eqn:Es; try discriminate.
      simpl in Hd3. injection Hd3 as <-. rewrite lookup_insert_ne by done.
      split; [done|]. right. split; [done|]. exists s. by rewrite lookup_insert_eq. }
  rewrite Hs3 in Hs. clear Hd3 Hs3.
  (* the sector token *)
  rewrite Ht0 in Hd2.
  destruct (parsed !! "sector_observation_number") as [token|] eqn:Htok.
  - inv_bind_as Hd2 triple Hsep. destruct triple as [[sector scene_abbr] observation_number].
    inv_bind_as Hd2 d1' Hd1.
    set (base := <["scene_abbr":=scene_abbr]> (<["sector":=VStr sector]> d0)) in *.
    assert (base !! "start_time" = d0 !! "start_time"
            ∧ base !! "end_time" = d0 !! "end_time") as [Hbs Hbe].
    { unfold base. by rewrite !lookup_insert_ne. }
    clearbody base.
    destruct (bool_decide (sector = "Landmark") && value_in scene_abbr ["R4"; "R5"]) eqn:Hb2.
    + (* shifted at the cadence of 30 seconds *)
      apply shift_times_Ok in Hd2 as (s & k & Hs1 & -> & ->).
      right. exists token, sector, scene_abbr, k.
      destruct (bool_decide (sector = "Japan")
                || bool_decide (sector = "Target") && bool_decide (scene_abbr = VStr "R3"))
        eqn:Hb1.
      { exfalso. apply andb_true_iff in Hb2 as [Hl _]. apply bool_decide_eq_true in Hl.
        subst sector. discriminate Hb1. }
      injection Hd1 as <-. rewrite Hbs, Hs0 in Hs1.
      exists s, (timedelta 0 30). split; [done|]. split; [done|]. split; [done|].
      split; [done|].
      rewrite Hs, Hend, lookup_insert_ne, lookup_insert_eq by done. split; [done|].
      destruct He3 as [(v & Hv & ->)|[Hv _]].
      * rewrite lookup_insert_eq in Hv. by injection Hv as <-.
      * by rewrite lookup_insert_eq in Hv.
    + injection Hd2 as <-.
      destruct (bool_decide (sector = "Japan")
                || bool_decide (sector = "Target") && bool_decide (scene_abbr = VStr "R3"))
        eqn:Hb1.
      * (* shifted at the cadence of 2 minutes 30 *)
        apply shift_times_Ok in Hd1 as (s & k & Hs1 & -> & ->).
        right. exists token, sector, scene_abbr, k.
        rewrite Hbs, Hs0 in Hs1.
        exists s, (timedelta 2 30). split; [done|]. split; [done|]. split; [done|].
        split; [done|].
        rewrite Hs, Hend, lookup_insert_ne, lookup_insert_eq by done. split; [done|].
        destruct He3 as [(v & Hv & ->)|[Hv _]].
        -- rewrite lookup_insert_eq in Hv. by injection Hv as <-.
        -- by rewrite lookup_insert_eq in Hv.
      * injection Hd1 as <-. left. rewrite Hbs, Hs0 in Hs. split; [done|].
        rewrite Hbe, He0, Hbs, Hs0 in He3. rewrite Hend.
        destruct He3 as [(v & Hv & ->)|(Hv & s & Hs1 & ->)].
        -- destruct (parsed !! "end_time") as [v'|] eqn:E; [|discriminate].
           left. exists v'. by rewrite <- Hv.
        -- destruct (parsed !! "end_time") as [[]|] eqn:E; try discriminate.
           right. split; [done|]. exists s. by rewrite Hs, Hs1.
  - injection Hd2 as <-. left. rewrite Hs0 in Hs. split; [done|].
    rewrite He0, Hs0 in He3. rewrite Hend.
    destruct He3 as [(v & Hv & ->)|(Hv & s & Hs1 & ->)].
    + destruct (parsed !! "end_time") as [v'|] eqn:E; [|discriminate].
      left. exists v'. by rewrite <- Hv.
    + destruct (parsed !! "end_time") as [[]|] eqn:E; try discriminate.
      right. split; [done|]. exists s. by rewrite Hs, Hs1.
Qed.

(** C7, as the code has it: the extraction always defines [end_time]; for a
    name without observation number it is the end time read in the name
    (without microseconds) or, failing that, the start time plus 10 minutes;
    and [start_time ≤ end_time] holds when the times read in the name are in
    order and the observation number is not negative. *)
Theorem get_info_end_time_defined GLOB_FNAME_PATTERN Parser_parse (fname : string) :
  succeeds (_get_info_from_filename GLOB_FNAME_PATTERN Parser_parse fname) = true →
  ∃ info_dict fpattern parsed,
    _get_info_from_filename GLOB_FNAME_PATTERN Parser_parse fname = Ok info_dict
    ∧ Parser_parse fpattern fname = Ok parsed
    ∧ is_Some (info_dict !! "end_time")
    ∧ (no_observation_number parsed →
       (∀ v, parsed !! "end_time" = Some v →
             info_dict !! "end_time" = without_microsecond (Some v))
       ∧ (parsed !! "end_time" = None →
          ∃ s, info_dict !! "start_time" = Some (VTime s)
               ∧ info_dict !! "end_time" = Some (VTime (s + timedelta 10 0))))
    ∧ (parsed_times_ordered parsed → index_not_negative parsed →
       ∃ s e, info_dict !! "start_time" = Some (VTime s)
              ∧ info_dict !! "end_time" = Some (VTime e) ∧ s ≤ e).
Proof.
  intros Hok.
  destruct (_get_info_from_filename _ _ fname) as [info_dict|] eqn:H; [clear Hok|discriminate].
  destruct (get_info_from_filename_times _ _ _ _ H) as (fpattern & parsed & Hparse & Hcases).
  exists info_dict, fpattern, parsed. split; [reflexivity|]. split; [exact Hparse|].
  destruct Hcases as [[Hs He]|(token & sector & scene & k & s & c & Htok & Hsep & Hc & Hs & Hs' & He')].
  - split; [|split].
    + destruct He as [(v & Hv & ->)|(_ & s & _ & ->)]; [|by eexists].
      destruct v; by eexists.
    + intros _. split.
      * intros v Hv. destruct He as [(v' & Hv' & ->)|(Hn & _)]; congruence.
      * intros Hn. destruct He as [(v' & Hv' & _)|(_ & s & Hs' & He)]; [congruence|].
        by exists s.
    + intros Hord _.
      destruct He as [(v & Hv & He)|(Hn & s & Hs' & He)].
      * destruct Hord as [Hn|(s & e & Hps & Hpe & Hle)]; [congruence|].
        rewrite Hps in Hs. rewrite Hpe in Hv. injection Hv as <-.
        exists (replace_microsecond s), (replace_microsecond e).
        split; [exact Hs|]. split; [exact He|]. by apply replace_microsecond_mono.
      * exists s, (s + timedelta 10 0). split; [exact Hs'|]. split; [exact He|].
        unfold timedelta. lia.
  - split; [by eexists|]. split.
    + intros Hno. destruct (Hno _ Htok) as (sector' & scene' & Hsep'). congruence.
    + intros _ Hk. specialize (Hk _ _ _ _ Htok Hsep).
      eexists _, _. split; [exact Hs'|]. split; [exact He'|]. nia.
Qed.

Lemma get_info_end_time_defined_witness :
  ∃ info_dict fpattern parsed,
    _get_info_from_filename sample_patterns (sample_parse sample_table) (rad_name "1000" "R302")
    = Ok info_dict
    ∧ sample_parse sample_table fpattern (rad_name "1000" "R302") = Ok parsed
    ∧ is_Some (info_dict !! "end_time")
    ∧ (no_observation_number parsed →
       (∀ v, parsed !! "end_time" = Some v →
             info_dict !! "end_time" = without_microsecond (Some v))
       ∧ (parsed !! "end_time" = None →
          ∃ s, info_dict !! "start_time" = Some (VTime s)
               ∧ info_dict !! "end_time" = Some (VTime (s + timedelta 10 0))))
    ∧ (parsed_times_ordered parsed → index_not_negative parsed →
       ∃ s e, info_dict !! "start_time" = Some (VTime s)
              ∧ info_dict !! "end_time" = Some (VTime e) ∧ s ≤ e).
Proof.
  apply (get_info_end_time_defined sample_patterns (sample_parse sample_table)
           (rad_name "1000" "R302")).
  vm_compute. reflexivity.
Defined.

(** C7, as stated, fails: a file name whose end is written before its start
    yields a field map with [end_time] before [start_time]. *)
Lemma get_info_end_before_start :
  let key_of := _get_key_from_filepaths sample_patterns (sample_parse sample_table)
                  [cmsk_name "1010" "1000"] in
  key_of "start_time" = Ok [VTime (hhmm 10 10)]
  ∧ key_of "end_time" = Ok [VTime (hhmm 10 0)]
  ∧ ¬ (hhmm 10 10 ≤ hhmm 10 0).
Proof.
  split; [vm_compute; reflexivity|]. split; [vm_compute; reflexivity|].
  vm_compute. intros H. by apply H.
Qed.

(** The hypotheses of the theorem above hold on the sample files. *)
Lemma sample_fields_in_order :
  parsed_times_ordered (rad_fields (hhmm 10 0) "R302")
  ∧ index_not_negative (rad_fields (hhmm 10 0) "R302")
  ∧ no_observation_number (rad_fields (hhmm 10 0) "FLDK")
  ∧ parsed_times_ordered (cmsk_fields (hhmm 10 0) (hhmm 10 10)).
Proof.
  split; [left; vm_compute; reflexivity|]. split; [|split].
  - intros token sector scene_abbr n Htok Hsep.
    vm_compute in Htok. injection Htok as <-.
    vm_compute in Hsep. injection Hsep as _ _ <-. done.
  - intros token Htok. vm_compute in Htok. injection Htok as <-. by eexists _, _.
  - right. exists (hhmm 10 0), (hhmm 10 10). repeat split; vm_compute; congruence.
Qed.

(** C1: what the extraction does with the sector tokens.  The token JP02
    gives the sector "JP", not "Japan", and leaves the times unshifted, with
    the end 10 minutes after the start; the tokens R302 and R403 shift the
    start by one and two cadences, and put the end two and three cadences
    after the shifted start, not one. *)
Theorem get_info_sector_tokens :
  let key_of fname := _get_key_from_filepaths sample_patterns (sample_parse sample_table)
                        [fname] in
  (key_of (rad_name "1000" "JP02") "sector" = Ok [VStr "JP"]
   ∧ key_of (rad_name "1000" "JP02") "scene_abbr" = Ok [VList ["R1"; "R2"]]
   ∧ key_of (rad_name "1000" "JP02") "start_time" = Ok [VTime (hhmm 10 0)]
   ∧ key_of (rad_name "1000" "JP02") "end_time" = Ok [VTime (hhmm 10 0 + timedelta 10 0)])
  ∧ (key_of (rad_name "1000" "R302") "sector" = Ok [VStr "Target"]
     ∧ key_of (rad_name "1000" "R302") "scene_abbr" = Ok [VStr "R3"]
     ∧ key_of (rad_name "1000" "R302") "start_time"
       = Ok [VTime (hhmm 10 0 + timedelta 2 30)]
     ∧ key_of (rad_name "1000" "R302") "end_time"
       = Ok [VTime (hhmm 10 0 + timedelta 2 30 + 2 * timedelta 2 30)])
  ∧ (key_of (rad_name "1000" "R403") "sector" = Ok [VStr "Landmark"]
     ∧ key_of (rad_name "1000" "R403") "scene_abbr" = Ok [VStr "R4"]
     ∧ key_of (rad_name "1000" "R403") "start_time"
       = Ok [VTime (hhmm 10 0 + 2 * timedelta 0 30)]
     ∧ key_of (rad_name "1000" "R403") "end_time"
       = Ok [VTime (hhmm 10 0 + 2 * timedelta 0 30 + 3 * timedelta 0 30)]).
Proof.
  intros key_of. unfold key_of. repeat split; vm_compute; reflexivity.
Qed.

(** ** The closest start time *)

Lemma np_argmin_spec (l : list Z) :
  l ≠ [] →
  ∃ m, l !! np_argmin l = Some m
       ∧ (∀ x, x ∈ l → m ≤ x)
       ∧ (∀ j x, l !! j = Some x → (j < np_argmin l)%nat → m < x).
Proof.
  induction l as [|x l IH]; [done|]. intros _.
  destruct l as [|y l].
  { exists x. split; [reflexivity|]. split.
    - intros z Hz. apply list_elem_of_singleton in Hz as ->. lia.
    - intros j z _ Hj. simpl in Hj. lia. }
  destruct IH as (m & Hm & Hmin & Hfirst); [done|].
  change (np_argmin (x :: y :: l))
    with (let i := np_argmin (y :: l) in
          if bool_decide (x ≤ (y :: l) !!! i) then 0%nat else S i).
  cbn zeta. rewrite (list_lookup_total_correct _ _ _ Hm).
  case_bool_decide as Hx.
  - exists x. split; [reflexivity|]. split.
    + intros z Hz. apply elem_of_cons in Hz as [->|Hz]; [lia|].
      specialize (Hmin _ Hz). lia.
    + intros j z _ Hj. lia.
  - exists m. split; [exact Hm|]. split.
    + intros z Hz. apply elem_of_cons in Hz as [->|Hz]; [lia | by apply Hmin].
    + intros j z Hz Hj. destruct j as [|j]; simpl in Hz.
      * injection Hz as <-. lia.
      * apply (Hfirst j); [exact Hz | lia].
Qed.

Lemma StronglySorted_lookup_le (l : list Z) (i j : nat) (a b : Z) :
  StronglySorted Z.le l → l !! i = Some a → l !! j = Some b → (i ≤ j)%nat → a ≤ b.
Proof.
  intros Hs. revert i j. induction Hs as [|x l Hs IH Hall]; intros i j Ha Hb Hij.
  - by rewrite lookup_nil in Ha.
  - destruct i as [|i], j as [|j]; simpl in *.
    + injection Ha as <-. injection Hb as <-. lia.
    + injection Ha as <-. rewrite Forall_forall in Hall. apply Hall.
      by eapply list_elem_of_lookup_2.
    + lia.
    + apply (IH i j Ha Hb). lia.
Qed.

(** The element picked in the sorted candidates: it is the closest to
    [time], and the earliest of the closest. *)
Lemma closest_in_sorted (times : list Z) (time : Z) :
  times ≠ [] →
  ∃ r, sorted times !! np_argmin ((λ t, Z.abs (t - time)) <$> sorted times) = Some r
       ∧ r ∈ times
       ∧ (∀ t, t ∈ times → Z.abs (r - time) ≤ Z.abs (t - time))
       ∧ (∀ t, t ∈ times → Z.abs (t - time) = Z.abs (r - time) → r ≤ t).
Proof.
  intros Hne.
  set (l := sorted times).
  assert (l ≠ []) as Hl.
  { intros Hnil. apply (f_equal length) in Hnil. unfold l in Hnil.
    rewrite sorted_length in Hnil. by destruct times. }
  destruct (np_argmin_spec ((λ t, Z.abs (t - time)) <$> l)) as (m & Hm & Hmin & Hfirst).
  { by destruct l. }
  rewrite list_lookup_fmap in Hm.
  destruct (l !! np_argmin ((λ t, Z.abs (t - time)) <$> l)) as [r|] eqn:Hr; [|discriminate].
  simpl in Hm. injection Hm as <-.
  exists r. split; [reflexivity|]. split; [|split].
  - apply sorted_elem_of. by eapply list_elem_of_lookup_2.
  - intros t Ht. apply Hmin. apply list_elem_of_fmap. exists t. split; [done|].
    by apply sorted_elem_of.
  - intros t Ht Heq. apply sorted_elem_of in Ht. apply list_elem_of_lookup in Ht as [j Hj].
    change (l !! j = Some t) in Hj.
    destruct (decide (j < np_argmin ((λ t, Z.abs (t - time)) <$> l))%nat) as [Hlt|Hge].
    + specialize (Hfirst j (Z.abs (t - time))). rewrite list_lookup_fmap, Hj in Hfirst.
      specialize (Hfirst eq_refl Hlt). lia.
    + eapply (StronglySorted_lookup_le l);
        [apply sorted_StronglySorted | exact Hr | exact Hj | lia].
Qed.

(** ** The keys of a grouped search *)

Lemma for_items_keys {K A B : Type} (f : A → result B) (d : list (K * A))
    (d' : list (K * B)) :
  for_items f d = Ok d' → d'.*1 = d.*1.
Proof.
  revert d'. induction d as [|[k a] d IH]; intros d' H; simpl in H.
  - by injection H as <-.
  - inv_bind_as H b Hb. inv_bind_as H r Hr. injection H as <-.
    simpl. f_equal. by apply IH.
Qed.

(** The connection type changes the paths of a grouped result, not its
    keys. *)
Lemma set_connection_type_keys (groups : list (value * list string)) (satellite : string)
    (protocol connection_type : option string) (fpaths : fpaths_t) :
  _set_connection_type (FDict groups) satellite protocol connection_type = Ok fpaths →
  ∃ groups', fpaths = FDict groups' ∧ groups'.*1 = groups.*1.
Proof.
  unfold _set_connection_type. intros H.
  destruct protocol as [protocol|]; [|injection H as <-; by eexists].
  case_bool_decide; [injection H as <-; by eexists|].
  case_bool_decide; [injection H as <-; by eexists|].
  case_bool_decide; [|discriminate].
  inv_bind_as H groups' Hg. apply for_items_keys in Hg.
  case_bool_decide; injection H as <-; eexists; (split; [reflexivity|]); [|done].
  rewrite <- Hg. rewrite <- list_fmap_compose. apply list_fmap_ext. by intros _ [k l] _.
Qed.

Lemma StronglySorted_le_lt_NoDup (l : list Z) :
  StronglySorted Z.le l → NoDup l → StronglySorted Z.lt l.
Proof.
  induction 1 as [|x l Hs IH Hall]; intros Hnd; [constructor|].
  apply NoDup_cons in Hnd as [Hx Hnd]. constructor; [by apply IH|].
  rewrite Forall_forall in Hall |- *. intros y Hy.
  specialize (Hall y Hy). assert (x ≠ y) by (intros ->; done). lia.
Qed.

Lemma StronglySorted_lt_NoDup (l : list Z) : StronglySorted Z.lt l → NoDup l.
Proof.
  induction 1 as [|x l Hs IH Hall]; [constructor|].
  apply NoDup_cons. split; [|exact IH].
  intros Hx. rewrite Forall_forall in Hall. specialize (Hall x Hx). lia.
Qed.

Lemma StronglySorted_lt_le (l : list Z) : StronglySorted Z.lt l → StronglySorted Z.le l.
Proof.
  induction 1 as [|x l Hs IH Hall]; constructor; [done|].
  eapply Forall_impl; [exact Hall|]. intros y Hy. simpl in Hy. lia.
Qed.

(** The keys of the groups made from pairs sorted on datetime keys: the
    distinct keys, in strictly ascending order. *)
Lemma group_sorted_keys (l : list (value * string)) (ts : list Z) :
  l.*1 = VTime <$> ts → StronglySorted Z.le ts →
  ∃ ts', (group_sorted l).*1 = VTime <$> ts'
         ∧ StronglySorted Z.lt ts'
         ∧ (∀ x, x ∈ ts' ↔ x ∈ ts).
Proof.
  revert ts. induction l as [|[k p] l IH]; intros ts Hl Hs.
  - destruct ts; [|discriminate]. exists []. split; [done|]. split; [constructor|done].
  - destruct ts as [|t ts]; [discriminate|]. simpl in Hl. injection Hl as -> Hl.
    apply StronglySorted_cons in Hs as [Hall Hs]. rewrite Forall_forall in Hall.
    destruct (IH ts Hl Hs) as (ts' & Hk & Hs' & Hin). simpl.
    destruct (group_sorted l) as [|[k' ps] groups] eqn:Hg.
    + destruct ts'; [|discriminate]. exists [t]. split; [done|]. split.
      * repeat constructor.
      * intros x. rewrite !elem_of_cons, <- Hin. done.
    + destruct ts' as [|t' ts']; [discriminate|]. simpl in Hk. injection Hk as -> Hk.
      case_bool_decide as Heq.
      * injection Heq as ->. exists (t' :: ts'). split; [by simpl; rewrite Hk|].
        split; [done|]. intros x. rewrite (elem_of_cons ts), <- Hin.
        split; [by right|]. intros [->|H]; [left | done].
      * assert (t ≠ t') as Hne by congruence.
        exists (t :: t' :: ts'). split; [by simpl; rewrite Hk|]. split.
        -- constructor; [done|]. rewrite Forall_forall. intros x Hx.
           apply StronglySorted_cons in Hs' as [Hall' _]. rewrite Forall_forall in Hall'.
           assert (t ≤ t') by (apply Hall, Hin; left).
           apply elem_of_cons in Hx as [->|Hx]; [lia|]. specialize (Hall' x Hx). lia.
        -- intros x. rewrite (elem_of_cons _ x t), (elem_of_cons ts x t), Hin. done.
Qed.

Lemma check_each_as_datetime (ts : list Z) :
  check_each as_datetime (VTime <$> ts) = Ok ts.
Proof.
  induction ts as [|t ts IH]; [done|].
  change (check_each as_datetime (VTime <$> t :: ts))
    with (y ← Ok t; ys ← check_each as_datetime (VTime <$> ts); Ok (y :: ys)).
  by rewrite IH.
Qed.

Lemma value_leb_total (a b : value) : value_leb a b ∨ value_leb b a.
Proof.
  destruct a as [x|x|x|x], b as [y|y|y|y]; simpl; try (by left).
  - destruct (String.leb_total x y) as [H|H]; rewrite H; [by left | by right].
  - destruct (decide (x ≤ y)).
    + left. by apply bool_decide_pack.
    + right. apply bool_decide_pack. lia.
  - destruct (decide (x ≤ y)).
    + left. by apply bool_decide_pack.
    + right. apply bool_decide_pack. lia.
Qed.

(** Pairs sorted on keys that are datetimes not after [e]: the keys are an
    ascending list of such datetimes. *)
Lemma insert_pair_Permutation (x : value * string) (l : list (value * string)) :
  insert_pair x l ≡ₚ x :: l.
Proof.
  induction l as [|y l IH]; [reflexivity|]. simpl.
  destruct (value_leb x.1 y.1); [reflexivity|]. rewrite IH. apply Permutation_swap.
Qed.

Lemma sort_pairs_Permutation (l : list (value * string)) : sort_pairs l ≡ₚ l.
Proof.
  induction l as [|x l IH]; [reflexivity|].
  change (insert_pair x (sort_pairs l) ≡ₚ x :: l).
  by rewrite insert_pair_Permutation, IH.
Qed.

Lemma Sorted_insert_pair (x : value * string) (l : list (value * string)) :
  Sorted (λ a b, value_leb a.1 b.1) l →
  Sorted (λ a b, value_leb a.1 b.1) (insert_pair x l).
Proof.
  induction 1 as [|y l Hs IH Hhd]; simpl; [by repeat constructor|].
  destruct (value_leb x.1 y.1) eqn:Hxy.
  - constructor; [by constructor|]. constructor. by rewrite Hxy.
  - assert (value_leb y.1 x.1) as Hyx.
    { destruct (value_leb_total x.1 y.1) as [H|H]; [by rewrite Hxy in H | exact H]. }
    constructor; [exact IH|].
    destruct l as [|z l]; simpl; [by constructor|].
    destruct (value_leb x.1 z.1); constructor; [exact Hyx|].
    by inversion Hhd.
Qed.

Lemma Sorted_sort_pairs (l : list (value * string)) :
  Sorted (λ a b, value_leb a.1 b.1) (sort_pairs l).
Proof.
  induction l as [|x l IH]; [constructor|].
  change (Sorted (λ a b, value_leb a.1 b.1) (insert_pair x (sort_pairs l))).
  by apply Sorted_insert_pair.
Qed.

Lemma sorted_pairs_times (e : Z) (l : list (value * string)) :
  Sorted (λ a b, value_leb a.1 b.1) l →
  Forall (λ a, ∃ t, a.1 = VTime t ∧ t ≤ e) l →
  ∃ ts, l.*1 = VTime <$> ts ∧ Sorted Z.le ts ∧ Forall (λ t, t ≤ e) ts.
Proof.
  induction 1 as [|a l Hs IH Hhd]; intros Hall.
  - exists []. by repeat split; constructor.
  - apply Forall_cons in Hall as [(t & Ha & Hle) Hall].
    destruct (IH Hall) as (ts & Hk & Hsorted & Hbound).
    exists (t :: ts). split; [by rewrite !fmap_cons, Ha, Hk|]. split; [|by constructor].
    constructor; [done|].
    destruct Hhd as [|b l' Hab]; destruct ts as [|t' ts]; try discriminate; constructor.
    simpl in Hk. injection Hk as Hb _. rewrite Ha, Hb in Hab. simpl in Hab.
    by apply bool_decide_unpack in Hab.
Qed.

(** ** Lists of time steps *)

Lemma replace_microsecond_minute (t : Z) :
  replace_microsecond (replace_second_microsecond t) = replace_second_microsecond t.
Proof.
  unfold replace_microsecond, replace_second_microsecond.
  assert ((t - t mod 60000000) mod 1000000 = 0) as ->; [|lia].
  rewrite (Z.div_mod t 60000000) at 1 by lia.
  replace (60000000 * t `div` 60000000 + t mod 60000000 - t mod 60000000)
    with (t `div` 60000000 * 60 * 1000000) by lia.
  apply Z.mod_mul. lia.
Qed.

Lemma list_remove_Ok (x : Z) (l l' : list Z) :
  list_remove x l = Ok l' →
  NoDup l →
  l' `sublist_of` l ∧ ∀ y, y ∈ l' → y ≠ x.
Proof.
  revert l'. induction l as [|y l IH]; intros l' H Hnd; [discriminate|].
  simpl in H. apply NoDup_cons in Hnd as [Hy Hnd].
  case_bool_decide as Hyx.
  - injection H as <-. subst y. split; [by apply sublist_cons|]. by intros z Hz ->.
  - inv_bind_as H l'' Hl. injection H as <-. destruct (IH _ Hl Hnd) as [Hsub Hne].
    split; [by apply sublist_skip|].
    intros z Hz. apply elem_of_cons in Hz as [->|Hz]; [done | by apply Hne].
Qed.

Lemma StronglySorted_sublist {A : Type} (R : relation A) (l1 l2 : list A) :
  l1 `sublist_of` l2 → StronglySorted R l2 → StronglySorted R l1.
Proof.
  induction 1 as [|x l1 l2 Hsub IH|x l1 l2 Hsub IH]; intros Hs.
  - constructor.
  - apply StronglySorted_cons in Hs as [Hall Hs]. constructor; [by apply IH|].
    rewrite Forall_forall in Hall |- *. intros y Hy. apply Hall.
    by eapply sublist_subseteq.
  - apply StronglySorted_cons in Hs as [_ Hs]. by apply IH.
Qed.

Lemma sorted_of_sorted (l : list Z) : StronglySorted Z.le l → sorted l = l.
Proof.
  intros Hs. apply (StronglySorted_unique Z.le); [apply sorted_StronglySorted | exact Hs|].
  apply sorted_Permutation.
Qed.

Lemma StronglySorted_drop {A : Type} (R : relation A) (n : nat) (l : list A) :
  StronglySorted R l → StronglySorted R (drop n l).
Proof.
  intros Hs. rewrite <- (take_drop n l) in Hs. by apply StronglySorted_app_1_r in Hs.
Qed.

Lemma last_n_spec (N : Z) (l : list Z) :
  1 ≤ N → N ≤ Z.of_nat (length l) →
  Z.of_nat (length (last_n N l)) = N
  ∧ (∀ x, x ∈ last_n N l → x ∈ l)
  ∧ (StronglySorted Z.lt l → StronglySorted Z.lt (last_n N l)).
Proof.
  intros H1 Hlen. unfold last_n.
  rewrite bool_decide_eq_false_2 by lia. rewrite bool_decide_eq_false_2 by lia.
  split; [rewrite length_drop; lia|]. split.
  - intros x Hx. by eapply subseteq_drop.
  - apply StronglySorted_drop.
Qed.

Lemma select_keys_keys (groups selected : list (value * list string)) (l : list Z) :
  select_keys groups l = Ok selected → selected.*1 = VTime <$> l.
Proof.
  revert selected. induction l as [|t l IH]; intros selected H; simpl in H.
  - by injection H as <-.
  - destruct (List.find _ groups); [|discriminate].
    inv_bind_as H rest Hrest. injection H as <-. rewrite fmap_cons. simpl. f_equal.
    by apply IH.
Qed.

Lemma check_interval_regularity_Ok (l : list Z) :
  _check_interval_regularity l = Ok tt → (2 ≤ length l)%nat →
  all_equal (np_diff (sorted l)).
Proof.
  unfold _check_interval_regularity. intros H Hlen.
  destruct (Nat.ltb_spec (length l) 2) as [Hlt|_]; [lia|].
  destruct (Nat.eqb_spec (length (np_unique (np_diff (sorted l)))) 1) as [H1|H1];
    [|discriminate].
  apply np_unique_length_1 in H1; [exact H1|].
  intros Hnil. apply (f_equal length) in Hnil.
  rewrite np_diff_length, sorted_length in Hnil. simpl in Hnil. lia.
Qed.

(** The search functions by name, for the proofs of the section below where
    these names stand for the functions applied to the environment. *)
Ltac unfold_find_files H := unfold find_files in H.
Ltac unfold_find_closest_start_time := unfold find_closest_start_time.
Ltac unfold_find_previous_files := unfold find_previous_files.
Ltac unfold_find_previous_files_in H := unfold find_previous_files in H.

Section SearchProperties.

Variable GLOB_FNAME_PATTERN : gmap string (gmap string (gmap string string)).
Variable Parser_parse : string → string → result (gmap string value).
Variable PRODUCTS : list (string * list (string * list string)).
Variable AHI_L2_SECTOR_EXCEPTIONS : gmap string (list string).
Variable utcnow : Z.
Variables os_path_exists os_path_isdir : string → bool.
Variable _dt_to_year_month_day_hhmm : Z → list string.
Variable fs_glob : string → string → result (list string).

Local Notation find_files :=
  (find_files GLOB_FNAME_PATTERN Parser_parse PRODUCTS AHI_L2_SECTOR_EXCEPTIONS utcnow
     os_path_exists os_path_isdir _dt_to_year_month_day_hhmm fs_glob).
Local Notation find_closest_start_time :=
  (find_closest_start_time GLOB_FNAME_PATTERN Parser_parse PRODUCTS AHI_L2_SECTOR_EXCEPTIONS
     utcnow os_path_exists os_path_isdir _dt_to_year_month_day_hhmm fs_glob).
Local Notation find_previous_files :=
  (find_previous_files GLOB_FNAME_PATTERN Parser_parse PRODUCTS AHI_L2_SECTOR_EXCEPTIONS
     utcnow os_path_exists os_path_isdir _dt_to_year_month_day_hhmm fs_glob).
Local Notation _check_product_level := (_check_product_level PRODUCTS).

Local Notation info_of := (_get_info_from_filepath GLOB_FNAME_PATTERN Parser_parse).
Local Notation filter_file := (_filter_file GLOB_FNAME_PATTERN Parser_parse).

(** A file kept by a query with both bounds has a datetime start, not
    after the end of the query. *)
Lemma filter_file_kept (fpath product_level kept : string) (s e : Z)
    (channels scene_abbr : option (list string)) :
  filter_file fpath product_level (Some s) (Some e) channels scene_abbr = Ok (Some kept) →
  kept = fpath
  ∧ ∃ info_dict ts, info_of fpath = Ok info_dict
                    ∧ info_dict !! "start_time" = Some (VTime ts) ∧ ts ≤ e.
Proof.
  unfold _filter_file. intros H. inv_bind_as H info_dict Hinfo.
  destruct (negb _); [discriminate|].
  destruct (negb _); [discriminate|].
  inv_bind_as H ends_before Hb. destruct ends_before; [discriminate|].
  inv_bind_as H starts_after Ha. destruct starts_after; [discriminate|].
  injection H as <-. split; [reflexivity|].
  exists info_dict. unfold value_gt in Ha.
  destruct (info_dict !! "start_time") as [[| |ts|]|]; try discriminate.
  exists ts. split; [exact Hinfo|]. split; [reflexivity|].
  injection Ha as Ha. apply bool_decide_eq_false in Ha. lia.
Qed.

Local Notation starts_by := (starts_by GLOB_FNAME_PATTERN Parser_parse).

Lemma filter_files_kept (fpaths kept : list string) (product_level : string) (s e : Z)
    (channels scene_abbr : option (list string)) :
  _filter_files GLOB_FNAME_PATTERN Parser_parse fpaths product_level (Some s) (Some e)
    channels scene_abbr = Ok kept →
  Forall (starts_by e) kept.
Proof.
  unfold _filter_files. intros H. inv_bind_as H selected Hsel. injection H as <-.
  revert selected Hsel. induction fpaths as [|fpath fpaths IH]; intros selected Hsel.
  - simpl in Hsel. injection Hsel as <-. constructor.
  - simpl in Hsel. inv_bind_as Hsel o Ho. inv_bind_as Hsel os Hos. injection Hsel as <-.
    specialize (IH _ Hos). destruct o as [q|]; [|exact IH].
    apply filter_file_kept in Ho as [-> Hstart]. by constructor.
Qed.

Lemma search_directories_kept (fs bucket_prefix product_level : string) (s e : Z)
    (filter_parameters : filter_parameters_t) (list_glob_pattern list_fpaths : list string) :
  search_directories GLOB_FNAME_PATTERN Parser_parse fs_glob fs bucket_prefix product_level
    s e filter_parameters list_glob_pattern = Ok list_fpaths →
  Forall (starts_by e) list_fpaths.
Proof.
  revert list_fpaths. induction list_glob_pattern as [|glob_pattern rest IH];
    intros list_fpaths H; simpl in H.
  - injection H as <-. constructor.
  - inv_bind_as H listed Hlisted. inv_bind_as H kept Hkept. inv_bind_as H others Hothers.
    injection H as <-. apply Forall_app. split.
    + by eapply filter_files_kept.
    + by apply IH.
Qed.

(** Grouped on the start time, files that start by [e] give strictly
    ascending datetime keys, none after [e]. *)
Lemma group_fpaths_by_start_time (e : Z) (fpaths : list string)
    (product_level : option string) (groups : list (value * list string)) :
  Forall (starts_by e) fpaths →
  _group_fpaths_by_key GLOB_FNAME_PATTERN Parser_parse fpaths product_level "start_time"
  = Ok groups →
  ∃ times, groups.*1 = VTime <$> times
           ∧ StronglySorted Z.lt times
           ∧ Forall (λ t, t ≤ e) times.
Proof.
  intros Hall H. unfold _group_fpaths_by_key in H.
  inv_bind_as H list_key_values Hkeys.
  destruct (negb (sortable list_key_values)); [discriminate|]. injection H as <-.
  unfold _get_key_from_filepaths in Hkeys. apply check_each_Ok in Hkeys.
  assert (Forall (λ a : value * string, ∃ t, a.1 = VTime t ∧ t ≤ e)
            (zip list_key_values fpaths)) as Hzip.
  { clear -Hall Hkeys. induction Hkeys as [|fpath v fpaths vs Hv Hrest IH].
    - constructor.
    - apply Forall_cons in Hall as [(info_dict & ts & Hinfo & Hs & Hle) Hall].
      constructor; [|by apply IH]. simpl.
      rewrite Hinfo in Hv. simpl in Hv. unfold getitem in Hv. rewrite Hs in Hv.
      injection Hv as <-. by exists ts. }
  set (sorted_pairs := sort_pairs _).
  assert (Sorted (λ a b : value * string, value_leb a.1 b.1) sorted_pairs) as Hsorted.
  { apply Sorted_sort_pairs. }
  assert (Forall (λ a : value * string, ∃ t, a.1 = VTime t ∧ t ≤ e) sorted_pairs) as Hbound.
  { unfold sorted_pairs. by rewrite sort_pairs_Permutation. }
  destruct (sorted_pairs_times e _ Hsorted Hbound) as (ts & Hk & Hs & Hle).
  apply Sorted_StronglySorted in Hs; [|apply _].
  destruct (group_sorted_keys _ _ Hk Hs) as (ts' & Hk' & Hs' & Hin).
  exists ts'. split; [exact Hk'|]. split; [exact Hs'|].
  rewrite Forall_forall in Hle |- *. intros t Ht. by apply Hle, Hin.
Qed.

(** A search grouped on the start time returns groups under strictly
    ascending datetime keys, none after the end of the query. *)
Lemma find_files_start_times (satellite product_level product : string)
    (start_time end_time : Z) (sector : option string)
    (filter_parameters : filter_parameters_t)
    (connection_type base_dir protocol : option string) (fpath_dict : fpaths_t) :
  find_files satellite product_level product start_time end_time sector filter_parameters
    (Some "start_time") connection_type base_dir protocol = Ok fpath_dict →
  ∃ groups times,
    fpath_dict = FDict groups
    ∧ groups.*1 = VTime <$> times
    ∧ StronglySorted Z.lt times
    ∧ Forall (λ t, t ≤ replace_microsecond end_time) times.
Proof.
  intros H. unfold_find_files H.
  destruct (bool_decide (protocol = None) && bool_decide (base_dir = None));
    [discriminate|].
  inv_bind_as H protocol1 Hp1. inv_bind_as H protocol2 Hp2. inv_bind_as H base_dir' Hb.
  inv_bind_as H connection_type' Hc. inv_bind_as H satellite' Hsat.
  inv_bind_as H product_level' Hpl. inv_bind_as H product' Hpr.
  inv_bind_as H sector' Hsec. inv_bind_as H times Htimes.
  destruct times as [start_time' end_time'].
  unfold _check_start_end_time in Htimes.
  repeat (case_bool_decide; [discriminate|]). injection Htimes as <- <-.
  inv_bind_as H filter_parameters' Hfp. inv_bind_as H group_by_key Hg.
  vm_compute in Hg. injection Hg as <-.
  inv_bind_as H fs Hfs. inv_bind_as H bucket_prefix Hbp. inv_bind_as H product_dir Hpd.
  cbn zeta in H. inv_bind_as H fname_glob_pattern Hglob.
  inv_bind_as H list_fpaths Hsearch. inv_bind_as H fpaths Hgroup.
  rewrite bool_decide_eq_false_2 in Hgroup by done.
  inv_bind_as Hgroup groups Hgroups. injection Hgroup as <-.
  apply search_directories_kept in Hsearch.
  destruct (group_fpaths_by_start_time _ _ _ _ Hsearch Hgroups) as (ts & Hk & Hs & Hle).
  apply set_connection_type_keys in H as (groups' & -> & Hk').
  exists groups', ts. split; [reflexivity|]. split; [by rewrite Hk'|]. by split.
Qed.

(** The result of [find_closest_start_time] once the search of its window
    returned [fpath_dict]. *)
Lemma find_closest_start_time_cases (time : Z) (satellite product_level product : string)
    (sector base_dir protocol : option string) (filter_parameters : filter_parameters_t)
    (cadence : Z) (fpath_dict : fpaths_t) (times : list Z) :
  let t := replace_second_microsecond time in
  _get_acquisition_max_timedelta sector = Ok cadence →
  find_files satellite product_level product (t - cadence) (t + cadence) sector
    filter_parameters (Some "start_time") None base_dir protocol = Ok fpath_dict →
  start_times_of fpath_dict = Ok times →
  find_closest_start_time time satellite product_level product sector base_dir protocol
    filter_parameters
  = match sorted times !! np_argmin ((λ x, Z.abs (x - t)) <$> sorted times) with
    | Some r => Ok r
    | None =>
        Raise (ValueError [Txt "No data available in previous and next ";
                           Num (cadence `div` 60000000); Txt " minutes around ";
                           Stamp t; Txt "."])
    end.
Proof.
  intros t Hcad Hfind Htimes. unfold_find_closest_start_time.
  fold t. rewrite Hcad. simpl. rewrite Hfind. simpl.
  unfold start_times_of in Htimes. inv_bind_as Htimes keys Hkeys.
  rewrite Hkeys. simpl. rewrite Htimes. simpl.
  destruct times as [|x times].
  - reflexivity.
  - destruct (closest_in_sorted (x :: times) t) as (r & Hr & _); [done|].
    rewrite Hr.
    destruct (Nat.eqb_spec (length (sorted (x :: times))) 0) as [Hlen|_]; [|reflexivity].
    rewrite sorted_length in Hlen. discriminate.
Qed.

(** C4, as the code has it: the window searched is one cadence on each
    side of the target time cut to the whole minute; the start time
    returned is a start time found there that minimizes the absolute
    distance to that cut target; with nothing found the call fails with
    the no-data error. *)
Theorem find_closest_start_time_minimizes (time : Z)
    (satellite product_level product : string)
    (sector base_dir protocol : option string) (filter_parameters : filter_parameters_t)
    (cadence : Z) (fpath_dict : fpaths_t) (times : list Z) :
  let t := replace_second_microsecond time in
  _get_acquisition_max_timedelta sector = Ok cadence →
  find_files satellite product_level product (t - cadence) (t + cadence) sector
    filter_parameters (Some "start_time") None base_dir protocol = Ok fpath_dict →
  start_times_of fpath_dict = Ok times →
  (times = [] →
   find_closest_start_time time satellite product_level product sector base_dir protocol
     filter_parameters
   = Raise (ValueError [Txt "No data available in previous and next ";
                        Num (cadence `div` 60000000); Txt " minutes around ";
                        Stamp t; Txt "."]))
  ∧ (times ≠ [] →
     ∃ r, find_closest_start_time time satellite product_level product sector base_dir
            protocol filter_parameters = Ok r
          ∧ r ∈ times
          ∧ ∀ x, x ∈ times → Z.abs (r - t) ≤ Z.abs (x - t)).
Proof.
  intros t Hcad Hfind Htimes.
  rewrite (find_closest_start_time_cases _ _ _ _ _ _ _ _ _ _ _ Hcad Hfind Htimes). fold t.
  split.
  - intros ->. reflexivity.
  - intros Hne. destruct (closest_in_sorted times t Hne) as (r & Hr & Hin & Hmin & _).
    exists r. rewrite Hr. by repeat split.
Qed.


(** C3, as the code has it: with the consistency check, without the start
    time, for [N ≥ 1] and a start time that is the start time of a file,
    the window searched goes [cadence × (N + 1)] back from the resolved
    start; a call that returns gives exactly [N] start times found in
    that window, all strictly before the resolved start, in ascending
    order, and with the resolved start they are evenly spaced (by a
    constant step, which the code does not compare with the cadence);
    with fewer than [N] start times left it fails with a [ValueError]. *)
Theorem find_previous_files_regular (start_time N : Z)
    (satellite product_level product : string) (sector : option string)
    (filter_parameters : filter_parameters_t)
    (connection_type base_dir protocol : option string) :
  1 ≤ N →
  let t := replace_second_microsecond start_time in
  let found_in level sector_key cadence :=
    fpath_dict ← find_files satellite level product (t - cadence * (N + 1)) t
                   (Some sector_key) filter_parameters (Some "start_time")
                   connection_type base_dir protocol;
    start_times_of fpath_dict in
  (∀ result,
     find_previous_files start_time N satellite product_level product sector
       filter_parameters connection_type base_dir protocol false true = Ok result →
     ∃ sector_key level cadence found groups times,
       _check_sector PRODUCTS AHI_L2_SECTOR_EXCEPTIONS sector None = Ok sector_key
       ∧ _check_product_level product_level None = Ok level
       ∧ _get_acquisition_max_timedelta (Some sector_key) = Ok cadence
       ∧ find_closest_start_time t satellite level product (Some sector_key) base_dir
           protocol filter_parameters = Ok t
       ∧ found_in level sector_key cadence = Ok found
       ∧ result = FDict groups
       ∧ groups.*1 = VTime <$> times
       ∧ Z.of_nat (length times) = N
       ∧ (∀ x, x ∈ times → x ∈ found ∧ x < t)
       ∧ StronglySorted Z.lt times
       ∧ all_equal (np_diff (times ++ [t])%list))
  ∧ (∀ sector_key level cadence found rest,
       _check_sector PRODUCTS AHI_L2_SECTOR_EXCEPTIONS sector None = Ok sector_key →
       _check_product_level product_level None = Ok level →
       _get_acquisition_max_timedelta (Some sector_key) = Ok cadence →
       find_closest_start_time t satellite level product (Some sector_key) base_dir
         protocol filter_parameters = Ok t →
       found_in level sector_key cadence = Ok found →
       list_remove t (sorted found) = Ok rest →
       Z.of_nat (length rest) < N →
       ∃ msg, find_previous_files start_time N satellite product_level product sector
                filter_parameters connection_type base_dir protocol false true
              = Raise (ValueError msg)).
Proof.
  intros HN t found_in. split.
  - intros result H. unfold_find_previous_files_in H.
    inv_bind_as H sector_key Hsec. inv_bind_as H level Hlevel.
    cbn zeta in H. fold t in H.
    inv_bind_as H closest_time Hclosest.
    destruct (bool_decide (closest_time = t)) eqn:Hct; [|discriminate].
    apply bool_decide_eq_true in Hct. subst closest_time. simpl in H.
    inv_bind_as H cadence Hcad. inv_bind_as H fpath_dict Hfind.
    inv_bind_as H keys Hkeys. inv_bind_as H found Hfound.
    inv_bind_as H rest Hrest. simpl in Hrest.
    destruct (find_files_start_times _ _ _ _ _ _ _ _ _ _ _ Hfind)
      as (groups0 & times0 & -> & Hk0 & Hs0 & Hle0).
    simpl in Hkeys. injection Hkeys as <-.
    rewrite Hk0, check_each_as_datetime in Hfound. injection Hfound as <-.
    unfold t in Hle0. rewrite replace_microsecond_minute in Hle0. fold t in Hle0.
    rewrite sorted_of_sorted in Hrest by (by apply StronglySorted_lt_le).
    destruct (list_remove_Ok _ _ _ Hrest (StronglySorted_lt_NoDup _ Hs0)) as [Hsub Hne].
    assert (StronglySorted Z.lt rest) as Hsrest by (by eapply StronglySorted_sublist).
    rewrite sorted_of_sorted in H by (by apply StronglySorted_lt_le).
    destruct (length rest =? 0)%nat; [discriminate|].
    case_bool_decide as Hlen; [discriminate|].
    destruct (last_n_spec N rest HN ltac:(lia)) as (Hlast_len & Hlast_in & Hlast_sorted).
    specialize (Hlast_sorted Hsrest).
    inv_bind_as H groups Hgroups. inv_bind_as H u Hreg. injection H as <-.
    apply select_keys_keys in Hgroups.
    assert (∀ x, x ∈ last_n N rest → x ∈ times0 ∧ x < t) as Hbefore.
    { intros x Hx. apply Hlast_in in Hx. split; [by eapply sublist_subseteq|].
      assert (x ≠ t) by (by apply Hne).
      assert (x ≤ t); [|lia].
      rewrite Forall_forall in Hle0. apply Hle0. by eapply sublist_subseteq. }
    exists sector_key, level, cadence, times0, groups, (last_n N rest).
    split; [exact Hsec|]. split; [exact Hlevel|]. split; [exact Hcad|].
    split; [exact Hclosest|]. split.
    { unfold found_in. rewrite Hfind. simpl. unfold start_times_of. simpl.
      by rewrite Hk0, check_each_as_datetime. }
    split; [reflexivity|]. split; [exact Hgroups|]. split; [exact Hlast_len|].
    split; [exact Hbefore|]. split; [exact Hlast_sorted|].
    destruct u. apply check_interval_regularity_Ok in Hreg.
    + rewrite sorted_of_sorted in Hreg; [exact Hreg|].
      apply StronglySorted_app_2; [|by apply StronglySorted_lt_le|repeat constructor].
      intros x1 x2 Hx1 Hx2. apply list_elem_of_singleton in Hx2 as ->.
      destruct (Hbefore _ Hx1). lia.
    + rewrite length_app. simpl. lia.
  - intros sector_key level cadence found rest Hsec Hlevel Hcad Hclosest Hfound Hrest Hlen.
    unfold_find_previous_files. rewrite Hsec. simpl. rewrite Hlevel. simpl.
    fold t. rewrite Hclosest. simpl. rewrite bool_decide_eq_true_2 by done. simpl.
    rewrite Hcad. simpl.
    unfold found_in in Hfound. inv_bind_as Hfound fpath_dict Hfind. rewrite Hfind. simpl.
    unfold start_times_of in Hfound. inv_bind_as Hfound keys Hkeys.
    rewrite Hkeys. simpl. rewrite Hfound. simpl. rewrite Hrest. simpl.
    destruct (length (sorted rest) =? 0)%nat; [by eexists|].
    rewrite bool_decide_eq_true_2 by (rewrite sorted_length; lia). by eexists.
Qed.

End SearchProperties.

Lemma find_closest_start_time_minimizes_witness :
  let fnames := [rad_name "1000" "R301"; rad_name "1000" "R302"] in
  let time := hhmm 10 1 + timedelta 0 50 in
  let t := replace_second_microsecond time in
  let times := [hhmm 10 0; hhmm 10 0 + timedelta 2 30] in
  (times = [] →
   sample_find_closest_start_time fnames time (Some "Target")
   = Raise (ValueError [Txt "No data available in previous and next ";
                        Num (timedelta 2 30 `div` 60000000); Txt " minutes around ";
                        Stamp t; Txt "."]))
  ∧ (times ≠ [] →
     ∃ r, sample_find_closest_start_time fnames time (Some "Target") = Ok r
          ∧ r ∈ times
          ∧ ∀ x, x ∈ times → Z.abs (r - t) ≤ Z.abs (x - t)).
Proof.
  intros fnames time t times.
  eapply (find_closest_start_time_minimizes sample_patterns (sample_parse sample_table)
            sample_products sample_exceptions sample_utcnow (λ _, true) (λ _, true)
            sample_dt_to_year_month_day_hhmm (sample_glob fnames)
            time "H8" "L1b" "Rad" (Some "Target") None (Some "s3") (FilterParameters None None)
            (timedelta 2 30)).
  - vm_compute. reflexivity.
  - vm_compute. reflexivity.
  - vm_compute. reflexivity.
Defined.

(** C4, as stated, fails: for the target 10:01:50 of the Target sector the
    start times found are 10:00:00 and 10:02:30; the call returns 10:00:00,
    at 110 seconds of the target, and 10:02:30 is at 40 seconds. *)
Lemma find_closest_start_time_not_closest_to_target :
  let fnames := [rad_name "1000" "R301"; rad_name "1000" "R302"] in
  let time := hhmm 10 1 + timedelta 0 50 in
  let t := replace_second_microsecond time in
  (fpath_dict ← sample_find_files fnames (t - timedelta 2 30) (t + timedelta 2 30)
                  (Some "Target");
   start_times_of fpath_dict) = Ok [hhmm 10 0; hhmm 10 0 + timedelta 2 30]
  ∧ sample_find_closest_start_time fnames time (Some "Target") = Ok (hhmm 10 0)
  ∧ Z.abs (hhmm 10 0 + timedelta 2 30 - time) < Z.abs (hhmm 10 0 - time).
Proof.
  repeat split; vm_compute; reflexivity.
Qed.


Lemma find_previous_files_regular_witness :
  ∃ result groups times,
    sample_find_previous_files
      [rad_name "1000" "FLDK"; rad_name "0950" "FLDK"; rad_name "0940" "FLDK"]
      (hhmm 10 0) 2 (Some "FLDK") = Ok result
    ∧ result = FDict groups
    ∧ groups.*1 = VTime <$> times
    ∧ Z.of_nat (length times) = 2
    ∧ (∀ x, x ∈ times → x < replace_second_microsecond (hhmm 10 0))
    ∧ StronglySorted Z.lt times
    ∧ all_equal (np_diff (times ++ [replace_second_microsecond (hhmm 10 0)])%list).
Proof.
  assert (1 ≤ 2) as H12 by lia.
  assert (∃ result,
            sample_find_previous_files
              [rad_name "1000" "FLDK"; rad_name "0950" "FLDK"; rad_name "0940" "FLDK"]
              (hhmm 10 0) 2 (Some "FLDK") = Ok result) as [result Hresult].
  { eexists. vm_compute. reflexivity. }
  destruct (proj1 (find_previous_files_regular sample_patterns (sample_parse sample_table)
                     sample_products sample_exceptions sample_utcnow (λ _, true) (λ _, true)
                     sample_dt_to_year_month_day_hhmm
                     (sample_glob [rad_name "1000" "FLDK"; rad_name "0950" "FLDK";
                                   rad_name "0940" "FLDK"])
                     (hhmm 10 0) 2 "H8" "L1b" "Rad" (Some "FLDK")
                     (FilterParameters None None) None None (Some "s3") H12)
              result Hresult)
    as (sector_key & level & cadence & found & groups & times & _ & _ & _ & _ & _
        & Hgroups & Hkeys & Hlen & Hbefore & Hsorted & Hregular).
  exists result, groups, times.
  split; [exact Hresult|]. split; [exact Hgroups|]. split; [exact Hkeys|].
  split; [exact Hlen|]. split; [|split; [exact Hsorted | exact Hregular]].
  intros x Hx. exact (proj2 (Hbefore x Hx)).
Defined.

(** C3, as stated, fails: in the full-disk sector, scanned every 10
    minutes, with files at 09:40 and 10:00 only, one previous time step is
    asked from 10:00; the call returns 09:40, 20 minutes before the start. *)
Lemma find_previous_files_not_at_cadence :
  let fnames := [rad_name "1000" "FLDK"; rad_name "0940" "FLDK"] in
  (result ← sample_find_previous_files fnames (hhmm 10 0) 1 (Some "FLDK"); dict_keys result)
  = Ok [VTime (hhmm 9 40)]
  ∧ _get_acquisition_max_timedelta (Some "FLDK") = Ok (timedelta 10 0)
  ∧ hhmm 10 0 - hhmm 9 40 ≠ timedelta 10 0.
Proof.
  split; [vm_compute; reflexivity|]. split; [reflexivity|]. vm_compute. discriminate.
Qed.

(** * Further properties *)

(** ** Alias checks *)

Lemma ascii_upper_idemp (c : ascii) : ascii_upper (ascii_upper c) = ascii_upper c.
Proof. by destruct c as [[] [] [] [] [] [] [] []]. Qed.

Lemma str_upper_idemp (s : string) : str_upper (str_upper s) = str_upper s.
Proof. induction s as [|c s IH]; simpl; [reflexivity|]. by rewrite ascii_upper_idemp, IH. Qed.

Lemma find_alias_key (table : list (string * list string)) (s key : string) :
  find_alias table s = Some key → key ∈ keys table.
Proof.
  intros H. apply find_alias_Some in H as (l & Hl & _).
  unfold keys. apply list_elem_of_fmap. by exists (key, l).
Qed.

(** X1: a channel that is accepted resolves to one of the sixteen band
    names; a band name resolves to itself, and the answer depends on the
    upper-case form of the input only. *)
Theorem check_channel_canonical (channel key : string) :
  _check_channel channel = Ok key →
  key ∈ available_channels
  ∧ _check_channel key = Ok key
  ∧ _check_channel (str_upper channel) = Ok key.
Proof.
  intros H.
  assert (key ∈ available_channels) as Hkey.
  { unfold _check_channel in H. case_bool_decide as Hin.
    - injection H as <-. exact Hin.
    - destruct (find_alias _ _) as [k|] eqn:Hk; [|discriminate].
      injection H as <-. by eapply find_alias_key. }
  split; [exact Hkey|]. split.
  - unfold available_channels, keys, _channels in Hkey. simpl in Hkey.
    repeat (apply elem_of_cons in Hkey as [->|Hkey]; [reflexivity|]).
    by apply elem_of_nil in Hkey.
  - unfold _check_channel in *. cbn zeta in *. rewrite !str_upper_idemp in H. rewrite !str_upper_idemp. exact H.
Qed.

Lemma check_channel_canonical_witness :
  _check_channel "blue" = Ok "B01"
  ∧ "B01" ∈ available_channels
  ∧ _check_channel "B01" = Ok "B01"
  ∧ _check_channel (str_upper "blue") = Ok "B01".
Proof.
  split; [reflexivity|]. apply (check_channel_canonical "blue" "B01"). reflexivity.
Defined.

Lemma check_sector_key (PRODUCTS : list (string * list (string * list string)))
    (AHI_L2_SECTOR_EXCEPTIONS : gmap string (list string))
    (sector product : option string) (key : string) :
  _check_sector PRODUCTS AHI_L2_SECTOR_EXCEPTIONS sector product = Ok key →
  ∃ s, sector = Some s ∧ find_alias _sectors (str_upper s) = Some key.
Proof.
  unfold _check_sector. intros H.
  destruct sector as [sector|]; [|discriminate]. exists sector. split; [reflexivity|].
  destruct (find_alias _sectors (str_upper sector)) as [sector_key|]; [|discriminate].
  inv_bind_as H valid_sectors Hvalid.
  destruct product; [destruct (negb _); [discriminate|]|]; by injection H as ->.
Qed.

(** X2: a sector that is accepted resolves to one of the four sector keys,
    and checking that key again, with the same product, gives the key: the
    callers that check the sector before handing it to a function that
    checks it again lose nothing. *)
Theorem check_sector_canonical (PRODUCTS : list (string * list (string * list string)))
    (AHI_L2_SECTOR_EXCEPTIONS : gmap string (list string))
    (sector product : option string) (key : string) :
  _check_sector PRODUCTS AHI_L2_SECTOR_EXCEPTIONS sector product = Ok key →
  key ∈ keys _sectors
  ∧ _check_sector PRODUCTS AHI_L2_SECTOR_EXCEPTIONS (Some key) product = Ok key.
Proof.
  unfold _check_sector. intros H.
  destruct sector as [sector|]; [|discriminate].
  destruct (find_alias _sectors (str_upper sector)) as [sector_key|] eqn:Halias; [|discriminate].
  assert (key = sector_key) as ->.
  { inv_bind_as H valid_sectors Hvalid.
    destruct product; [destruct (negb _); [discriminate|]|]; by injection H. }
  pose proof (find_alias_key _ _ _ Halias) as Hkey. split; [exact Hkey|].
  assert (find_alias _sectors (str_upper sector_key) = Some sector_key) as ->; [|exact H].
  unfold keys, _sectors in Hkey. simpl in Hkey.
  repeat (apply elem_of_cons in Hkey as [->|Hkey]; [reflexivity|]).
  by apply elem_of_nil in Hkey.
Qed.

Lemma check_sector_canonical_witness :
  _check_sector sample_products sample_exceptions (Some "full disk") None = Ok "FLDK"
  ∧ "FLDK" ∈ keys _sectors
  ∧ _check_sector sample_products sample_exceptions (Some "FLDK") None = Ok "FLDK".
Proof.
  split; [reflexivity|].
  apply (check_sector_canonical sample_products sample_exceptions (Some "full disk") None).
  reflexivity.
Defined.

(** ** Protocol and connection type *)

Lemma check_protocol_range (protocol checked : option string) :
  _check_protocol protocol = Ok checked →
  (protocol = None ∧ checked = None)
  ∨ (protocol = Some "s3" ∧ checked = Some "s3")
  ∨ (protocol ∈ [Some "local"; Some "file"] ∧ checked = Some "file").
Proof.
  unfold _check_protocol. intros H. destruct protocol as [p|]; [|left; by injection H].
  case_bool_decide as Hin; [|discriminate]. simpl in H. right.
  unfold PROTOCOLS in Hin.
  repeat (apply elem_of_cons in Hin as [->|Hin];
          [injection H as <-; first [by left | right; split; [by repeat constructor | done]]|]).
  by apply elem_of_nil in Hin.
Qed.

Lemma check_each_Raise {A B : Type} (f : A → result B) (l : list A) (e : exn) :
  check_each f l = Raise e → ∃ x, x ∈ l ∧ f x = Raise e.
Proof.
  induction l as [|x l IH]; simpl; [discriminate|].
  destruct (f x) as [y|e'] eqn:Hx; simpl.
  - destruct (check_each f l) as [ys|e'']; simpl; [discriminate|].
    intros [= ->]. destruct IH as (x' & Hin & Hx'); [reflexivity|].
    exists x'. split; [by right | exact Hx'].
  - intros [= ->]. exists x. split; [left | exact Hx].
Qed.

Lemma for_items_Raise {K A B : Type} (f : A → result B) (d : list (K * A)) (e : exn) :
  for_items f d = Raise e → ∃ kv, kv ∈ d ∧ f kv.2 = Raise e.
Proof.
  induction d as [|[k a] d IH]; simpl; [discriminate|].
  destruct (f a) as [y|e'] eqn:Hx; simpl.
  - destruct (for_items f d) as [ys|e'']; simpl; [discriminate|].
    intros [= ->]. destruct IH as (x' & Hin & Hx'); [reflexivity|].
    exists x'. split; [by right | exact Hx'].
  - intros [= ->]. exists (k, a). split; [left | exact Hx].
Qed.

Lemma switch_to_https_fpath_errors (fpath protocol : string) (msg : list frag) :
  _switch_to_https_fpath fpath protocol ≠ Raise (NotImplementedError msg).
Proof.
  intros H. unfold _switch_to_https_fpath in H.
  destruct (infer_satellite_from_path fpath) as [satellite|e] eqn:Hs; simpl in H.
  - match type of H with
    | context [getitem ?d ?k] => destruct (getitem d k) as [base_url|e] eqn:Hg
    end; simpl in H.
    + by destruct (str_split "/" 3 fpath !! 3%nat).
    + unfold getitem in Hg.
      match type of Hg with
      | context [?d !! ?k] => destruct (d !! k)
      end; [discriminate|]. congruence.
  - unfold infer_satellite_from_path in Hs.
    repeat (destruct (any_in _ _); [discriminate|]). congruence.
Qed.

(** X3: once the protocol and the connection type went through their
    checks, the protocol is [None], "s3" or "file" ("local" is renamed "file")
    and passes its check again unchanged; the connection type is one of the
    three available ones for the object store and [None] otherwise; and none
    of the later steps answers that the protocol or the connection type is
    not implemented: a protocol that is not [None] has a filesystem and a
    bucket prefix, and [_set_connection_type] knows the connection type. *)
Theorem checked_protocol_is_implemented
    (protocol connection_type checked_protocol checked_type : option string)
    (fpaths : fpaths_t) (satellite : string) :
  _check_protocol protocol = Ok checked_protocol →
  _check_connection_type connection_type checked_protocol = Ok checked_type →
  checked_protocol ∈ [None; Some "s3"; Some "file"]
  ∧ _check_protocol checked_protocol = Ok checked_protocol
  ∧ (checked_protocol = Some "s3" →
     ∃ c, checked_type = Some c ∧ c ∈ available_connection_types)
  ∧ (checked_protocol ≠ Some "s3" → checked_type = None)
  ∧ (checked_protocol ≠ None →
     succeeds (get_filesystem checked_protocol) = true
     ∧ succeeds (_get_bucket_prefix checked_protocol) = true)
  ∧ ∀ msg, _set_connection_type fpaths satellite checked_protocol checked_type
           ≠ Raise (NotImplementedError msg).
Proof.
  intros Hp Hc.
  apply check_protocol_range in Hp as [[_ ->]|[[_ ->]|[_ ->]]].
  - simpl in Hc. injection Hc as <-. repeat split; try done. left.
  - assert (∃ c, checked_type = Some c ∧ c ∈ available_connection_types) as (c & -> & Hin).
    { unfold _check_connection_type in Hc. simpl in Hc.
      destruct connection_type as [c|]; simpl in Hc.
      - case_bool_decide as Hin; [|discriminate]. injection Hc as <-.
        exists c. split; [reflexivity|].
        unfold available_connection_types.
        repeat (apply elem_of_cons in Hin as [[= ->]|Hin]; [by repeat constructor|]).
        by apply elem_of_nil in Hin.
      - injection Hc as <-. exists "bucket". split; [reflexivity | left]. }
    split; [right; left|]. split; [reflexivity|]. split; [by exists c|].
    split; [done|]. split; [done|]. intros msg.
    unfold available_connection_types in Hin.
    repeat (apply elem_of_cons in Hin as [->|Hin]); [| | |by apply elem_of_nil in Hin].
    + done.
    + unfold _set_connection_type. simpl. destruct fpaths as [l|d].
      * destruct (_switch_to_https_fpaths l "s3") as [l'|e] eqn:Hl; [done|]. simpl.
        intros [= ->]. apply check_each_Raise in Hl as (x & _ & Hx).
        by apply switch_to_https_fpath_errors in Hx.
      * destruct (for_items _ d) as [l'|e] eqn:Hl; [done|]. simpl.
        intros [= ->]. apply for_items_Raise in Hl as (kv & _ & Hkv).
        apply check_each_Raise in Hkv as (x & _ & Hx).
        by apply switch_to_https_fpath_errors in Hx.
    + unfold _set_connection_type. simpl. destruct fpaths as [l|d].
      * destruct (_switch_to_https_fpaths l "s3") as [l'|e] eqn:Hl; [done|]. simpl.
        intros [= ->]. apply check_each_Raise in Hl as (x & _ & Hx).
        by apply switch_to_https_fpath_errors in Hx.
      * destruct (for_items _ d) as [l'|e] eqn:Hl; [done|]. simpl.
        intros [= ->]. apply for_items_Raise in Hl as (kv & _ & Hkv).
        apply check_each_Raise in Hkv as (x & _ & Hx).
        by apply switch_to_https_fpath_errors in Hx.
  - simpl in Hc. assert (checked_type = None) as -> by (by destruct connection_type; injection Hc).
    repeat split; try done. do 2 right; left.
Qed.

Lemma checked_protocol_is_implemented_witness :
  _check_protocol (Some "local") = Ok (Some "file")
  ∧ _check_connection_type (Some "https") (Some "file") = Ok None
  ∧ Some "file" ∈ [None; Some "s3"; Some "file"]
  ∧ _check_protocol (Some "file") = Ok (Some "file")
  ∧ (Some "file" = Some "s3" →
     ∃ c, None = Some c ∧ c ∈ available_connection_types)
  ∧ (Some "file" ≠ Some "s3" → @None string = None)
  ∧ (Some "file" ≠ None →
     succeeds (get_filesystem (Some "file")) = true
     ∧ succeeds (_get_bucket_prefix (Some "file")) = true)
  ∧ ∀ msg, _set_connection_type (FList ["/data/a"]) "himawari-8" (Some "file") None
           ≠ Raise (NotImplementedError msg).
Proof.
  split; [reflexivity|]. split; [reflexivity|].
  apply (checked_protocol_is_implemented (Some "local") (Some "https")); reflexivity.
Defined.

(** ** Scene abbreviations *)

Lemma all_isin_subseteq (scene_abbr valid_scene_abbr : list string) :
  all_isin scene_abbr valid_scene_abbr = true ↔ scene_abbr ⊆ valid_scene_abbr.
Proof.
  unfold all_isin. rewrite forallb_forall. split.
  - intros H s Hs. apply list_elem_of_In, H in Hs. by apply bool_decide_eq_true in Hs.
  - intros H s Hs. apply bool_decide_eq_true, H, list_elem_of_In, Hs.
Qed.

Lemma check_scene_abbr_Ok (scene_abbr : list string) (sector : string)
    (checked : option (list string)) :
  _check_scene_abbr (Some scene_abbr) (Some sector) = Ok checked →
  sector ∉ ["FLDK"; "Target"; "Landmark"]
  ∧ (sector = "Japan" → scene_abbr ⊆ ["R1"; "R2"]).
Proof.
  unfold _check_scene_abbr. intros H.
  case_bool_decide as Hf; [discriminate|].
  destruct (negb (all_isin scene_abbr ["R1"; "R2"; "R3"; "R4"; "R5"])); [discriminate|].
  destruct (bool_decide (Some sector = Some "Japan")
            && negb (all_isin scene_abbr ["R1"; "R2"])) eqn:Hj; [discriminate|].
  case_bool_decide as Ht; [discriminate|]. case_bool_decide as Hl; [discriminate|].
  split.
  - intros Hin. repeat (apply elem_of_cons in Hin as [->|Hin]; [done|]).
    by apply elem_of_nil in Hin.
  - intros ->. apply all_isin_subseteq.
    rewrite bool_decide_eq_true_2 in Hj by done. simpl in Hj.
    by destruct (all_isin scene_abbr ["R1"; "R2"]).
Qed.

(** X4: without sector, a list of scenes is returned as it is exactly when
    all of them are among R1 to R5; for the Japan sector, exactly when all of
    them are R1 or R2; for the full disk it is refused, as the message says,
    and also for the Target and Landmark sectors, whatever the scenes: the
    test of the scenes of these two sectors is computed and not used.  Every
    refusal is a [ValueError]. *)
Theorem check_scene_abbr_cases (scene_abbr : list string) :
  (_check_scene_abbr (Some scene_abbr) None = Ok (Some scene_abbr)
   ↔ scene_abbr ⊆ ["R1"; "R2"; "R3"; "R4"; "R5"])
  ∧ (_check_scene_abbr (Some scene_abbr) (Some "Japan") = Ok (Some scene_abbr)
     ↔ scene_abbr ⊆ ["R1"; "R2"])
  ∧ (∃ msg, _check_scene_abbr (Some scene_abbr) (Some "FLDK") = Raise (ValueError msg))
  ∧ (∃ msg, _check_scene_abbr (Some scene_abbr) (Some "Target") = Raise (ValueError msg))
  ∧ (∃ msg, _check_scene_abbr (Some scene_abbr) (Some "Landmark") = Raise (ValueError msg))
  ∧ _check_scene_abbr (Some ["R3"]) (Some "Target")
    = Raise (ValueError [Txt "Valid `scene_abbr` for Target sector are "; Keys ["R3"]; Txt "."])
  ∧ (∀ sector,
       _check_scene_abbr (Some scene_abbr) sector = Ok (Some scene_abbr)
       ∨ ∃ msg, _check_scene_abbr (Some scene_abbr) sector = Raise (ValueError msg)).
Proof.
  unfold _check_scene_abbr. split; [|split; [|split; [|split; [|split; [|split]]]]].
  - simpl. rewrite <- all_isin_subseteq.
    destruct (all_isin scene_abbr _); simpl; split; done.
  - simpl.
    assert (scene_abbr ⊆ ["R1"; "R2"] → scene_abbr ⊆ ["R1"; "R2"; "R3"; "R4"; "R5"]) as Hsub.
    { intros H s Hs. apply H in Hs. apply elem_of_cons in Hs as [->|Hs]; [left|].
      apply list_elem_of_singleton in Hs as ->. right; left. }
    rewrite <- !all_isin_subseteq in Hsub. rewrite <- all_isin_subseteq.
    destruct (all_isin scene_abbr ["R1"; "R2"]); simpl.
    + rewrite Hsub by done. simpl. split; done.
    + destruct (all_isin scene_abbr _); simpl; split; done.
  - simpl. by eexists.
  - simpl. destruct (negb (all_isin scene_abbr _)); by eexists.
  - simpl. destruct (negb (all_isin scene_abbr _)); by eexists.
  - reflexivity.
  - intros sector. repeat (case_bool_decide; simpl; try (right; by eexists));
      repeat (destruct (negb _); simpl; try (right; by eexists)); by left.
Qed.

(** ** Directory of a product *)

(** X5: the Landmark sector is searched in the directory of the Target
    sector, in the bucket and under a local base directory alike; for level
    L2 a directory is given for the full disk only. *)
Theorem get_product_dir_landmark (os_path_exists : string → bool)
    (satellite product_level product : string) (protocol base_dir : option string) :
  _get_product_name product_level product "Landmark"
  = _get_product_name product_level product "Target"
  ∧ _get_product_dir os_path_exists satellite product_level product "Landmark" protocol base_dir
    = _get_product_dir os_path_exists satellite product_level product "Target" protocol base_dir
  ∧ (∀ sector,
       sector = "FLDK"
       ∨ _get_product_name "L2" product sector
         = Raise (ValueError [Txt "L2 product level provides only FLDK sector."])).
Proof.
  assert (_get_product_name product_level product "Landmark"
          = _get_product_name product_level product "Target") as Hname.
  { unfold _get_product_name. by repeat case_bool_decide. }
  split; [exact Hname|]. split.
  - unfold _get_product_dir. by rewrite Hname.
  - intros sector. unfold _get_product_name. simpl.
    case_bool_decide as Hs; [by left | by right].
Qed.

(** ** Satellite read in a path *)

(** X6: every path under the bucket of Himawari-8 is read as a path of
    Himawari-8; a path under the bucket of Himawari-9 is read as a path of
    Himawari-9 unless what follows the bucket holds one of the Himawari-8
    patterns, which are tried first. *)
Theorem infer_satellite_from_bucket_path (rest : string) :
  get_bucket (Some "s3") "himawari-8" = Ok "s3://noaa-himawari8"
  ∧ get_bucket (Some "s3") "himawari-9" = Ok "s3://noaa-himawari9"
  ∧ infer_satellite_from_path ("s3://noaa-himawari8" +:+ rest) = Ok "himawari-8"
  ∧ infer_satellite_from_path ("s3://noaa-himawari9" +:+ rest)
    = Ok (if any_in himawari8_patterns rest then "himawari-8" else "himawari-9").
Proof.
  split; [reflexivity|]. split; [reflexivity|]. split.
  - unfold infer_satellite_from_path. by rewrite any_in_app_l.
  - unfold infer_satellite_from_path.
    assert (any_in himawari8_patterns ("s3://noaa-himawari9" +:+ rest)
            = any_in himawari8_patterns rest) as -> by (vm_compute; reflexivity).
    rewrite (any_in_app_l himawari9_patterns) by reflexivity.
    by destruct (any_in himawari8_patterns rest).
Qed.

(** ** Switching to the public endpoint *)

Lemma str_split_length (sep : ascii) (maxsplit : nat) (s : string) :
  length (str_split sep maxsplit s) = S (maxsplit `min` str_count sep s).
Proof.
  revert maxsplit. induction s as [|c s IH]; intros maxsplit.
  - by destruct maxsplit.
  - destruct maxsplit as [|m]; [reflexivity|].
    change (str_split sep (S m) (String c s))
      with (if Ascii.eqb c sep then EmptyString :: str_split sep m s
            else match str_split sep (S m) s with
                 | piece :: rest => String c piece :: rest
                 | [] => [String c EmptyString]
                 end).
    simpl str_count. destruct (Ascii.eqb c sep).
    + simpl. by rewrite IH.
    + specialize (IH (S m)). destruct (str_split sep (S m) s); [discriminate | exact IH].
Qed.

(** X7: a path is switched to the public endpoint exactly when one of the
    satellite patterns is in it, the protocol is "s3" and it holds at least
    three slashes; a path of a known satellite with fewer slashes is an
    [IndexError], not a path. *)
Theorem switch_to_https_fpath_succeeds_iff (fpath protocol : string) :
  (succeeds (_switch_to_https_fpath fpath protocol) = true
   ↔ succeeds (infer_satellite_from_path fpath) = true
     ∧ protocol = "s3" ∧ (3 ≤ str_count "/" fpath)%nat)
  ∧ (_switch_to_https_fpath fpath "s3" = Raise IndexError
     ↔ succeeds (infer_satellite_from_path fpath) = true ∧ (str_count "/" fpath < 3)%nat).
Proof.
  assert (str_split "/" 3 fpath !! 3%nat = None ↔ (str_count "/" fpath < 3)%nat) as Hsplit.
  { rewrite lookup_ge_None, str_split_length. lia. }
  unfold _switch_to_https_fpath.
  destruct (infer_satellite_from_path fpath) as [satellite|e] eqn:Hs; simpl.
  - unfold getitem. split.
    + destruct (decide (protocol = "s3")) as [->|Hne].
      * rewrite lookup_singleton_eq. simpl.
        destruct (str_split "/" 3 fpath !! 3%nat) eqn:Hl; simpl.
        -- split; [|done]. intros _. split; [done|]. split; [done|].
           destruct (decide (3 ≤ str_count "/" fpath)%nat) as [|Hn]; [done|].
           assert (Some s = None) as Hnone by (apply Hsplit; lia). discriminate Hnone.
        -- split; [done|]. intros (_ & _ & H).
           assert (str_count "/" fpath < 3)%nat by (by apply Hsplit). lia.
      * rewrite lookup_singleton_ne by done. simpl. split; [done|]. by intros (_ & ? & _).
    + rewrite lookup_singleton_eq. simpl.
      destruct (str_split "/" 3 fpath !! 3%nat) eqn:Hl; simpl.
      * split; [done|]. intros [_ H]. apply Hsplit in H. discriminate H.
      * split; [|done]. intros _. split; [done|]. by apply Hsplit.
  - split; [split; [done | by intros [? _]]|].
    split; [|by intros [? _]]. intros [= ->].
    unfold infer_satellite_from_path in Hs.
    by repeat (destruct (any_in _ _); [discriminate|]).
Qed.

(** ** Shape of the result under a connection type *)

Lemma check_each_length {A B : Type} (f : A → result B) (l : list A) (r : list B) :
  check_each f l = Ok r → length r = length l.
Proof. intros H. apply check_each_Ok in H. symmetry. by eapply Forall2_length. Qed.

Lemma for_items_sizes {K A B : Type} (f : list A → result (list B))
    (d : list (K * list A)) (d' : list (K * list B)) :
  (∀ l r, f l = Ok r → length r = length l) →
  for_items f d = Ok d' → length <$> d'.*2 = length <$> d.*2.
Proof.
  intros Hf. revert d'. induction d as [|[k a] d IH]; intros d' H; simpl in H.
  - by injection H as <-.
  - inv_bind_as H b Hb. inv_bind_as H r Hr. injection H as <-.
    simpl. f_equal; [by apply Hf | by apply IH].
Qed.

(** X8: whatever the protocol and the connection type, a result that comes
    out of [_set_connection_type] has the shape it had: a list stays a list
    of the same length; a dictionary keeps its keys, in their order, and
    the number of paths under each of them. *)
Theorem set_connection_type_shape (fpaths result : fpaths_t) (satellite : string)
    (protocol connection_type : option string) :
  _set_connection_type fpaths satellite protocol connection_type = Ok result →
  match fpaths, result with
  | FList l, FList l' => length l' = length l
  | FDict d, FDict d' => d'.*1 = d.*1 ∧ length <$> d'.*2 = length <$> d.*2
  | _, _ => False
  end.
Proof.
  unfold _set_connection_type. intros H.
  assert (match fpaths, fpaths with
          | FList l, FList l' => length l' = length l
          | FDict d, FDict d' => d'.*1 = d.*1 ∧ length <$> d'.*2 = length <$> d.*2
          | _, _ => False
          end) as Hid by (by destruct fpaths).
  destruct protocol as [protocol|]; [|by injection H as <-].
  case_bool_decide; [by injection H as <-|].
  case_bool_decide; [by injection H as <-|].
  case_bool_decide; [|discriminate]. clear Hid.
  destruct fpaths as [l|d].
  - inv_bind_as H l' Hl. apply check_each_length in Hl.
    case_bool_decide; injection H as <-; [|exact Hl].
    unfold _add_nc_bytes. by rewrite length_fmap.
  - inv_bind_as H d' Hd.
    pose proof (for_items_keys _ _ _ Hd) as Hkeys.
    apply for_items_sizes in Hd; [|intros l r; apply check_each_length].
    case_bool_decide; injection H as <-; [|by split].
    split.
    + rewrite <- Hkeys, <- list_fmap_compose. apply list_fmap_ext. by intros _ [k l] _.
    + rewrite <- Hd, <- !list_fmap_compose. apply list_fmap_ext. intros _ [k l] _. simpl.
      unfold _add_nc_bytes. by rewrite length_fmap.
Qed.

Lemma set_connection_type_shape_witness :
  let fpaths := FDict [(VTime 0, ["s3://noaa-himawari8/a/b"; "s3://noaa-himawari8/a/c"])] in
  let result := FDict [(VTime 0, ["https://noaa-himawari8.s3.amazonaws.com/a/b#mode=bytes";
                                  "https://noaa-himawari8.s3.amazonaws.com/a/c#mode=bytes"])] in
  _set_connection_type fpaths "himawari-8" (Some "s3") (Some "nc_bytes") = Ok result
  ∧ match fpaths, result with
    | FList l, FList l' => length l' = length l
    | FDict d, FDict d' => d'.*1 = d.*1 ∧ length <$> d'.*2 = length <$> d.*2
    | _, _ => False
    end.
Proof.
  intros fpaths result.
  assert (_set_connection_type fpaths "himawari-8" (Some "s3") (Some "nc_bytes") = Ok result)
    as H by reflexivity.
  split; [exact H|].
  exact (set_connection_type_shape fpaths result "himawari-8" (Some "s3") (Some "nc_bytes") H).
Defined.

(** ** Time window of a query *)

Lemma replace_microsecond_idemp (t : Z) :
  replace_microsecond (replace_microsecond t) = replace_microsecond t.
Proof.
  unfold replace_microsecond.
  assert ((t - t `mod` 1000000) `mod` 1000000 = 0) as ->; [|lia].
  rewrite Zminus_mod_idemp_r. rewrite Z.sub_diag. reflexivity.
Qed.

Lemma replace_microsecond_le (t : Z) : replace_microsecond t ≤ t < replace_microsecond t + 1000000.
Proof. unfold replace_microsecond. pose proof (Z.mod_pos_bound t 1000000). lia. Qed.

(** X9: the bounds of a query that pass the check come out cut to the
    whole second, in order and not after the clock; they pass the check
    again unchanged; and the bounds given may be out of order by less than
    a second, since they are compared after the cut. *)
Theorem check_start_end_time_window (utcnow start_time end_time s e : Z) :
  _check_start_end_time utcnow start_time end_time = Ok (s, e) →
  s = replace_microsecond start_time ∧ e = replace_microsecond end_time
  ∧ s ≤ e ≤ utcnow
  ∧ start_time < end_time + 1000000
  ∧ _check_start_end_time utcnow s e = Ok (s, e).
Proof.
  unfold _check_start_end_time. intros H.
  repeat (case_bool_decide; [discriminate|]). injection H as <- <-.
  split; [reflexivity|]. split; [reflexivity|]. split; [lia|]. split.
  - pose proof (replace_microsecond_le start_time).
    pose proof (replace_microsecond_le end_time). lia.
  - rewrite !replace_microsecond_idemp.
    by rewrite !bool_decide_eq_false_2 by done.
Qed.

Lemma check_start_end_time_window_witness :
  _check_start_end_time (hhmm 23 0) (hhmm 10 0 + 900000) (hhmm 10 0 + 100000)
  = Ok (hhmm 10 0, hhmm 10 0)
  ∧ hhmm 10 0 = replace_microsecond (hhmm 10 0 + 900000)
  ∧ hhmm 10 0 = replace_microsecond (hhmm 10 0 + 100000)
  ∧ hhmm 10 0 ≤ hhmm 10 0 ≤ hhmm 23 0
  ∧ hhmm 10 0 + 900000 < hhmm 10 0 + 100000 + 1000000
  ∧ _check_start_end_time (hhmm 23 0) (hhmm 10 0) (hhmm 10 0) = Ok (hhmm 10 0, hhmm 10 0).
Proof.
  split; [reflexivity|].
  apply (check_start_end_time_window (hhmm 23 0) (hhmm 10 0 + 900000) (hhmm 10 0 + 100000)).
  reflexivity.
Defined.

(** X10: the time steps whose directories are searched start at the start
    of the query and go by ten minutes up to its end: each is the start
    plus a whole number of ten minutes, none is outside the query, and
    every instant of the query is less than ten minutes after one of them. *)
Theorem date_range_covers (start_time end_time x : Z) :
  start_time ≤ x ≤ end_time →
  (∀ t, t ∈ date_range start_time end_time →
        start_time ≤ t ≤ end_time ∧ (t - start_time) `mod` timedelta 10 0 = 0)
  ∧ start_time ∈ date_range start_time end_time
  ∧ ∃ t, t ∈ date_range start_time end_time ∧ t ≤ x < t + timedelta 10 0.
Proof.
  intros Hx. unfold date_range.
  assert (timedelta 10 0 = 600000000) as Htd by reflexivity. rewrite !Htd.
  set (n := (end_time - start_time) `div` 600000000 + 1).
  assert (0 ≤ (end_time - start_time) `div` 600000000) as Hn by (apply Z.div_pos; lia).
  assert (∀ t, t ∈ (λ k, start_time + k * 600000000) <$> seqZ 0 n
               ↔ ∃ k, 0 ≤ k < n ∧ t = start_time + k * 600000000) as Hmem.
  { intros t. rewrite list_elem_of_fmap. split.
    - intros (k & -> & Hk). apply elem_of_seqZ in Hk. exists k. split; [lia | reflexivity].
    - intros (k & Hk & ->). exists k. split; [reflexivity|]. apply elem_of_seqZ. lia. }
  split; [|split].
  - intros t Ht. apply Hmem in Ht as (k & Hk & ->). split.
    + pose proof (Z.mul_div_le (end_time - start_time) 600000000). nia.
    + replace (start_time + k * 600000000 - start_time) with (k * 600000000) by lia.
      apply Z_mod_mult.
  - apply Hmem. exists 0. split; [lia|lia].
  - exists (start_time + (x - start_time) `div` 600000000 * 600000000). split.
    + apply Hmem. exists ((x - start_time) `div` 600000000). split; [|reflexivity].
      split; [apply Z.div_pos; lia|].
      assert ((x - start_time) `div` 600000000 ≤ (end_time - start_time) `div` 600000000)
        by (apply Z.div_le_mono; lia).
      lia.
    + pose proof (Z.mul_div_le (x - start_time) 600000000).
      pose proof (Z.mul_succ_div_gt (x - start_time) 600000000). lia.
Qed.

Lemma date_range_covers_witness :
  hhmm 10 0 ≤ hhmm 10 25 ≤ hhmm 10 30
  ∧ (∀ t, t ∈ date_range (hhmm 10 0) (hhmm 10 30) →
          hhmm 10 0 ≤ t ≤ hhmm 10 30 ∧ (t - hhmm 10 0) `mod` timedelta 10 0 = 0)
  ∧ hhmm 10 0 ∈ date_range (hhmm 10 0) (hhmm 10 30)
  ∧ ∃ t, t ∈ date_range (hhmm 10 0) (hhmm 10 30) ∧ t ≤ hhmm 10 25 < t + timedelta 10 0.
Proof.
  assert (hhmm 10 0 ≤ hhmm 10 25 ≤ hhmm 10 30) as H by (vm_compute; split; discriminate).
  split; [exact H|]. exact (date_range_covers (hhmm 10 0) (hhmm 10 30) (hhmm 10 25) H).
Defined.

(** ** Product and level read in a file name *)

Lemma existsb_find {A : Type} (f : A → bool) (l : list A) :
  existsb f l = true ↔ ∃ x, List.find f l = Some x.
Proof.
  induction l as [|a l IH]; simpl.
  - split; [discriminate | by intros [? ?]].
  - destruct (f a); simpl; [split; [by eexists | done]|exact IH].
Qed.

(** X11: the level and the product read in a file name agree: the level is
    L2 exactly when the product is one of the L2 keywords, which are looked
    for first (so that "CPHS", which holds "HS", is not taken for a radiance
    file), the level is L1b exactly when the product is "Rad", and one
    fails exactly when the other does. *)
Theorem infer_product_agrees_with_level (fpath : string) :
  (_infer_product_level fpath = Ok "L2"
   ↔ ∃ product, _infer_product fpath = Ok product ∧ product ∈ l2_products)
  ∧ (_infer_product_level fpath = Ok "L1b" ↔ _infer_product fpath = Ok "Rad")
  ∧ succeeds (_infer_product_level fpath) = succeeds (_infer_product fpath)
  ∧ _infer_product_level "AHI-CPHS_v1r1_h08_s202101011000000_e202101011009599.nc" = Ok "L2".
Proof.
  unfold _infer_product_level, _infer_product. cbn zeta.
  set (fname := basename fpath).
  assert (existsb id ((λ product, str_in product fname) <$> l2_products)
          = existsb (λ product, str_in product fname) l2_products) as ->.
  { generalize l2_products. intros l. induction l as [|p l IH]; [reflexivity|].
    simpl. by rewrite <- IH. }
  destruct (List.find (λ product, str_in product fname) l2_products) as [p|] eqn:Hfind.
  - assert (existsb (λ product, str_in product fname) l2_products = true) as ->
      by (apply existsb_find; by eexists).
    apply find_some in Hfind as [Hin _]. apply list_elem_of_In in Hin.
    split; [|split; [|split; reflexivity]].
    + split; [intros _; by exists p | done].
    + split; [discriminate|]. intros [= ->]. unfold l2_products in Hin.
      repeat (apply elem_of_cons in Hin as [Hin|Hin]; [discriminate|]).
      by apply elem_of_nil in Hin.
  - assert (existsb (λ product, str_in product fname) l2_products = false) as ->.
    { apply not_true_is_false. intros [x Hx]%existsb_find. congruence. }
    destruct (str_in "HS" fname); (split; [|split; [|split; reflexivity]]).
    + split; [discriminate|]. intros (product & [= <-] & Hin). unfold l2_products in Hin.
      repeat (apply elem_of_cons in Hin as [Hin|Hin]; [discriminate|]).
      by apply elem_of_nil in Hin.
    + done.
    + split; [discriminate | by intros (? & ? & _)].
    + split; discriminate.
Qed.

(** ** Products and levels *)

(** X12: without product, the check of a level is its first steps alone:
    a level that is accepted is "L1b" or "L2", the capitalized form of what
    was given, and is accepted unchanged when checked again.  Given
    together with a product, no level is accepted: the products of the
    level are asked to [get_dict_product_level_products], which goes
    through [get_dict_product_product_level], which asks
    [get_dict_info_products] for the listing with a keyword [sensors] that
    it does not take; both raise [TypeError] whatever their arguments, and
    so does the check. *)
Theorem check_product_level_canonical (PRODUCTS : list (string * list (string * list string)))
    (product_level level : string) :
  _check_product_level PRODUCTS product_level None = Ok level →
  let unexpected :=
    TypeError [Txt "get_dict_info_products"; Txt "() got an unexpected keyword argument '";
               Txt "sensors"; Txt "'"] in
  level ∈ ["L1b"; "L2"]
  ∧ level = str_capitalize product_level
  ∧ _check_product_level PRODUCTS level None = Ok level
  ∧ (∀ sensors product_levels,
       get_dict_product_product_level PRODUCTS sensors product_levels = Raise unexpected
       ∧ get_dict_product_level_products PRODUCTS sensors product_levels = Raise unexpected)
  ∧ (∀ product, _check_product_level PRODUCTS product_level (Some product) = Raise unexpected)
  ∧ ∀ other, _check_product_level PRODUCTS other None = _check_product_level_name other.
Proof.
  intros H unexpected. unfold _check_product_level in *.
  inv_bind_as H name Hname. injection H as ->.
  assert (level ∈ ["L1b"; "L2"] ∧ level = str_capitalize product_level) as [Hin Hcap].
  { unfold _check_product_level_name in Hname. cbn zeta in Hname.
    case_bool_decide as Hin; [|discriminate]. simpl in Hname. by injection Hname as <-. }
  split; [exact Hin|]. split; [exact Hcap|]. split; [|split; [|split]].
  - repeat (apply elem_of_cons in Hin as [->|Hin]; [reflexivity|]).
    by apply elem_of_nil in Hin.
  - intros sensors product_levels. split; reflexivity.
  - intros product. rewrite Hname. reflexivity.
  - intros other. by destruct (_check_product_level_name other).
Qed.

Lemma check_product_level_canonical_witness :
  let unexpected :=
    TypeError [Txt "get_dict_info_products"; Txt "() got an unexpected keyword argument '";
               Txt "sensors"; Txt "'"] in
  _check_product_level sample_products "l1B" None = Ok "L1b"
  ∧ "L1b" ∈ ["L1b"; "L2"]
  ∧ "L1b" = str_capitalize "l1B"
  ∧ _check_product_level sample_products "L1b" None = Ok "L1b"
  ∧ (∀ sensors product_levels,
       get_dict_product_product_level sample_products sensors product_levels
       = Raise unexpected
       ∧ get_dict_product_level_products sample_products sensors product_levels
         = Raise unexpected)
  ∧ (∀ product, _check_product_level sample_products "l1B" (Some product) = Raise unexpected)
  ∧ ∀ other, _check_product_level sample_products other None = _check_product_level_name other.
Proof.
  intros unexpected. split; [reflexivity|].
  apply (check_product_level_canonical sample_products "l1B" "L1b"). reflexivity.
Defined.

Lemma inserted_keys_spec (l : list string) :
  NoDup (inserted_keys l) ∧ ∀ k, k ∈ inserted_keys l ↔ k ∈ l.
Proof.
  unfold inserted_keys.
  assert (∀ acc, NoDup acc →
            NoDup (foldl (λ acc k, if bool_decide (k ∈ acc) then acc else (acc ++ [k])%list)
                     acc l)
            ∧ ∀ k, k ∈ foldl (λ acc k, if bool_decide (k ∈ acc) then acc else (acc ++ [k])%list)
                          acc l
                   ↔ k ∈ acc ∨ k ∈ l) as Hgen.
  { induction l as [|x l IH]; intros acc Hacc; simpl.
    - split; [exact Hacc|]. intros k. rewrite elem_of_nil. tauto.
    - case_bool_decide as Hx.
      + destruct (IH acc Hacc) as [Hnd Hin]. split; [exact Hnd|].
        intros k. rewrite Hin, elem_of_cons. split; [tauto|].
        intros [?|[->|?]]; tauto.
      + destruct (IH (acc ++ [x])%list) as [Hnd Hin].
        { apply NoDup_app. split; [exact Hacc|]. split; [|apply NoDup_singleton].
          intros y Hy Hyx. apply list_elem_of_singleton in Hyx as ->. done. }
        split; [exact Hnd|].
        intros k. rewrite Hin, elem_of_app, list_elem_of_singleton, elem_of_cons. tauto. }
  destruct (Hgen [] (NoDup_nil_2)) as [Hnd Hin]. split; [exact Hnd|].
  intros k. rewrite Hin, elem_of_nil. tauto.
Qed.

(** X13: a product that is accepted is the first of the available products
    of the level, each listed once, that is the given name up to the case
    of the letters; checked again it is accepted unchanged. *)
Theorem check_product_canonical (PRODUCTS : list (string * list (string * list string)))
    (product : string) (product_level : option string) (key : string) :
  _check_product PRODUCTS product product_level = Ok key →
  str_upper key = str_upper product
  ∧ _check_product PRODUCTS key product_level = Ok key
  ∧ ∃ valid_products,
      available_products PRODUCTS ((λ level, [level]) <$> product_level) = Ok valid_products
      ∧ key ∈ valid_products
      ∧ NoDup valid_products.
Proof.
  unfold _check_product. intros H. inv_bind_as H valid_products Hvalid.
  destruct (List.find _ valid_products) as [product_key|] eqn:Hfind;
    [|by destruct product_level].
  injection H as ->. pose proof Hfind as Hfind'.
  apply find_some in Hfind' as [Hin Hupper]. apply list_elem_of_In in Hin.
  apply bool_decide_eq_true in Hupper.
  split; [exact Hupper|]. split.
  - rewrite Hvalid. simpl. rewrite Hupper. by rewrite Hfind.
  - exists valid_products. split; [exact Hvalid|]. split; [exact Hin|].
    unfold available_products in Hvalid. inv_bind_as Hvalid listing Hlisting.
    injection Hvalid as <-. apply inserted_keys_spec.
Qed.

Lemma check_product_canonical_witness :
  _check_product sample_products "cmsk" (Some "L2") = Ok "CMSK"
  ∧ str_upper "CMSK" = str_upper "cmsk"
  ∧ _check_product sample_products "CMSK" (Some "L2") = Ok "CMSK"
  ∧ ∃ valid_products,
      available_products sample_products ((λ level, [level]) <$> Some "L2") = Ok valid_products
      ∧ "CMSK" ∈ valid_products
      ∧ NoDup valid_products.
Proof.
  split; [reflexivity|].
  apply (check_product_canonical sample_products "cmsk" (Some "L2") "CMSK"). reflexivity.
Defined.

(** ** Fields of the metadata *)

Lemma infer_product_level_cases (fpath : string) :
  (∃ product, _infer_product_level fpath = Ok "L2" ∧ _infer_product fpath = Ok product
              ∧ product ∈ l2_products)
  ∨ (_infer_product_level fpath = Ok "L1b" ∧ _infer_product fpath = Ok "Rad")
  ∨ (succeeds (_infer_product_level fpath) = false ∧ succeeds (_infer_product fpath) = false).
Proof.
  unfold _infer_product_level, _infer_product. cbn zeta.
  set (fname := basename fpath).
  assert (existsb id ((λ product, str_in product fname) <$> l2_products)
          = existsb (λ product, str_in product fname) l2_products) as ->.
  { generalize l2_products. intros l. induction l as [|p l IH]; [reflexivity|].
    simpl. by rewrite <- IH. }
  destruct (List.find (λ product, str_in product fname) l2_products) as [p|] eqn:Hfind.
  - assert (existsb (λ product, str_in product fname) l2_products = true) as ->
      by (apply existsb_find; by eexists).
    apply find_some in Hfind as [Hin _]. apply list_elem_of_In in Hin.
    left. by exists p.
  - assert (existsb (λ product, str_in product fname) l2_products = false) as ->.
    { apply not_true_is_false. intros [x Hx]%existsb_find. congruence. }
    right. destruct (str_in "HS" fname); [by left | by right].
Qed.

Lemma shift_times_lookup_ne (d d' : gmap string value) (n : option Z) (cadence : Z)
    (k : string) :
  shift_times d n cadence = Ok d' → k ≠ "start_time" → k ≠ "end_time" → d' !! k = d !! k.
Proof.
  intros H Hs He. apply shift_times_Ok in H as (s & j & _ & _ & ->).
  rewrite lookup_insert_ne by congruence. by rewrite lookup_insert_ne by congruence.
Qed.

(** X14: the metadata of a file name that is understood always give the
    sensor "AHI", the level read in the name, a product that is "Rad" for
    level L1b and one of the four short L2 names otherwise, a sector, and a
    satellite written "HIMAWARI-8" or "HIMAWARI-9", a spelling that the
    check of the satellite accepts and turns into its own key. *)
Theorem get_info_from_filename_fields
    (GLOB_FNAME_PATTERN : gmap string (gmap string (gmap string string)))
    (Parser_parse : string → string → result (gmap string value)) (fname : string) :
  succeeds (_get_info_from_filename GLOB_FNAME_PATTERN Parser_parse fname) = true →
  ∃ info_dict,
    _get_info_from_filename GLOB_FNAME_PATTERN Parser_parse fname = Ok info_dict
    ∧ info_dict !! "sensor" = Some (VStr "AHI")
    ∧ (∃ level, _infer_product_level fname = Ok level
                ∧ info_dict !! "product_level" = Some (VStr level))
    ∧ (∃ product, info_dict !! "product" = Some (VStr product)
                  ∧ product ∈ ["Rad"; "CMSK"; "CPHS"; "CHGT"; "RRQPE"]
                  ∧ (product = "Rad" ↔ _infer_product_level fname = Ok "L1b"))
    ∧ (∃ satellite key, info_dict !! "satellite" = Some (VStr satellite)
                        ∧ _check_satellite satellite = Ok key
                        ∧ str_upper key = satellite)
    ∧ is_Some (info_dict !! "sector").
Proof.
  intros Hok.
  destruct (_get_info_from_filename GLOB_FNAME_PATTERN Parser_parse fname)
    as [info_dict|] eqn:H; [|discriminate].
  exists info_dict. split; [reflexivity|].
  unfold _get_info_from_filename in H.
  inv_bind_as H level Hlevel. inv_bind_as H product Hproduct.
  inv_bind_as H by_level Hby_level. inv_bind_as H by_product Hby_product.
  inv_bind_as H fpattern Hfpattern. inv_bind_as H parsed Hparse.
  cbn zeta in H.
  set (d1 := <["product_level":=VStr level]> (<["sensor":=VStr "AHI"]> parsed)) in *.
  set (d0 := foldl drop_microsecond d1 _) in *.
  assert (d0 !! "sensor" = Some (VStr "AHI")) as Hsensor0.
  { unfold d0. rewrite time_fields_lookup_other.
    - unfold d1. by rewrite lookup_insert_ne, lookup_insert_eq.
    - intros Hin. repeat (apply elem_of_cons in Hin as [Hin|Hin]; [discriminate|]).
      by apply elem_of_nil in Hin. }
  assert (d0 !! "product_level" = Some (VStr level)) as Hlevel0.
  { unfold d0. rewrite time_fields_lookup_other.
    - unfold d1. by rewrite lookup_insert_eq.
    - intros Hin. repeat (apply elem_of_cons in Hin as [Hin|Hin]; [discriminate|]).
      by apply elem_of_nil in Hin. }
  clearbody d0. clear d1.
  inv_bind_as H d2 Hd2. inv_bind_as H d3 Hd3.
  (* the sector token touches the sector, the scene and the two times *)
  assert (∀ k, k ∉ ["start_time"; "end_time"; "sector"; "scene_abbr"] →
               d2 !! k = d0 !! k) as Hkeep2.
  { intros k Hk.
    assert (k ≠ "start_time" ∧ k ≠ "end_time" ∧ k ≠ "sector" ∧ k ≠ "scene_abbr")
      as (Hk1 & Hk2 & Hk3 & Hk4).
    { repeat split; intros ->; apply Hk; repeat constructor. }
    destruct (d0 !! "sector_observation_number") as [token|]; [|by injection Hd2 as <-].
    inv_bind_as Hd2 triple Hsep. destruct triple as [[sector scene_abbr] observation_number].
    inv_bind_as Hd2 d1' Hd1.
    assert (d1' !! k = d0 !! k) as Hd1'.
    { destruct (bool_decide (sector = "Japan")
                || bool_decide (sector = "Target") && bool_decide (scene_abbr = VStr "R3")).
      - rewrite (shift_times_lookup_ne _ _ _ _ k Hd1) by done.
        rewrite lookup_insert_ne by congruence. by rewrite lookup_insert_ne by congruence.
      - injection Hd1 as <-.
        rewrite lookup_insert_ne by congruence. by rewrite lookup_insert_ne by congruence. }
    destruct (bool_decide (sector = "Landmark") && value_in scene_abbr ["R4"; "R5"]).
    - by rewrite (shift_times_lookup_ne _ _ _ _ k Hd2).
    - by injection Hd2 as <-. }
  (* the default of the end time touches the end time *)
  assert (∀ k, k ≠ "end_time" → d3 !! k = d2 !! k) as Hkeep3.
  { intros k Hk. destruct (d2 !! "end_time"); [by injection Hd3 as <-|].
    inv_bind_as Hd3 start_time Hstart. inv_bind_as Hd3 end_time Hend.
    injection Hd3 as <-. by rewrite lookup_insert_ne by congruence. }
  clear Hd2 Hd3.
  set (d4 := match d3 !! "sector" with
             | Some _ => d3
             | None => <["sector":=VStr "FLDK"]> d3
             end) in *.
  assert (∀ k, k ≠ "sector" → d4 !! k = d3 !! k) as Hkeep4.
  { intros k Hk. unfold d4. destruct (d3 !! "sector"); [done|].
    by rewrite lookup_insert_ne by congruence. }
  assert (is_Some (d4 !! "sector")) as Hsector4.
  { unfold d4. destruct (d3 !! "sector") as [v|] eqn:E.
    - rewrite E. by eexists.
    - rewrite lookup_insert_eq. by eexists. }
  assert (d4 !! "sensor" = Some (VStr "AHI")) as Hsensor4.
  { rewrite Hkeep4, Hkeep3, Hkeep2, Hsensor0; [done| |done..].
    intros Hin. repeat (apply elem_of_cons in Hin as [Hin|Hin]; [discriminate|]).
    by apply elem_of_nil in Hin. }
  assert (d4 !! "product_level" = Some (VStr level)) as Hlevel4.
  { rewrite Hkeep4, Hkeep3, Hkeep2, Hlevel0; [done| |done..].
    intros Hin. repeat (apply elem_of_cons in Hin as [Hin|Hin]; [discriminate|]).
    by apply elem_of_nil in Hin. }
  clearbody d4. clear Hkeep2 Hkeep3 Hkeep4 Hsensor0 Hlevel0.
  inv_bind_as H lv Hlv. unfold getitem in Hlv. rewrite Hlevel4 in Hlv. injection Hlv as <-.
  inv_bind_as H pr Hpr. inv_bind_as H satellite Hsat. injection H as <-.
  (* the product *)
  assert (∃ name, pr = VStr name ∧ name ∈ ["Rad"; "CMSK"; "CPHS"; "CHGT"; "RRQPE"]
                  ∧ (name = "Rad" ↔ level = "L1b")) as (name & -> & Hname & Hrad).
  { case_bool_decide as HL2.
    - injection HL2 as ->. inv_bind_as Hpr p Hp.
      repeat (destruct (value_in p _);
              [injection Hpr as <-; eexists; split; [reflexivity|];
               split; [by repeat constructor | split; discriminate]|]).
      discriminate.
    - injection Hpr as <-. exists product.
      destruct (infer_product_level_cases fname)
        as [(p & Hl & _)|[[Hl Hp]|[Hl _]]].
      + rewrite Hl in Hlevel. injection Hlevel as <-. done.
      + rewrite Hl in Hlevel. injection Hlevel as <-.
        rewrite Hp in Hproduct. injection Hproduct as <-.
        split; [reflexivity|]. split; [left | done].
      + by rewrite Hlevel in Hl. }
  (* the satellite *)
  assert (satellite ∈ ["HIMAWARI-8"; "HIMAWARI-9"]) as Hsatellite.
  { match type of Hsat with
    | context [?d !! "platform_shortname"] =>
        destruct (d !! "platform_shortname") as [short|];
        [|destruct (d !! "platform_fullname") as [full|]; [|discriminate]]
    end.
    - inv_bind_as Hsat upper Hupper.
      repeat (case_bool_decide; [injection Hsat as <-; by repeat constructor|]).
      discriminate.
    - inv_bind_as Hsat upper Hupper.
      repeat (case_bool_decide; [injection Hsat as <-; by repeat constructor|]).
      discriminate. }
  split; [by rewrite !lookup_insert_ne|].
  split; [exists level; split; [exact Hlevel | by rewrite !lookup_insert_ne]|].
  split.
  { exists name. rewrite lookup_insert_ne, lookup_insert_eq by done.
    split; [reflexivity|]. split; [exact Hname|].
    rewrite Hrad. rewrite Hlevel. split; [by intros -> | by intros [= ->]]. }
  split.
  { rewrite lookup_insert_eq.
    apply elem_of_cons in Hsatellite as [->|Hsatellite];
      [|apply list_elem_of_singleton in Hsatellite as ->].
    - by exists "HIMAWARI-8", "himawari-8".
    - by exists "HIMAWARI-9", "himawari-9". }
  by rewrite !lookup_insert_ne.
Qed.

Lemma get_info_from_filename_fields_witness :
  let fname := cmsk_name "1000" "1010" in
  succeeds (_get_info_from_filename sample_patterns (sample_parse sample_table) fname) = true
  ∧ ∃ info_dict,
      _get_info_from_filename sample_patterns (sample_parse sample_table) fname = Ok info_dict
      ∧ info_dict !! "sensor" = Some (VStr "AHI")
      ∧ (∃ level, _infer_product_level fname = Ok level
                  ∧ info_dict !! "product_level" = Some (VStr level))
      ∧ (∃ product, info_dict !! "product" = Some (VStr product)
                    ∧ product ∈ ["Rad"; "CMSK"; "CPHS"; "CHGT"; "RRQPE"]
                    ∧ (product = "Rad" ↔ _infer_product_level fname = Ok "L1b"))
      ∧ (∃ satellite key, info_dict !! "satellite" = Some (VStr satellite)
                          ∧ _check_satellite satellite = Ok key
                          ∧ str_upper key = satellite)
      ∧ is_Some (info_dict !! "sector").
Proof.
  intros fname.
  assert (succeeds (_get_info_from_filename sample_patterns (sample_parse sample_table) fname)
          = true) as H by (vm_compute; reflexivity).
  split; [exact H|].
  exact (get_info_from_filename_fields sample_patterns (sample_parse sample_table) fname H).
Defined.

(** ** Path without its bucket *)

Lemma str_app_assoc (a b c : string) : (a +:+ b) +:+ c = a +:+ (b +:+ c).
Proof.
  induction a as [|x a IH]; [reflexivity|].
  change (String x ((a +:+ b) +:+ c) = String x (a +:+ (b +:+ c))). by rewrite IH.
Qed.

Lemma str_app_nil_r (a : string) : a +:+ "" = a.
Proof.
  induction a as [|x a IH]; [reflexivity|].
  change (String x (a +:+ "") = String x a). by rewrite IH.
Qed.

Lemma str_split_all_cons (sep : ascii) (s : string) :
  ∃ p rest, str_split_all sep s = p :: rest.
Proof.
  induction s as [|c s (p & rest & IH)]; simpl; [by eexists _, _|].
  destruct (Ascii.eqb c sep); [by eexists _, _|]. rewrite IH. by eexists _, _.
Qed.

Lemma str_split_all_length (sep : ascii) (s : string) :
  length (str_split_all sep s) = S (str_count sep s).
Proof.
  induction s as [|c s IH]; [reflexivity|]. simpl.
  destruct (Ascii.eqb c sep); simpl; [by rewrite IH|].
  destruct (str_split_all sep s); [discriminate | exact IH].
Qed.

Lemma str_split_all_no_sep (sep : ascii) (s : string) :
  Forall (λ p, str_count sep p = 0%nat) (str_split_all sep s).
Proof.
  induction s as [|c s IH]; simpl; [by repeat constructor|].
  destruct (Ascii.eqb c sep) eqn:Hc; [by constructor|].
  destruct (str_split_all sep s) as [|p rest]; [repeat constructor; simpl; by rewrite Hc|].
  apply Forall_cons in IH as [Hp Hrest]. constructor; [|exact Hrest].
  simpl. by rewrite Hc.
Qed.

(** The first piece is empty for the empty string and for a string that
    starts with the separator only. *)
Lemma str_split_all_hd_empty (s : string) (rest : list string) :
  str_split_all "/" s = "" :: rest → (s = "" ∧ rest = []) ∨ String.prefix "/" s = true.
Proof.
  destruct s as [|c s]; simpl.
  - intros [= <-]. by left.
  - destruct (Ascii.eqb_spec c "/") as [->|Hc]; [intros _; right; by destruct s|].
    by destruct (str_split_all "/" s).
Qed.

Lemma ends_with_slash_app (a b : string) :
  b ≠ "" → ends_with_slash (a +:+ b) = ends_with_slash b.
Proof.
  intros Hb. induction a as [|x a IH]; [reflexivity|].
  change (ends_with_slash (String x (a +:+ b)) = ends_with_slash b).
  destruct (a +:+ b) as [|y r] eqn:E.
  - destruct a; [|discriminate]. simpl in E. done.
  - rewrite <- IH. reflexivity.
Qed.

Lemma ends_with_slash_no_slash (b : string) :
  str_count "/" b = 0%nat → ends_with_slash b = false.
Proof.
  induction b as [|c b IH]; [reflexivity|]. simpl.
  destruct (Ascii.eqb c "/") eqn:Hc; [discriminate|]. intros H.
  destruct b; [first [exact Hc | reflexivity] | by apply IH].
Qed.

Lemma prefix_slash_no_slash (b : string) :
  str_count "/" b = 0%nat → String.prefix "/" b = false.
Proof.
  destruct b as [|c b]; [reflexivity|].
  change (str_count "/" (String c b))
    with (if Ascii.eqb c "/" then S (str_count "/" b) else str_count "/" b).
  change (String.prefix "/" (String c b))
    with (if ascii_dec "/" c then String.prefix "" b else false).
  destruct (Ascii.eqb_spec c "/") as [->|Hc]; [discriminate|]. intros _.
  destruct (ascii_dec "/" c) as [<-|]; [done | reflexivity].
Qed.

Lemma path_join_relative (a b : string) :
  a ≠ "" → ends_with_slash a = false → String.prefix "/" b = false →
  path_join a b = (a +:+ "/") +:+ b.
Proof.
  intros Ha Hslash Hb. unfold path_join. rewrite Hb, Hslash.
  rewrite bool_decide_eq_false_2 by done. simpl. by rewrite str_app_assoc.
Qed.

(** Joining the pieces of a path without doubled slash gives the path
    back. *)
Lemma join_split_all (s a : string) :
  str_in "//" s = false →
  ∀ p rest, str_split_all "/" s = p :: rest →
            a +:+ p ≠ "" →
            (rest ≠ [] → ends_with_slash (a +:+ p) = false) →
            foldl path_join (a +:+ p) rest = a +:+ s.
Proof.
  revert a. induction s as [|c s IH]; intros a Hdouble p rest Hsplit Hne Hslash.
  - simpl in Hsplit. injection Hsplit as <- <-. reflexivity.
  - change (str_in "//" (String c s)) with (String.prefix "//" (String c s) || str_in "//" s)
      in Hdouble.
    apply orb_false_iff in Hdouble as [Hprefix Hdouble].
    simpl in Hsplit. destruct (Ascii.eqb_spec c "/") as [->|Hc].
    + (* a slash: the piece is over *)
      injection Hsplit as <- <-.
      assert (String.prefix "/" s = false) as Hs.
      { exact Hprefix. }
      destruct (str_split_all_cons "/" s) as (q & rest' & Hq).
      pose proof (str_split_all_no_sep "/" s) as Hno. rewrite Hq in *.
      apply Forall_cons in Hno as [Hq_no _].
      rewrite str_app_nil_r in *. specialize (Hslash ltac:(done)).
      simpl. rewrite path_join_relative; [|done|done|by apply prefix_slash_no_slash].
      rewrite (IH (a +:+ "/") Hdouble q rest' eq_refl).
      * by rewrite str_app_assoc.
      * intros E. destruct a; discriminate.
      * intros Hrest'. destruct (decide (q = "")) as [->|Hq_ne].
        -- apply str_split_all_hd_empty in Hq as [[_ ->]|Hq]; [done | congruence].
        -- rewrite ends_with_slash_app by done. by apply ends_with_slash_no_slash.
    + (* another character: the piece goes on *)
      destruct (str_split_all "/" s) as [|q rest'] eqn:Hq.
      { destruct (str_split_all_cons "/" s) as (? & ? & ?). congruence. }
      injection Hsplit as <- <-.
      assert (a +:+ String c q = (a +:+ String c "") +:+ q) as Happ
        by (by rewrite str_app_assoc).
      rewrite Happ in *.
      rewrite (IH (a +:+ String c "") Hdouble q rest' eq_refl Hne Hslash).
      by rewrite str_app_assoc.
Qed.

(** X15: what follows the bucket in a path of the object store is given
    back as it is, provided it is not empty, does not start with a slash and
    holds no doubled slash; and a path answers exactly when it holds three
    slashes or more: with fewer, the join is called without argument. *)
Theorem remove_bucket_address_bucket_path (satellite suffix : string) :
  satellite ∈ available_satellites →
  suffix ≠ "" → String.prefix "/" suffix = false → str_in "//" suffix = false →
  remove_bucket_address (bucket_path satellite suffix) = Ok suffix
  ∧ ∀ fpath, succeeds (remove_bucket_address fpath) = true ↔ (3 ≤ str_count "/" fpath)%nat.
Proof.
  intros Hsat Hne Hrel Hdouble. split.
  - assert (drop 3 (str_split_all "/" (bucket_path satellite suffix))
            = str_split_all "/" suffix) as Hdrop.
    { unfold available_satellites, keys, _satellites in Hsat. simpl in Hsat.
      apply elem_of_cons in Hsat as [->|Hsat];
        [|apply list_elem_of_singleton in Hsat as ->]; reflexivity. }
    unfold remove_bucket_address. cbn zeta. rewrite Hdrop.
    destruct (str_split_all "/" suffix) as [|p rest] eqn:Hsplit.
    { destruct (str_split_all_cons "/" suffix) as (? & ? & ?). congruence. }
    pose proof (str_split_all_no_sep "/" suffix) as Hno. rewrite Hsplit in Hno.
    apply Forall_cons in Hno as [Hp_no _].
    assert (p ≠ "") as Hp.
    { intros ->. apply str_split_all_hd_empty in Hsplit as [[? _]|?]; congruence. }
    f_equal. apply (join_split_all suffix "" Hdouble p rest Hsplit Hp).
    intros _. by apply ends_with_slash_no_slash.
  - intros fpath. unfold remove_bucket_address. cbn zeta.
    pose proof (str_split_all_length "/" fpath) as Hlen.
    destruct (drop 3 (str_split_all "/" fpath)) as [|a p] eqn:Hdrop.
    + apply (f_equal length) in Hdrop. rewrite length_drop in Hdrop. simpl in Hdrop.
      split; [discriminate | lia].
    + apply (f_equal length) in Hdrop. rewrite length_drop in Hdrop. simpl in Hdrop.
      split; [lia | done].
Qed.

Lemma remove_bucket_address_bucket_path_witness :
  let suffix := "AHI-L1b-FLDK/2021/01/01/1000/" +:+ rad_name "1000" "FLDK" in
  remove_bucket_address (bucket_path "himawari-8" suffix) = Ok suffix
  ∧ ∀ fpath, succeeds (remove_bucket_address fpath) = true ↔ (3 ≤ str_count "/" fpath)%nat.
Proof.
  intros suffix.
  apply (remove_bucket_address_bucket_path "himawari-8" suffix).
  - left.
  - discriminate.
  - reflexivity.
  - vm_compute. reflexivity.
Defined.

(** ** Grouping *)

Lemma group_sorted_concat (l : list (value * string)) :
  mjoin (group_sorted l).*2 = l.*2.
Proof.
  induction l as [|[k fpath] l IH]; [reflexivity|]. simpl.
  destruct (group_sorted l) as [|[k' fpaths] groups]; simpl in *.
  - f_equal. exact IH.
  - case_bool_decide; simpl; f_equal; exact IH.
Qed.

Lemma group_sorted_nonempty (l : list (value * string)) :
  Forall (λ g, g.2 ≠ []) (group_sorted l).
Proof.
  induction l as [|[k fpath] l IH]; [constructor|]. simpl.
  destruct (group_sorted l) as [|[k' fpaths] groups].
  - by repeat constructor.
  - apply Forall_cons in IH as [Hhd Htl]. case_bool_decide; by repeat constructor.
Qed.

Lemma group_sorted_members (l : list (value * string)) (k : value) (g : list string)
    (fpath : string) :
  (k, g) ∈ group_sorted l → fpath ∈ g → (k, fpath) ∈ l.
Proof.
  revert k g. induction l as [|[k0 fpath0] l IH]; intros k g Hg Hf; simpl in Hg.
  - by apply elem_of_nil in Hg.
  - destruct (group_sorted l) as [|[k' fpaths] groups].
    + apply list_elem_of_singleton in Hg. injection Hg as -> ->.
      apply list_elem_of_singleton in Hf as ->. left.
    + case_bool_decide as Heq.
      * subst k'. apply elem_of_cons in Hg as [[= -> ->]|Hg].
        -- apply elem_of_cons in Hf as [->|Hf]; [left|].
           right. apply (IH k0 fpaths); [left | exact Hf].
        -- right. apply (IH k g); [by right | exact Hf].
      * apply elem_of_cons in Hg as [[= -> ->]|Hg].
        -- apply list_elem_of_singleton in Hf as ->. left.
        -- right. by apply (IH k g).
Qed.

(** Neighbouring groups have different keys. *)
Lemma group_sorted_adjacent (l : list (value * string)) (i : nat) (a b : value * list string) :
  group_sorted l !! i = Some a → group_sorted l !! S i = Some b → a.1 ≠ b.1.
Proof.
  revert i a b. induction l as [|[k0 fpath0] l IH]; intros i a b Ha Hb; simpl in Ha, Hb.
  - by rewrite lookup_nil in Ha.
  - destruct (group_sorted l) as [|[k' fpaths] groups] eqn:Hg.
    + discriminate Hb.
    + case_bool_decide as Heq.
      * subst k'. destruct i as [|i].
        -- simpl in Ha, Hb. injection Ha as <-. simpl.
           apply (IH 0%nat (k0, fpaths) b); [done | exact Hb].
        -- apply (IH (S i) a b); [exact Ha | exact Hb].
      * destruct i as [|i].
        -- simpl in Ha, Hb. injection Ha as <-. injection Hb as <-. exact Heq.
        -- apply (IH i a b); [exact Ha | exact Hb].
Qed.

(** The order of the key values of one kind. *)
Lemma string_compare_trans (a b c : string) :
  String.compare a b ≠ Gt → String.compare b c ≠ Gt → String.compare a c ≠ Gt.
Proof.
  revert b c. induction a as [|x a IH]; intros [|y b] [|z c]; simpl; try done.
  unfold Ascii.compare.
  destruct (N.compare_spec (N_of_ascii x) (N_of_ascii y)),
           (N.compare_spec (N_of_ascii y) (N_of_ascii z)),
           (N.compare_spec (N_of_ascii x) (N_of_ascii z)); try done; try lia.
  apply IH.
Qed.

Lemma string_leb_trans (a b c : string) :
  String.leb a b = true → String.leb b c = true → String.leb a c = true.
Proof.
  unfold String.leb. intros Hab Hbc.
  pose proof (string_compare_trans a b c) as H.
  destruct (String.compare a b), (String.compare b c), (String.compare a c);
    try done; exfalso; by apply H.
Qed.

Lemma value_leb_trans_in (L : list value) (a b c : value) :
  sortable L = true → a ∈ L → b ∈ L → c ∈ L →
  value_leb a b → value_leb b c → value_leb a c.
Proof.
  unfold sortable. intros HL Ha Hb Hc.
  apply orb_true_iff in HL as [HL|HL]; [apply orb_true_iff in HL as [HL|HL]|];
    rewrite forallb_forall in HL;
    pose proof (HL a (proj1 (list_elem_of_In _ _) Ha)) as Ka;
    pose proof (HL b (proj1 (list_elem_of_In _ _) Hb)) as Kb;
    pose proof (HL c (proj1 (list_elem_of_In _ _) Hc)) as Kc;
    destruct a, b, c; try discriminate; simpl.
  - intros H1 H2. apply Is_true_true in H1, H2. apply Is_true_true.
    by eapply string_leb_trans.
  - intros H1 H2. apply bool_decide_unpack in H1, H2. apply bool_decide_pack. lia.
  - intros H1 H2. apply bool_decide_unpack in H1, H2. apply bool_decide_pack. lia.
Qed.

Lemma value_leb_antisym_in (L : list value) (a b : value) :
  sortable L = true → a ∈ L → b ∈ L → value_leb a b → value_leb b a → a = b.
Proof.
  unfold sortable. intros HL Ha Hb.
  apply orb_true_iff in HL as [HL|HL]; [apply orb_true_iff in HL as [HL|HL]|];
    rewrite forallb_forall in HL;
    pose proof (HL a (proj1 (list_elem_of_In _ _) Ha)) as Ka;
    pose proof (HL b (proj1 (list_elem_of_In _ _) Hb)) as Kb;
    destruct a, b; try discriminate; simpl.
  - intros H1 H2. apply Is_true_true in H1, H2. f_equal. by apply String.leb_antisym.
  - intros H1 H2. apply bool_decide_unpack in H1, H2. f_equal. lia.
  - intros H1 H2. apply bool_decide_unpack in H1, H2. f_equal. lia.
Qed.

(** In sorted pairs the first key is below all the others. *)
Lemma sorted_pairs_hd_le (L : list value) (a : value * string) (l : list (value * string)) :
  sortable L = true → a.1 ∈ L → l.*1 ⊆ L →
  Sorted (λ a b : value * string, value_leb a.1 b.1) (a :: l) →
  Forall (λ b : value * string, value_leb a.1 b.1) l.
Proof.
  intros HL. revert a. induction l as [|b l IH]; intros a Ha Hl Hs; [constructor|].
  apply Sorted_inv in Hs as [Hs Hhd]. apply HdRel_inv in Hhd.
  assert (b.1 ∈ L) as Hb by (apply Hl; left).
  assert (l.*1 ⊆ L) as Hl' by (intros x Hx; apply Hl; by right).
  constructor; [exact Hhd|].
  specialize (IH b Hb Hl' Hs). rewrite Forall_forall in IH |- *.
  intros c Hc. apply (value_leb_trans_in L a.1 b.1 c.1 HL Ha Hb); [|exact Hhd|by apply IH].
  apply Hl'. apply list_elem_of_fmap. by exists c.
Qed.

(** The keys of the groups of sorted pairs: the key values, each once. *)
Lemma group_sorted_NoDup (L : list value) (l : list (value * string)) :
  sortable L = true → l.*1 ⊆ L →
  Sorted (λ a b : value * string, value_leb a.1 b.1) l →
  NoDup (group_sorted l).*1
  ∧ (∀ k, k ∈ (group_sorted l).*1 ↔ k ∈ l.*1)
  ∧ head (group_sorted l).*1 = head l.*1.
Proof.
  intros HL. induction l as [|[k p] l IH]; intros Hl Hs.
  - split; [constructor|]. split; [done|reflexivity].
  - rewrite fmap_cons in Hl. cbn [fst] in Hl.
    assert (l.*1 ⊆ L) as Hl' by (intros x Hx; apply Hl; by right).
    assert (k ∈ L) as Hk by (apply Hl; left).
    pose proof (sorted_pairs_hd_le L (k, p) l HL Hk Hl' Hs) as Hle.
    apply Sorted_inv in Hs as [Hs Hhd].
    destruct (IH Hl' Hs) as (Hnd & Hin & Hhead). clear IH.
    change (group_sorted ((k, p) :: l))
      with (match group_sorted l with
            | (k', fpaths) :: groups =>
                if bool_decide (k = k') then (k, p :: fpaths) :: groups
                else (k, [p]) :: (k', fpaths) :: groups
            | [] => [(k, [p])]
            end).
    rewrite (fmap_cons fst (k, p) l). cbn [fst].
    destruct (group_sorted l) as [|[k' ps] groups] eqn:Hg.
    + split; [apply NoDup_singleton|]. split; [|reflexivity].
      intros x. rewrite fmap_cons, fmap_nil. cbn [fst].
      rewrite !elem_of_cons, <- Hin, fmap_nil. done.
    + rewrite fmap_cons in Hnd, Hin, Hhead. cbn [fst] in Hnd, Hin, Hhead.
      case_bool_decide as Heq.
      * subst k'. rewrite fmap_cons. cbn [fst].
        split; [exact Hnd|]. split; [|reflexivity].
        intros x. rewrite (elem_of_cons l.*1), <- Hin, !elem_of_cons. tauto.
      * rewrite !fmap_cons. cbn [fst]. split; [|split; [|reflexivity]].
        -- apply NoDup_cons. split; [|exact Hnd].
           intros Hkin. apply Hin in Hkin.
           destruct l as [|[k0 p0] l]; [by apply elem_of_nil in Hkin|].
           rewrite fmap_cons in Hhead, Hkin, Hl'. cbn [fst head] in Hhead, Hkin, Hl'.
           injection Hhead as ->.
           apply HdRel_inv in Hhd. cbn [fst] in Hhd.
           apply Heq. apply (value_leb_antisym_in L); [exact HL | exact Hk | | exact Hhd |].
           ++ apply Hl'. left.
           ++ apply elem_of_cons in Hkin as [->|Hkin]; [done|].
              apply list_elem_of_fmap in Hkin as ([k1 p1] & -> & Hkin). cbn [fst].
              assert (Forall (λ b : value * string, value_leb k0 b.1) l) as H0.
              { apply (sorted_pairs_hd_le L (k0, p0) l HL); [apply Hl'; left| |exact Hs].
                intros x Hx. apply Hl'. by right. }
              rewrite Forall_forall in H0. by apply (H0 (k1, p1)).
        -- intros x. rewrite (elem_of_cons l.*1), <- Hin, !elem_of_cons. tauto.
Qed.

(** ** The latest, the next and the closest *)

Lemma np_argmax_spec (l : list Z) :
  l ≠ [] →
  ∃ m, l !! np_argmax l = Some m ∧ (∀ x, x ∈ l → x ≤ m).
Proof.
  induction l as [|x l IH]; [done|]. intros _.
  destruct l as [|y l].
  { exists x. split; [reflexivity|].
    intros z Hz. apply list_elem_of_singleton in Hz as ->. lia. }
  destruct IH as (m & Hm & Hmax); [done|].
  change (np_argmax (x :: y :: l))
    with (let i := np_argmax (y :: l) in
          if bool_decide ((y :: l) !!! i ≤ x) then 0%nat else S i).
  cbn zeta. rewrite (list_lookup_total_correct _ _ _ Hm).
  case_bool_decide as Hx.
  - exists x. split; [reflexivity|].
    intros z Hz. apply elem_of_cons in Hz as [->|Hz]; [lia|].
    specialize (Hmax _ Hz). lia.
  - exists m. split; [exact Hm|].
    intros z Hz. apply elem_of_cons in Hz as [->|Hz]; [lia | by apply Hmax].
Qed.

Lemma check_each_datetime_key (ts : list Z) :
  check_each datetime_key (VTime <$> ts) = Ok ts.
Proof.
  induction ts as [|t ts IH]; [done|].
  change (check_each datetime_key (VTime <$> t :: ts))
    with (y ← Ok t; ys ← check_each datetime_key (VTime <$> ts); Ok (y :: ys)).
  by rewrite IH.
Qed.

Lemma last_n_sublist (N : Z) (l : list Z) : last_n N l `sublist_of` l.
Proof. unfold last_n. repeat case_bool_decide; [done|apply sublist_drop..]. Qed.

Lemma first_n_sublist (N : Z) (l : list Z) : first_n N l `sublist_of` l.
Proof. unfold first_n. case_bool_decide; apply sublist_take. Qed.

Lemma StronglySorted_lookup_lt (l : list Z) (i j : nat) (a b : Z) :
  StronglySorted Z.lt l → l !! i = Some a → l !! j = Some b → a < b → (i < j)%nat.
Proof.
  intros Hs Ha Hb Hab. destruct (decide (i < j)%nat) as [|Hge]; [done|]. exfalso.
  assert (b ≤ a); [|lia].
  eapply (StronglySorted_lookup_le l j i); [by apply StronglySorted_lt_le|done..|lia].
Qed.

(** The first [N] of a strictly ascending list: [N] elements, in order, and
    nothing of the list that is left out comes before one of them. *)
Lemma first_n_spec (N : Z) (l : list Z) :
  0 ≤ N → N ≤ Z.of_nat (length l) → StronglySorted Z.lt l →
  Z.of_nat (length (first_n N l)) = N
  ∧ StronglySorted Z.lt (first_n N l)
  ∧ (∀ x y, x ∈ first_n N l → y ∈ l → y < x → y ∈ first_n N l).
Proof.
  intros H0 Hlen Hs. unfold first_n. rewrite bool_decide_eq_false_2 by lia.
  split; [rewrite length_take; lia|]. split.
  - eapply StronglySorted_sublist; [apply sublist_take | exact Hs].
  - intros x y Hx Hy Hlt.
    apply list_elem_of_lookup in Hx as [i Hi]. apply list_elem_of_lookup in Hy as [j Hj].
    apply lookup_take_Some in Hi as [Hi Hin].
    apply list_elem_of_lookup. exists j. apply lookup_take_Some. split; [exact Hj|].
    pose proof (StronglySorted_lookup_lt l j i y x Hs Hj Hi Hlt). lia.
Qed.

(** ** The entry points of the search *)

Lemma replace_second_microsecond_idemp (t : Z) :
  replace_second_microsecond (replace_second_microsecond t) = replace_second_microsecond t.
Proof.
  unfold replace_second_microsecond.
  assert ((t - t `mod` 60000000) `mod` 60000000 = 0) as ->; [|lia].
  rewrite Zminus_mod_idemp_r. rewrite Z.sub_diag. reflexivity.
Qed.

(** A whole minute plus a number of cadences is a whole second. *)
Lemma cadence_window_whole_second (x cadence k : Z) (sector : option string) :
  _get_acquisition_max_timedelta sector = Ok cadence →
  replace_microsecond (replace_second_microsecond x + cadence * k)
  = replace_second_microsecond x + cadence * k.
Proof.
  intros Hcad. unfold replace_microsecond, replace_second_microsecond.
  assert (∃ c, cadence = c * 1000000) as [c ->].
  { unfold _get_acquisition_max_timedelta in Hcad.
    repeat (case_bool_decide; [injection Hcad as <-; by eexists (_ * 60 + _)|]).
    discriminate. }
  pose proof (Z.div_mod x 60000000 ltac:(lia)) as Hx.
  assert ((x - x `mod` 60000000 + c * 1000000 * k) `mod` 1000000 = 0) as ->; [|lia].
  replace (x - x `mod` 60000000 + c * 1000000 * k)
    with ((60 * (x `div` 60000000) + c * k) * 1000000) by lia.
  apply Z_mod_mult.
Qed.

Ltac unfold_find_files_goal := unfold find_files.
Ltac unfold_filter_files H := unfold filter_files in H.
Ltac unfold_find_latest_start_time H := unfold find_latest_start_time in H.
Ltac unfold_find_closest_files H := unfold find_closest_files in H.
Ltac unfold_find_closest_start_time_in H := unfold find_closest_start_time in H.
Ltac unfold_find_next_files H := unfold find_next_files in H.
Ltac unfold_find_latest_files H := unfold find_latest_files in H.

Section EntryPoints.

Variable GLOB_FNAME_PATTERN : gmap string (gmap string (gmap string string)).
Variable Parser_parse : string → string → result (gmap string value).
Variable PRODUCTS : list (string * list (string * list string)).
Variable AHI_L2_SECTOR_EXCEPTIONS : gmap string (list string).
Variable utcnow : Z.
Variables os_path_exists os_path_isdir : string → bool.
Variable _dt_to_year_month_day_hhmm : Z → list string.
Variable fs_glob : string → string → result (list string).

Local Notation find_files :=
  (find_files GLOB_FNAME_PATTERN Parser_parse PRODUCTS AHI_L2_SECTOR_EXCEPTIONS utcnow
     os_path_exists os_path_isdir _dt_to_year_month_day_hhmm fs_glob).
Local Notation find_closest_start_time :=
  (find_closest_start_time GLOB_FNAME_PATTERN Parser_parse PRODUCTS AHI_L2_SECTOR_EXCEPTIONS
     utcnow os_path_exists os_path_isdir _dt_to_year_month_day_hhmm fs_glob).
Local Notation find_previous_files :=
  (find_previous_files GLOB_FNAME_PATTERN Parser_parse PRODUCTS AHI_L2_SECTOR_EXCEPTIONS
     utcnow os_path_exists os_path_isdir _dt_to_year_month_day_hhmm fs_glob).
Local Notation _check_product_level := (_check_product_level PRODUCTS).
Local Notation find_next_files :=
  (find_next_files GLOB_FNAME_PATTERN Parser_parse PRODUCTS AHI_L2_SECTOR_EXCEPTIONS
     utcnow os_path_exists os_path_isdir _dt_to_year_month_day_hhmm fs_glob).
Local Notation find_latest_start_time :=
  (find_latest_start_time GLOB_FNAME_PATTERN Parser_parse PRODUCTS AHI_L2_SECTOR_EXCEPTIONS
     utcnow os_path_exists os_path_isdir _dt_to_year_month_day_hhmm fs_glob).
Local Notation find_closest_files :=
  (find_closest_files GLOB_FNAME_PATTERN Parser_parse PRODUCTS AHI_L2_SECTOR_EXCEPTIONS
     utcnow os_path_exists os_path_isdir _dt_to_year_month_day_hhmm fs_glob).
Local Notation find_latest_files :=
  (find_latest_files GLOB_FNAME_PATTERN Parser_parse PRODUCTS AHI_L2_SECTOR_EXCEPTIONS
     utcnow os_path_exists os_path_isdir _dt_to_year_month_day_hhmm fs_glob).
Local Notation filter_files := (filter_files GLOB_FNAME_PATTERN Parser_parse PRODUCTS utcnow).
Local Notation info_of := (_get_info_from_filepath GLOB_FNAME_PATTERN Parser_parse).
Local Notation filter_file := (_filter_file GLOB_FNAME_PATTERN Parser_parse).
Local Notation overlaps := (overlaps GLOB_FNAME_PATTERN Parser_parse).

(** The steps of a search that returned. *)
Lemma find_files_Ok (satellite product_level product : string) (start_time end_time : Z)
    (sector : option string) (filter_parameters : filter_parameters_t)
    (group_by_key connection_type base_dir protocol : option string) (fpaths : fpaths_t) :
  find_files satellite product_level product start_time end_time sector filter_parameters
    group_by_key connection_type base_dir protocol = Ok fpaths →
  ∃ protocol' connection_type' satellite' product' sector' start_time' end_time'
    filter_parameters' fs bucket_prefix list_glob_pattern list_fpaths grouped,
    ((base_dir = None ∧ protocol = Some "s3" ∧ protocol' = Some "s3")
     ∨ (base_dir ≠ None ∧ protocol ∈ [None; Some "file"; Some "local"]
        ∧ protocol' = Some "file"))
    ∧ _check_connection_type connection_type protocol' = Ok connection_type'
    ∧ _check_satellite satellite = Ok satellite'
    ∧ _check_product_level product_level None = Ok "L1b"
    ∧ _check_product PRODUCTS product (Some "L1b") = Ok product'
    ∧ _check_sector PRODUCTS AHI_L2_SECTOR_EXCEPTIONS sector (Some product') = Ok sector'
    ∧ _check_start_end_time utcnow start_time end_time = Ok (start_time', end_time')
    ∧ _check_filter_parameters filter_parameters sector' = Ok filter_parameters'
    ∧ _check_group_by_key group_by_key = Ok group_by_key
    ∧ search_directories GLOB_FNAME_PATTERN Parser_parse fs_glob fs bucket_prefix "L1b"
        start_time' end_time' filter_parameters' list_glob_pattern = Ok list_fpaths
    ∧ ((group_by_key = None ∧ grouped = FList list_fpaths)
       ∨ (∃ key groups, group_by_key = Some key
                        ∧ _group_fpaths_by_key GLOB_FNAME_PATTERN Parser_parse list_fpaths
                            (Some "L1b") key = Ok groups
                        ∧ grouped = FDict groups))
    ∧ _set_connection_type grouped satellite' protocol' connection_type' = Ok fpaths.
Proof.
  intros H. unfold_find_files H.
  destruct (bool_decide (protocol = None) && bool_decide (base_dir = None)) eqn:Hboth;
    [discriminate|].
  inv_bind_as H protocol1 Hp1. inv_bind_as H protocol2 Hp2. inv_bind_as H base_dir' Hb.
  inv_bind_as H connection_type' Hc. inv_bind_as H satellite' Hsat.
  inv_bind_as H product_level' Hpl. inv_bind_as H product' Hpr.
  inv_bind_as H sector' Hsec. inv_bind_as H times Htimes.
  destruct times as [start_time' end_time'].
  inv_bind_as H filter_parameters' Hfp. inv_bind_as H group_by_key' Hg.
  inv_bind_as H fs Hfs. inv_bind_as H bucket_prefix Hbp. inv_bind_as H product_dir Hpd.
  cbn zeta in H. inv_bind_as H fname_glob_pattern Hglob.
  inv_bind_as H list_fpaths Hsearch. inv_bind_as H grouped Hgroup.
  assert (product_level' = "L1b") as ->.
  { unfold get_fname_glob_pattern in Hglob. by case_bool_decide. }
  assert (base_dir' = base_dir) as ->.
  { unfold _check_base_dir in Hb. destruct base_dir; [|by injection Hb].
    repeat (destruct (negb _); [discriminate|]). by injection Hb. }
  assert (group_by_key' = group_by_key) as ->.
  { unfold _check_group_by_key in Hg. destruct group_by_key; [|by injection Hg].
    destruct (negb _); [discriminate|]. by injection Hg. }
  eexists protocol2, connection_type', satellite', product', sector', start_time', end_time',
    filter_parameters', fs, bucket_prefix, _, list_fpaths, grouped.
  split; [|repeat split; try eassumption].
  - destruct base_dir as [dir|].
    + right. split; [done|].
      destruct protocol as [p|].
      * case_bool_decide as Hp; [|discriminate]. simpl in Hp1. injection Hp1 as <-.
        split; [|by repeat (apply elem_of_cons in Hp as [->|Hp]; [by injection Hp2|]);
                  apply elem_of_nil in Hp].
        repeat (apply elem_of_cons in Hp as [->|Hp]; [by repeat constructor|]).
        by apply elem_of_nil in Hp.
      * injection Hp1 as <-. split; [left | by injection Hp2].
    + left. split; [done|]. injection Hp1 as <-.
      unfold _get_product_dir in Hpd. inv_bind_as Hpd bucket Hbucket.
      unfold get_bucket, getitem in Hbucket.
      destruct protocol2 as [p2|]; [|discriminate].
      destruct (decide (p2 = "s3")) as [->|Hne];
        [|by rewrite lookup_singleton_ne in Hbucket].
      split; [|done]. unfold _check_protocol in Hp2.
      destruct protocol as [p|]; [|discriminate].
      destruct (negb _); [discriminate|]. case_bool_decide; by simplify_eq.
  - destruct group_by_key as [key|]; [|left; by injection Hgroup as <-].
    case_bool_decide as Hempty.
    + subst key. vm_compute in Hg. discriminate.
    + right. inv_bind_as Hgroup groups Hgroups. injection Hgroup as <-.
      by exists key, groups.
Qed.

(** A search returns only for a window that ends by the clock. *)
Lemma find_files_end_in_past (satellite product_level product : string)
    (start_time end_time : Z) (sector : option string)
    (filter_parameters : filter_parameters_t)
    (group_by_key connection_type base_dir protocol : option string) (fpaths : fpaths_t) :
  find_files satellite product_level product start_time end_time sector filter_parameters
    group_by_key connection_type base_dir protocol = Ok fpaths →
  replace_microsecond end_time ≤ utcnow.
Proof.
  intros H. apply find_files_Ok in H
    as (? & ? & ? & ? & ? & s' & e' & ? & ? & ? & ? & ? & ?
        & _ & _ & _ & _ & _ & _ & Hcheck & _).
  unfold _check_start_end_time in Hcheck.
  repeat (case_bool_decide; [discriminate|]). lia.
Qed.

(** A file kept by a query with both bounds meets the window of the
    query. *)
Lemma filter_file_overlaps (fpath product_level kept : string) (s e : Z)
    (channels scene_abbr : option (list string)) :
  filter_file fpath product_level (Some s) (Some e) channels scene_abbr = Ok (Some kept) →
  kept = fpath ∧ overlaps s e fpath.
Proof.
  unfold _filter_file. intros H. inv_bind_as H info_dict Hinfo.
  destruct (negb _); [discriminate|].
  destruct (negb _); [discriminate|].
  inv_bind_as H ends_before Hb. destruct ends_before; [discriminate|].
  inv_bind_as H starts_after Ha. destruct starts_after; [discriminate|].
  injection H as <-. split; [reflexivity|].
  exists info_dict. unfold value_gt in Ha. unfold value_lt in Hb.
  destruct (info_dict !! "start_time") as [[| |ts|]|]; try discriminate.
  destruct (info_dict !! "end_time") as [[| |te|]|]; try discriminate.
  exists ts, te. split; [exact Hinfo|]. split; [reflexivity|]. split; [reflexivity|].
  injection Ha as Ha. injection Hb as Hb.
  apply bool_decide_eq_false in Ha, Hb. lia.
Qed.

Lemma filter_file_same (fpath product_level kept : string) (s e : option Z)
    (channels scene_abbr : option (list string)) :
  filter_file fpath product_level s e channels scene_abbr = Ok (Some kept) → kept = fpath.
Proof.
  unfold _filter_file. intros H. inv_bind_as H info_dict Hinfo.
  destruct (negb _); [discriminate|].
  destruct (negb _); [discriminate|].
  inv_bind_as H ends_before Hb. destruct ends_before; [discriminate|].
  inv_bind_as H starts_after Ha. destruct starts_after; [discriminate|].
  by injection H as <-.
Qed.

Lemma filter_files_overlaps (fpaths kept : list string) (product_level : string) (s e : Z)
    (channels scene_abbr : option (list string)) :
  _filter_files GLOB_FNAME_PATTERN Parser_parse fpaths product_level (Some s) (Some e)
    channels scene_abbr = Ok kept →
  Forall (overlaps s e) kept.
Proof.
  unfold _filter_files. intros H. inv_bind_as H selected Hsel. injection H as <-.
  revert selected Hsel. induction fpaths as [|fpath fpaths IH]; intros selected Hsel.
  - simpl in Hsel. injection Hsel as <-. constructor.
  - simpl in Hsel. inv_bind_as Hsel o Ho. inv_bind_as Hsel os Hos. injection Hsel as <-.
    specialize (IH _ Hos). destruct o as [q|]; [|exact IH].
    apply filter_file_overlaps in Ho as [-> Hstart]. by constructor.
Qed.

Lemma filter_files_sublist (fpaths kept : list string) (product_level : string)
    (s e : option Z) (channels scene_abbr : option (list string)) :
  _filter_files GLOB_FNAME_PATTERN Parser_parse fpaths product_level s e
    channels scene_abbr = Ok kept →
  kept `sublist_of` fpaths.
Proof.
  unfold _filter_files. intros H. inv_bind_as H selected Hsel. injection H as <-.
  revert selected Hsel. induction fpaths as [|fpath fpaths IH]; intros selected Hsel.
  - simpl in Hsel. injection Hsel as <-. constructor.
  - simpl in Hsel. inv_bind_as Hsel o Ho. inv_bind_as Hsel os Hos. injection Hsel as <-.
    specialize (IH _ Hos). destruct o as [q|].
    + apply filter_file_same in Ho as ->. by apply sublist_skip.
    + by apply sublist_cons.
Qed.

Lemma search_directories_overlaps (fs bucket_prefix product_level : string) (s e : Z)
    (filter_parameters : filter_parameters_t) (list_glob_pattern list_fpaths : list string) :
  search_directories GLOB_FNAME_PATTERN Parser_parse fs_glob fs bucket_prefix product_level
    s e filter_parameters list_glob_pattern = Ok list_fpaths →
  Forall (overlaps s e) list_fpaths.
Proof.
  revert list_fpaths. induction list_glob_pattern as [|glob_pattern rest IH];
    intros list_fpaths H; simpl in H.
  - injection H as <-. constructor.
  - inv_bind_as H listed Hlisted. inv_bind_as H kept Hkept. inv_bind_as H others Hothers.
    injection H as <-. apply Forall_app. split.
    + by eapply filter_files_overlaps.
    + by apply IH.
Qed.


(** X16: an empty list of channels is not the absence of a filter: the
    check of the filter parameters lets it through as it is, and with it
    every file whose name gives a channel is left out. *)
Theorem filter_file_empty_channels (fpath product_level : string) (channel : value)
    (start_time end_time : option Z) (scene_abbr : option (list string)) :
  _get_key_from_filepaths GLOB_FNAME_PATTERN Parser_parse [fpath] "channel" = Ok [channel] →
  filter_file fpath product_level start_time end_time (Some []) scene_abbr = Ok None
  ∧ _filter_files GLOB_FNAME_PATTERN Parser_parse [fpath] product_level start_time end_time
      (Some []) scene_abbr = Ok []
  ∧ ∀ sector, _check_filter_parameters (FilterParameters (Some []) None) sector
              = Ok (FilterParameters (Some []) None).
Proof.
  intros H. apply get_key_from_filepaths_singleton in H as (info_dict & Hinfo & Hchannel).
  assert (filter_file fpath product_level start_time end_time (Some []) scene_abbr = Ok None)
    as Hnone.
  { unfold _filter_file. rewrite Hinfo. simpl. rewrite Hchannel.
    by destruct channel as [c| | |]. }
  split; [exact Hnone|]. split; [|done].
  unfold _filter_files. simpl. by rewrite Hnone.
Qed.

(** X17: a file whose scene is a list of scenes, as the files of the Japan
    sector have it, is left out by every scene filter: the list is looked
    up among the scenes asked for, where only single scenes are. *)
Theorem filter_file_scene_list (fpath product_level : string) (scenes : list string)
    (start_time end_time : option Z) (channels : option (list string))
    (scene_abbr : list string) :
  _get_key_from_filepaths GLOB_FNAME_PATTERN Parser_parse [fpath] "scene_abbr"
  = Ok [VList scenes] →
  filter_file fpath product_level start_time end_time channels (Some scene_abbr) = Ok None.
Proof.
  intros H. apply get_key_from_filepaths_singleton in H as (info_dict & Hinfo & Hscene).
  unfold _filter_file. rewrite Hinfo. simpl. rewrite Hscene. simpl.
  by destruct (negb _).
Qed.
(** X18: the public filter answers only when both times are given: with
    [None] for one of them, as the defaults have it, the check of the times
    raises; when it returns, the kept paths are a sublist of the input and
    the acquisition of each meets the window, cut to the second. *)
Theorem filter_files_needs_times (fpaths kept : list string) (product_level : string)
    (start_time end_time : option Z) (scene_abbr channels : option (list string)) :
  filter_files fpaths product_level start_time end_time scene_abbr channels = Ok kept →
  ∃ s e, start_time = Some s ∧ end_time = Some e
         ∧ kept `sublist_of` fpaths
         ∧ Forall (overlaps (replace_microsecond s) (replace_microsecond e)) kept.
Proof.
  intros H. unfold_filter_files H.
  inv_bind_as H level Hlevel. inv_bind_as H channels' Hch. inv_bind_as H scene' Hsc.
  inv_bind_as H s Hs. inv_bind_as H e He. inv_bind_as H times Htimes.
  destruct times as [s' e'].
  destruct start_time as [s0|]; [|discriminate]. injection Hs as ->.
  destruct end_time as [e0|]; [|discriminate]. injection He as ->.
  exists s, e. split; [reflexivity|]. split; [reflexivity|].
  unfold _check_start_end_time in Htimes.
  repeat (case_bool_decide; [discriminate|]). injection Htimes as <- <-.
  split; [by eapply filter_files_sublist | by eapply filter_files_overlaps].
Qed.

Lemma group_fpaths_by_key_Ok (fpaths : list string) (product_level : option string)
    (key : string) (groups : list (value * list string)) :
  _group_fpaths_by_key GLOB_FNAME_PATTERN Parser_parse fpaths product_level key = Ok groups →
  mjoin groups.*2 ≡ₚ fpaths
  ∧ Forall (λ g, g.2 ≠ []) groups
  ∧ (∀ k g fpath, (k, g) ∈ groups → fpath ∈ g →
       (info_dict ← info_of fpath; getitem info_dict key) = Ok k)
  ∧ (∀ i a b, groups !! i = Some a → groups !! S i = Some b → a.1 ≠ b.1).
Proof.
  unfold _group_fpaths_by_key. intros H. inv_bind_as H values Hvalues.
  destruct (negb _); [discriminate|]. injection H as <-.
  unfold _get_key_from_filepaths in Hvalues. apply check_each_Ok in Hvalues.
  set (pairs := sort_pairs _).
  assert (pairs ≡ₚ zip values fpaths) as Hperm by apply sort_pairs_Permutation.
  split; [|split; [|split]].
  - rewrite group_sorted_concat, Hperm. rewrite snd_zip; [done|].
    apply Forall2_length in Hvalues. lia.
  - apply group_sorted_nonempty.
  - intros k g fpath Hg Hf. pose proof (group_sorted_members _ _ _ _ Hg Hf) as Hin.
    rewrite Hperm in Hin. clear -Hvalues Hin.
    induction Hvalues as [|fpath0 v fpaths values Hv _ IH]; simpl in Hin.
    + by apply elem_of_nil in Hin.
    + apply elem_of_cons in Hin as [[= -> ->]|Hin]; [exact Hv | by apply IH].
  - apply group_sorted_adjacent.
Qed.

Lemma group_fpaths_by_key_sortable (fpaths : list string) (product_level : option string)
    (key : string) (list_key_values : list value) :
  _get_key_from_filepaths GLOB_FNAME_PATTERN Parser_parse fpaths key = Ok list_key_values →
  sortable list_key_values = true →
  _group_fpaths_by_key GLOB_FNAME_PATTERN Parser_parse fpaths product_level key
  = Ok (group_sorted (sort_pairs (zip list_key_values fpaths))).
Proof.
  intros Hvalues Hsortable. unfold _group_fpaths_by_key. rewrite Hvalues. simpl.
  by rewrite Hsortable.
Qed.

(** X19: when the names of the paths give the grouping key as values of
    one kind, all strings, all integers or all datetimes (the scenes of the
    Japan sector, which are lists, are not), grouping answers, and it loses
    and invents nothing: the groups put end to end are the paths that were
    given, in another order; no group is empty; the key of a group is the
    value that the name of each of its paths gives for the grouping key;
    and the keys are the key values of the paths, each once. *)
Theorem group_fpaths_by_key_partition (fpaths : list string) (product_level : option string)
    (key : string) (list_key_values : list value) :
  _get_key_from_filepaths GLOB_FNAME_PATTERN Parser_parse fpaths key = Ok list_key_values →
  sortable list_key_values = true →
  ∃ groups,
    _group_fpaths_by_key GLOB_FNAME_PATTERN Parser_parse fpaths product_level key = Ok groups
    ∧ mjoin groups.*2 ≡ₚ fpaths
    ∧ Forall (λ g, g.2 ≠ []) groups
    ∧ (∀ k g fpath, (k, g) ∈ groups → fpath ∈ g →
         _get_key_from_filepaths GLOB_FNAME_PATTERN Parser_parse [fpath] key = Ok [k])
    ∧ NoDup groups.*1
    ∧ (∀ k, k ∈ groups.*1 ↔ k ∈ list_key_values).
Proof.
  intros Hvalues Hsortable.
  pose proof (group_fpaths_by_key_sortable _ product_level _ _ Hvalues Hsortable) as Hgroups.
  eexists. split; [exact Hgroups|].
  destruct (group_fpaths_by_key_Ok _ _ _ _ Hgroups) as (Hperm & Hne & Hmember & _).
  split; [exact Hperm|]. split; [exact Hne|]. split.
  { intros k g fpath Hg Hf. unfold _get_key_from_filepaths. simpl.
    by rewrite (Hmember k g fpath Hg Hf). }
  assert ((sort_pairs (zip list_key_values fpaths)).*1 ≡ₚ list_key_values) as Hkeys.
  { rewrite sort_pairs_Permutation. rewrite fst_zip; [done|].
    unfold _get_key_from_filepaths in Hvalues. apply check_each_Ok in Hvalues.
    apply Forall2_length in Hvalues. lia. }
  destruct (group_sorted_NoDup list_key_values (sort_pairs (zip list_key_values fpaths))
              Hsortable) as (Hnd & Hin & _).
  { intros x Hx. by rewrite <- Hkeys. }
  { apply Sorted_sort_pairs. }
  split; [exact Hnd|]. intros k. by rewrite Hin, Hkeys.
Qed.

(** X20: [group_files] refuses a dictionary, and a key that is not a group
    key, before it looks at any path.  For a list of paths and a group key
    whose values in the names are of one kind (all strings, all integers or
    all datetimes) it answers: the groups put end to end are the paths it
    was given, and the values of the grouping key read back from the
    grouped result are, under each key, as many copies of that key as the
    group has paths. *)
Theorem group_files_answers (l : list string) (k : string) (list_key_values : list value) :
  k ∈ available_group_keys →
  _get_key_from_filepaths GLOB_FNAME_PATTERN Parser_parse l k = Ok list_key_values →
  sortable list_key_values = true →
  (∃ groups,
     group_files GLOB_FNAME_PATTERN Parser_parse (FList l) (Some k) = Ok groups
     ∧ mjoin groups.*2 ≡ₚ l
     ∧ get_key_from_filepaths GLOB_FNAME_PATTERN Parser_parse (FDict groups) k
       = Ok (KDict ((λ g, (g.1, replicate (length g.2) g.1)) <$> groups)))
  ∧ (∀ d key,
       group_files GLOB_FNAME_PATTERN Parser_parse (FDict d) key
       = Raise (TypeError [Txt "It's not possible to group a dictionary ! ";
                           Txt "Pass a list of filepaths instead."]))
  ∧ (∀ l' k', k' ∉ available_group_keys →
       ∃ msg, group_files GLOB_FNAME_PATTERN Parser_parse (FList l') (Some k')
              = Raise (ValueError msg)).
Proof.
  intros Hin Hvalues Hsortable. split; [|split].
  - pose proof (group_fpaths_by_key_sortable _ None _ _ Hvalues Hsortable) as Hgroups.
    set (groups := group_sorted _) in Hgroups.
    exists groups. split.
    { unfold group_files, _check_group_by_key.
      rewrite bool_decide_eq_true_2 by exact Hin. exact Hgroups. }
    destruct (group_fpaths_by_key_Ok _ _ _ _ Hgroups) as (Hperm & _ & Hmember & _).
    split; [exact Hperm|].
    unfold get_key_from_filepaths.
    assert (for_items (λ v, _get_key_from_filepaths GLOB_FNAME_PATTERN Parser_parse v k) groups
            = Ok ((λ g, (g.1, replicate (length g.2) g.1)) <$> groups)) as ->;
      [|reflexivity].
    clear Hperm Hgroups. induction groups as [|[v g] groups IH]; [reflexivity|]. simpl.
    assert (_get_key_from_filepaths GLOB_FNAME_PATTERN Parser_parse g k
            = Ok (replicate (length g) v)) as ->.
    { unfold _get_key_from_filepaths.
      assert (∀ fpath, fpath ∈ g →
                (info_dict ← info_of fpath; getitem info_dict k) = Ok v) as Hg.
      { intros fpath Hf. apply (Hmember v g); [left | exact Hf]. }
      clear -Hg. induction g as [|fpath g IH]; [reflexivity|]. simpl.
      rewrite Hg by left. simpl. rewrite IH; [reflexivity|].
      intros f Hf. apply Hg. by right. }
    simpl. rewrite IH; [reflexivity|].
    intros v' g' fpath Hg' Hf. apply (Hmember v' g'); [by right | exact Hf].
  - intros d key. reflexivity.
  - intros l' k' Hk'. unfold group_files, _check_group_by_key.
    rewrite bool_decide_eq_false_2 by exact Hk'. by eexists.
Qed.

(** X21: a search that returns was asked for level L1b, in any spelling
    of the case: for level L2 the glob pattern of the file names is never
    bound, so no call for L2 returns. *)
Theorem find_files_level_L1b (satellite product_level product : string)
    (start_time end_time : Z) (sector : option string)
    (filter_parameters : filter_parameters_t)
    (group_by_key connection_type base_dir protocol : option string) (fpaths : fpaths_t) :
  find_files satellite product_level product start_time end_time sector filter_parameters
    group_by_key connection_type base_dir protocol = Ok fpaths →
  str_capitalize product_level = "L1b" ∧ str_capitalize product_level ≠ "L2".
Proof.
  intros H. apply find_files_Ok in H
    as (? & ? & ? & ? & ? & ? & ? & ? & ? & ? & ? & ? & ? & _ & _ & _ & Hlevel & _).
  unfold _check_product_level, _check_product_level_name in Hlevel. cbn zeta in Hlevel.
  destruct (negb _); [discriminate|]. simpl in Hlevel. injection Hlevel as ->. done.
Qed.

(** X22: a search that returns was given either the protocol "s3" and no
    base directory, or a base directory with no protocol or the protocol
    "file" or "local" (a local protocol without base directory has no
    bucket); and with a base directory the connection type has no effect
    on the outcome. *)
Theorem find_files_storage (satellite product_level product : string)
    (start_time end_time : Z) (sector : option string)
    (filter_parameters : filter_parameters_t)
    (group_by_key connection_type base_dir protocol : option string) (fpaths : fpaths_t) :
  find_files satellite product_level product start_time end_time sector filter_parameters
    group_by_key connection_type base_dir protocol = Ok fpaths →
  ((base_dir = None ∧ protocol = Some "s3")
   ∨ (base_dir ≠ None ∧ protocol ∈ [None; Some "file"; Some "local"]))
  ∧ (base_dir ≠ None →
     ∀ other,
       find_files satellite product_level product start_time end_time sector
         filter_parameters group_by_key other base_dir protocol = Ok fpaths).
Proof.
  intros H. pose proof H as H'. apply find_files_Ok in H'
    as (protocol' & ? & ? & ? & ? & ? & ? & ? & ? & ? & ? & ? & ? & Hstorage & _).
  split.
  - destruct Hstorage as [(Hb & Hp & _)|(Hb & Hp & _)]; [by left | by right].
  - intros Hdir other. destruct Hstorage as [(Hb & _)|(_ & Hp & ->)]; [done|].
    destruct base_dir as [dir|]; [|done].
    rewrite <- H. unfold_find_files_goal.
    repeat (apply elem_of_cons in Hp as [->|Hp]); [| | |by apply elem_of_nil in Hp];
      simpl; try reflexivity; destruct other, connection_type; reflexivity.
Qed.

Lemma check_filter_parameters_scene (filter_parameters checked : filter_parameters_t)
    (sector : string) :
  _check_filter_parameters filter_parameters sector = Ok checked →
  truthy (fp_scene_abbr filter_parameters) = true →
  _check_scene_abbr (fp_scene_abbr filter_parameters) (Some sector)
  = Ok (fp_scene_abbr checked).
Proof.
  unfold _check_filter_parameters. intros H Htruthy.
  inv_bind_as H channels Hch. inv_bind_as H scene_abbr Hsc. injection H as <-.
  by rewrite Htruthy in Hsc.
Qed.

(** X23: a search with a scene filter that is not empty returns for the
    Japan sector only, with scenes among R1 and R2: the check of the scenes
    refuses the filter for every other sector. *)
Theorem find_files_scene_filter_japan (satellite product_level product : string)
    (start_time end_time : Z) (sector : option string)
    (filter_parameters : filter_parameters_t)
    (group_by_key connection_type base_dir protocol : option string) (fpaths : fpaths_t) :
  find_files satellite product_level product start_time end_time sector filter_parameters
    group_by_key connection_type base_dir protocol = Ok fpaths →
  truthy (fp_scene_abbr filter_parameters) = true →
  (∃ s, sector = Some s ∧ find_alias _sectors (str_upper s) = Some "Japan")
  ∧ ∃ scene_abbr, fp_scene_abbr filter_parameters = Some scene_abbr
                  ∧ scene_abbr ⊆ ["R1"; "R2"].
Proof.
  intros H Htruthy. apply find_files_Ok in H
    as (? & ? & ? & product' & sector' & ? & ? & checked & ? & ? & ? & ? & ?
        & _ & _ & _ & _ & _ & Hsector & _ & Hfp & _).
  pose proof (check_filter_parameters_scene _ _ _ Hfp Htruthy) as Hscene.
  destruct (fp_scene_abbr filter_parameters) as [scene_abbr|] eqn:Hsc; [|discriminate].
  apply check_scene_abbr_Ok in Hscene as [Hnot Hjapan].
  apply check_sector_key in Hsector as (s & -> & Halias).
  assert (sector' = "Japan") as ->.
  { pose proof (find_alias_key _ _ _ Halias) as Hkey.
    unfold keys, _sectors in Hkey. simpl in Hkey.
    repeat (apply elem_of_cons in Hkey as [->|Hkey];
            [first [reflexivity | exfalso; apply Hnot; by repeat constructor]|]).
    by apply elem_of_nil in Hkey. }
  split; [by exists s|]. exists scene_abbr. split; [reflexivity | by apply Hjapan].
Qed.
(** X24: without group key, and with the paths left as they were found
    (connection type "bucket" or none), every path that a search returns is
    the path of a file whose acquisition meets the window of the query,
    both cut to the second: it starts by the end of the query and ends at
    or after its start. *)
Theorem find_files_within_window (satellite product_level product : string)
    (start_time end_time : Z) (sector : option string)
    (filter_parameters : filter_parameters_t)
    (connection_type base_dir protocol : option string) (fpaths : fpaths_t) :
  find_files satellite product_level product start_time end_time sector filter_parameters
    None connection_type base_dir protocol = Ok fpaths →
  connection_type ∈ [None; Some "bucket"] →
  ∃ list_fpaths,
    fpaths = FList list_fpaths
    ∧ Forall (overlaps (replace_microsecond start_time) (replace_microsecond end_time))
        list_fpaths.
Proof.
  intros H Hct. apply find_files_Ok in H
    as (protocol' & connection_type' & ? & ? & ? & s' & e' & ? & ? & ? & ? & list_fpaths
        & grouped & Hstorage & Hconn & _ & _ & _ & _ & Htimes & _ & _ & Hsearch
        & Hgrouped & Hset).
  destruct Hgrouped as [[_ ->]|(key & groups & ? & _)]; [|discriminate].
  assert (fpaths = FList list_fpaths) as ->.
  { destruct Hstorage as [(_ & _ & ->)|(_ & _ & ->)].
    - repeat (apply elem_of_cons in Hct as [->|Hct]); [| |by apply elem_of_nil in Hct];
        injection Hconn as <-; by injection Hset.
    - by injection Hset. }
  exists list_fpaths. split; [reflexivity|].
  apply search_directories_overlaps in Hsearch.
  unfold _check_start_end_time in Htimes.
  repeat (case_bool_decide; [discriminate|]). by injection Htimes as <- <-.
Qed.


(** The start times of a search grouped on the start time, once it
    returned. *)
Lemma start_times_of_search (satellite product_level product : string)
    (start_time end_time : Z) (sector : option string)
    (filter_parameters : filter_parameters_t)
    (connection_type base_dir protocol : option string) (fpath_dict : fpaths_t) :
  find_files satellite product_level product start_time end_time sector filter_parameters
    (Some "start_time") connection_type base_dir protocol = Ok fpath_dict →
  ∃ groups times,
    fpath_dict = FDict groups
    ∧ groups.*1 = VTime <$> times
    ∧ start_times_of fpath_dict = Ok times
    ∧ StronglySorted Z.lt times
    ∧ Forall (λ t, t ≤ end_time) times.
Proof.
  intros H. apply find_files_start_times in H as (groups & times & -> & Hk & Hs & Hle).
  exists groups, times. split; [reflexivity|]. split; [exact Hk|]. split.
  - unfold start_times_of. simpl. by rewrite Hk, check_each_as_datetime.
  - split; [exact Hs|]. eapply Forall_impl; [exact Hle|]. intros t Ht. simpl in Ht.
    pose proof (replace_microsecond_le end_time). lia.
Qed.

(** X25: the latest start time is looked for among the files found between
    the clock minus the look-ahead and the clock; with nothing found the
    call fails with the no-data error, otherwise it returns the greatest
    start time found, which is not after the clock.  The search itself
    returns only for a look-ahead that is not negative. *)
Theorem find_latest_start_time_greatest (satellite product_level product : string)
    (sector connection_type base_dir protocol : option string)
    (filter_parameters : filter_parameters_t) (look_ahead_minutes : Z)
    (fpath_dict : fpaths_t) (times : list Z) :
  find_files satellite product_level product (utcnow - timedelta look_ahead_minutes 0) utcnow
    sector filter_parameters (Some "start_time") connection_type base_dir protocol
  = Ok fpath_dict →
  start_times_of fpath_dict = Ok times →
  0 ≤ look_ahead_minutes
  ∧ (times = [] →
     find_latest_start_time satellite product_level product sector connection_type base_dir
       protocol filter_parameters look_ahead_minutes
     = Raise (ValueError [Txt "No data found. Maybe try to increase `look_ahead_minutes`."]))
  ∧ (times ≠ [] →
     ∃ r, find_latest_start_time satellite product_level product sector connection_type
            base_dir protocol filter_parameters look_ahead_minutes = Ok r
          ∧ r ∈ times ∧ (∀ x, x ∈ times → x ≤ r) ∧ r ≤ utcnow).
Proof.
  intros Hfind Htimes.
  assert (0 ≤ look_ahead_minutes) as Hlook.
  { apply find_files_Ok in Hfind
      as (? & ? & ? & ? & ? & s' & e' & ? & ? & ? & ? & ? & ?
          & _ & _ & _ & _ & _ & _ & Hcheck & _).
    unfold _check_start_end_time in Hcheck.
    case_bool_decide as Horder; [discriminate|].
    destruct (decide (0 ≤ look_ahead_minutes)) as [|Hneg]; [done|]. exfalso.
    apply Horder.
    pose proof (replace_microsecond_le utcnow).
    pose proof (replace_microsecond_le (utcnow - timedelta look_ahead_minutes 0)).
    unfold timedelta in *. lia. }
  split; [exact Hlook|].
  pose proof (start_times_of_search _ _ _ _ _ _ _ _ _ _ _ Hfind)
    as (groups & times' & -> & Hk & Htimes' & Hs & Hle).
  rewrite Htimes in Htimes'. injection Htimes' as <-.
  assert (length groups = length times) as Hlen.
  { rewrite <- (length_fmap fst groups), Hk. by rewrite length_fmap. }
  unfold find_latest_start_time. rewrite Hfind. simpl. rewrite Hlen, Hk.
  split.
  - intros ->. reflexivity.
  - intros Hne. destruct times as [|t times]; [done|]. simpl length. simpl Nat.eqb.
    cbn iota. change (Ok (VTime <$> t :: times) ≫= ?f) with (f (VTime <$> t :: times)).
    cbn beta. rewrite check_each_datetime_key.
    change (Ok (t :: times) ≫= ?f) with (f (t :: times)). cbn beta zeta.
    destruct (np_argmax_spec (t :: times)) as (m & Hm & Hmax); [done|].
    rewrite Hm. exists m. split; [reflexivity|].
    assert (m ∈ t :: times) as Hin by (by eapply list_elem_of_lookup_2).
    split; [exact Hin|]. split; [exact Hmax|].
    rewrite Forall_forall in Hle. by apply Hle.
Qed.

Lemma find_Some_elem_of {A : Type} (f : A → bool) (l : list A) (x : A) :
  List.find f l = Some x → x ∈ l ∧ f x = true.
Proof.
  intros H. apply find_some in H as [Hin Hf]. split; [by apply list_elem_of_In | exact Hf].
Qed.

(** X26: the files closest to a time are the group that the search of the
    window files under the start time that [find_closest_start_time]
    returns for the same arguments; the group is not empty, and its paths
    are the ones the search made without connection type gives, whatever
    connection type was asked for. *)
Theorem find_closest_files_group (time : Z) (satellite product_level product : string)
    (sector connection_type base_dir protocol : option string)
    (filter_parameters : filter_parameters_t) (fpaths : list string) :
  find_closest_files time satellite product_level product sector connection_type base_dir
    protocol filter_parameters = Ok fpaths →
  let t := replace_second_microsecond time in
  ∃ cadence closest groups,
    _get_acquisition_max_timedelta sector = Ok cadence
    ∧ find_closest_start_time time satellite product_level product sector base_dir protocol
        filter_parameters = Ok closest
    ∧ find_files satellite product_level product (t - cadence) (t + cadence) sector
        filter_parameters (Some "start_time") None base_dir protocol = Ok (FDict groups)
    ∧ (VTime closest, fpaths) ∈ groups
    ∧ fpaths ≠ []
    ∧ ∀ other, find_closest_files time satellite product_level product sector other
                 base_dir protocol filter_parameters = Ok fpaths.
Proof.
  intros H t. pose proof H as Hother. unfold_find_closest_files H.
  cbn zeta in H. fold t in H.
  inv_bind_as H cadence Hcad. inv_bind_as H fpath_dict Hfind.
  inv_bind_as H keys Hkeys. inv_bind_as H found Hfound.
  destruct (length (sorted found) =? 0)%nat eqn:Hlen; [discriminate|].
  destruct (sorted found !! _) as [closest|] eqn:Hclosest; [|discriminate].
  assert (find_closest_start_time time satellite product_level product sector base_dir
            protocol filter_parameters = Ok closest) as Hstart.
  { unfold_find_closest_start_time. cbn zeta. fold t. rewrite Hcad. simpl.
    rewrite Hfind. simpl. rewrite Hkeys. simpl. rewrite Hfound. simpl.
    by rewrite Hlen, Hclosest. }
  destruct fpath_dict as [l|groups]; [discriminate|].
  simpl in H. destruct (List.find _ groups) as [kv|] eqn:Hkv; [|discriminate].
  injection H as <-. apply find_Some_elem_of in Hkv as [Hin Hkey].
  apply bool_decide_eq_true in Hkey. destruct kv as [k g]. simpl in Hkey. subst k.
  exists cadence, closest, groups.
  split; [exact Hcad|]. split; [exact Hstart|].
  split; [exact Hfind|]. split; [exact Hin|]. split; [|done].
  apply find_files_Ok in Hfind
    as (protocol' & ct' & ? & ? & ? & ? & ? & ? & ? & ? & ? & list_fpaths & grouped
          & Hstorage & Hconn & _ & _ & _ & _ & _ & _ & _ & _ & Hgrouped & Hset).
    destruct Hgrouped as [[? _]|(key & groups' & _ & Hgroups' & ->)]; [discriminate|].
    assert (groups' = groups) as ->.
    { destruct Hstorage as [(_ & _ & ->)|(_ & _ & ->)].
      - injection Hconn as <-. by injection Hset.
      - by injection Hset. }
    apply group_fpaths_by_key_Ok in Hgroups' as (_ & Hne & _).
    rewrite Forall_forall in Hne. apply (Hne _ Hin).
Qed.


(** X27: with the consistency check, without the start time, for [N ≥ 1]
    and a start time that is the start time of a file, the window searched
    goes [cadence × (N + 1)] forward from the resolved start, and the call
    returns only if that window ends by the clock; it then gives exactly
    [N] start times found in the window, other than the resolved start, in
    ascending order: the [N] earliest found, so that none of them is after
    the end of the window, and nothing says that they are after the start.
    Put in order with the resolved start they are evenly spaced. *)
Theorem find_next_files_regular (start_time N : Z)
    (satellite product_level product : string) (sector : option string)
    (filter_parameters : filter_parameters_t)
    (connection_type base_dir protocol : option string) (result : fpaths_t) :
  1 ≤ N →
  find_next_files start_time N satellite product_level product sector filter_parameters
    connection_type base_dir protocol false true = Ok result →
  let t := replace_second_microsecond start_time in
  ∃ sector_key level cadence found groups times,
    _check_sector PRODUCTS AHI_L2_SECTOR_EXCEPTIONS sector None = Ok sector_key
    ∧ _check_product_level product_level None = Ok level
    ∧ _get_acquisition_max_timedelta (Some sector_key) = Ok cadence
    ∧ find_closest_start_time t satellite level product (Some sector_key) base_dir
        protocol filter_parameters = Ok t
    ∧ (fpath_dict ← find_files satellite level product t (t + cadence * (N + 1))
                      (Some sector_key) filter_parameters (Some "start_time")
                      connection_type base_dir protocol;
       start_times_of fpath_dict) = Ok found
    ∧ result = FDict groups
    ∧ groups.*1 = VTime <$> times
    ∧ Z.of_nat (length times) = N
    ∧ (∀ x, x ∈ times → x ∈ found ∧ x ≠ t ∧ x ≤ t + cadence * (N + 1))
    ∧ StronglySorted Z.lt times
    ∧ (∀ x y, x ∈ times → y ∈ found → y ≠ t → y < x → y ∈ times)
    ∧ all_equal (np_diff (sorted (times ++ [t])%list))
    ∧ t + cadence * (N + 1) ≤ utcnow.
Proof.
  intros HN H t. unfold_find_next_files H.
  inv_bind_as H sector_key Hsec. inv_bind_as H level Hlevel.
  cbn zeta in H. fold t in H.
  inv_bind_as H closest_time Hclosest.
  destruct (bool_decide (closest_time = t)) eqn:Hct; [|discriminate].
  apply bool_decide_eq_true in Hct. subst closest_time. simpl in H.
  inv_bind_as H cadence Hcad. inv_bind_as H fpath_dict Hfind.
  inv_bind_as H keys Hkeys. inv_bind_as H found Hfound.
  inv_bind_as H rest Hrest. simpl in Hrest.
  destruct (start_times_of_search _ _ _ _ _ _ _ _ _ _ _ Hfind)
    as (groups0 & times0 & -> & Hk0 & Htimes0 & Hs0 & Hle0).
  simpl in Hkeys. injection Hkeys as <-.
  rewrite Hk0, check_each_as_datetime in Hfound. injection Hfound as <-.
  rewrite sorted_of_sorted in Hrest by (by apply StronglySorted_lt_le).
  destruct (list_remove_Ok _ _ _ Hrest (StronglySorted_lt_NoDup _ Hs0)) as [Hsub Hne].
  assert (StronglySorted Z.lt rest) as Hsrest by (by eapply StronglySorted_sublist).
  rewrite sorted_of_sorted in H by (by apply StronglySorted_lt_le).
  destruct (length rest =? 0)%nat; [discriminate|].
  case_bool_decide as Hlen; [discriminate|].
  destruct (first_n_spec N rest ltac:(lia) ltac:(lia) Hsrest)
    as (Hfirst_len & Hfirst_sorted & Hfirst_early).
  inv_bind_as H groups Hgroups. inv_bind_as H u Hreg. injection H as <-.
  apply select_keys_keys in Hgroups.
  assert (∀ y, y ∈ times0 → y ≠ t → y ∈ rest) as Hrest_in.
  { clear -Hrest. revert rest Hrest. induction times0 as [|z l IH]; intros rest Hrest y Hy Hyt.
    - by apply elem_of_nil in Hy.
    - simpl in Hrest. case_bool_decide as Hz.
      + injection Hrest as <-. apply elem_of_cons in Hy as [->|Hy]; [congruence | exact Hy].
      + inv_bind_as Hrest l' Hl'. injection Hrest as <-.
        apply elem_of_cons in Hy as [->|Hy]; [left | right; by eapply IH]. }
  exists sector_key, level, cadence, times0, groups, (first_n N rest).
  split; [exact Hsec|]. split; [exact Hlevel|]. split; [exact Hcad|].
  split; [exact Hclosest|]. split; [by rewrite Hfind|].
  split; [reflexivity|]. split; [exact Hgroups|]. split; [exact Hfirst_len|].
  split; [|split; [exact Hfirst_sorted|split]].
  - intros x Hx. apply (sublist_subseteq _ _ (first_n_sublist N rest)) in Hx.
    split; [by eapply sublist_subseteq|]. split; [by apply Hne|].
    rewrite Forall_forall in Hle0. apply Hle0. by eapply sublist_subseteq.
  - intros x y Hx Hy Hyt Hlt. apply (Hfirst_early x y Hx); [by apply Hrest_in | exact Hlt].
  - split.
    + destruct u. apply check_interval_regularity_Ok in Hreg; [exact Hreg|].
      rewrite length_app. simpl. lia.
    + apply find_files_end_in_past in Hfind. unfold t in Hfind.
      by rewrite (cadence_window_whole_second _ _ _ _ Hcad) in Hfind.
Qed.

(** X28: asked for no time step at all, [find_next_files] answers with an
    empty dictionary whenever it answers, whatever its two options. *)
Theorem find_next_files_none (start_time : Z)
    (satellite product_level product : string) (sector : option string)
    (filter_parameters : filter_parameters_t)
    (connection_type base_dir protocol : option string)
    (include_start_time check_consistency : bool) (result : fpaths_t) :
  find_next_files start_time 0 satellite product_level product sector filter_parameters
    connection_type base_dir protocol include_start_time check_consistency = Ok result →
  result = FDict [].
Proof.
  intros H. unfold_find_next_files H.
  inv_bind_as H sector_key Hsec. inv_bind_as H level Hlevel.
  cbn zeta in H. inv_bind_as H closest_time Hclosest.
  destruct (check_consistency && negb _); [discriminate|].
  inv_bind_as H cadence Hcad. inv_bind_as H fpath_dict Hfind.
  inv_bind_as H keys Hkeys. inv_bind_as H found Hfound.
  inv_bind_as H rest Hrest.
  destruct (length (sorted rest) =? 0)%nat; [discriminate|].
  case_bool_decide; [discriminate|].
  inv_bind_as H groups Hgroups. inv_bind_as H u Hreg. injection H as <-.
  destruct fpath_dict as [l|groups0]; [discriminate|].
  unfold first_n in Hgroups. rewrite bool_decide_eq_false_2 in Hgroups by lia.
  simpl in Hgroups. by injection Hgroups as <-.
Qed.

(** X29: asked for no time step at all, [find_previous_files] does not
    answer with an empty dictionary: the slice [[-0:]] is the whole list,
    and with the consistency check and without the start time the call
    returns every start time found in the window of one cadence before the
    resolved start, that start apart. *)
Theorem find_previous_files_none (start_time : Z)
    (satellite product_level product : string) (sector : option string)
    (filter_parameters : filter_parameters_t)
    (connection_type base_dir protocol : option string) (result : fpaths_t) :
  find_previous_files start_time 0 satellite product_level product sector filter_parameters
    connection_type base_dir protocol false true = Ok result →
  let t := replace_second_microsecond start_time in
  ∃ sector_key level cadence found groups times,
    _check_sector PRODUCTS AHI_L2_SECTOR_EXCEPTIONS sector None = Ok sector_key
    ∧ _check_product_level product_level None = Ok level
    ∧ _get_acquisition_max_timedelta (Some sector_key) = Ok cadence
    ∧ (fpath_dict ← find_files satellite level product (t - cadence) t
                      (Some sector_key) filter_parameters (Some "start_time")
                      connection_type base_dir protocol;
       start_times_of fpath_dict) = Ok found
    ∧ result = FDict groups
    ∧ groups.*1 = VTime <$> times
    ∧ times ≠ []
    ∧ (∀ x, x ∈ times ↔ x ∈ found ∧ x ≠ t).
Proof.
  intros H t. unfold_find_previous_files_in H.
  inv_bind_as H sector_key Hsec. inv_bind_as H level Hlevel.
  cbn zeta in H. fold t in H.
  inv_bind_as H closest_time Hclosest.
  destruct (bool_decide (closest_time = t)) eqn:Hct; [|discriminate].
  apply bool_decide_eq_true in Hct. subst closest_time. simpl in H.
  inv_bind_as H cadence Hcad.
  replace (t - cadence * (0 + 1)) with (t - cadence) in H by lia.
  inv_bind_as H fpath_dict Hfind.
  inv_bind_as H keys Hkeys. inv_bind_as H found Hfound.
  inv_bind_as H rest Hrest. simpl in Hrest.
  destruct (start_times_of_search _ _ _ _ _ _ _ _ _ _ _ Hfind)
    as (groups0 & times0 & -> & Hk0 & Htimes0 & Hs0 & Hle0).
  simpl in Hkeys. injection Hkeys as <-.
  rewrite Hk0, check_each_as_datetime in Hfound. injection Hfound as <-.
  rewrite sorted_of_sorted in Hrest by (by apply StronglySorted_lt_le).
  destruct (list_remove_Ok _ _ _ Hrest (StronglySorted_lt_NoDup _ Hs0)) as [Hsub Hne].
  assert (StronglySorted Z.lt rest) as Hsrest by (by eapply StronglySorted_sublist).
  rewrite sorted_of_sorted in H by (by apply StronglySorted_lt_le).
  destruct (Nat.eqb_spec (length rest) 0) as [|Hlen]; [discriminate|].
  case_bool_decide; [discriminate|].
  unfold last_n in H. rewrite bool_decide_eq_true_2 in H by done.
  inv_bind_as H groups Hgroups. inv_bind_as H u Hreg. injection H as <-.
  apply select_keys_keys in Hgroups.
  exists sector_key, level, cadence, times0, groups, rest.
  split; [exact Hsec|]. split; [exact Hlevel|]. split; [exact Hcad|].
  split; [by rewrite Hfind|]. split; [reflexivity|]. split; [exact Hgroups|].
  split; [by destruct rest|].
  intros x. split.
  - intros Hx. split; [by eapply sublist_subseteq | by apply Hne].
  - intros [Hx Hxt]. clear -Hrest Hx Hxt. revert rest Hrest.
    induction times0 as [|z l IH]; intros rest Hrest.
    + by apply elem_of_nil in Hx.
    + simpl in Hrest. case_bool_decide as Hz.
      * injection Hrest as <-. apply elem_of_cons in Hx as [->|Hx]; [congruence | exact Hx].
      * inv_bind_as Hrest l' Hl'. injection Hrest as <-.
        apply elem_of_cons in Hx as [->|Hx]; [left | right; by eapply IH].
Qed.
(** X30: with the consistency check, the latest files are looked for from
    the latest start time cut to the whole minute, which has to be the start
    time of a file, in a window that reaches one cadence after it; the check
    of the times refuses a window that ends after the clock, so the call
    returns only when the cut time is at least one cadence old.  Every start
    time in the result is at or before the cut time: a latest start time
    that is not on a whole minute is not among the start times returned. *)
Theorem find_latest_files_cut_to_minute (satellite product_level product : string)
    (sector connection_type base_dir protocol : option string)
    (filter_parameters : filter_parameters_t) (N look_ahead_minutes : Z)
    (result : fpaths_t) :
  find_latest_files satellite product_level product sector connection_type base_dir protocol
    filter_parameters N true look_ahead_minutes = Ok result →
  ∃ latest sector_key cadence groups times,
    find_latest_start_time satellite product_level product sector None base_dir protocol
      filter_parameters look_ahead_minutes = Ok latest
    ∧ _check_sector PRODUCTS AHI_L2_SECTOR_EXCEPTIONS sector None = Ok sector_key
    ∧ _get_acquisition_max_timedelta (Some sector_key) = Ok cadence
    ∧ replace_second_microsecond latest + cadence ≤ utcnow
    ∧ result = FDict groups
    ∧ groups.*1 = VTime <$> times
    ∧ Forall (λ x, x ≤ replace_second_microsecond latest) times
    ∧ (latest = replace_second_microsecond latest ∨ latest ∉ times).
Proof.
  intros H. unfold_find_latest_files H. inv_bind_as H latest Hlatest.
  unfold_find_previous_files_in H.
  inv_bind_as H sector_key Hsec. inv_bind_as H level Hlevel.
  cbn zeta in H. set (t := replace_second_microsecond latest) in *.
  inv_bind_as H closest_time Hclosest.
  destruct (bool_decide (closest_time = t)) eqn:Hct; [|discriminate].
  apply bool_decide_eq_true in Hct. subst closest_time. simpl in H.
  inv_bind_as H cadence Hcad. inv_bind_as H fpath_dict Hfind.
  inv_bind_as H keys Hkeys. inv_bind_as H found Hfound.
  destruct (start_times_of_search _ _ _ _ _ _ _ _ _ _ _ Hfind)
    as (groups0 & times0 & -> & Hk0 & Htimes0 & Hs0 & Hle0).
  simpl in Hkeys. injection Hkeys as <-.
  rewrite Hk0, check_each_as_datetime in Hfound. injection Hfound as <-.
  simpl in H. rewrite !sorted_of_sorted in H
    by (rewrite ?sorted_of_sorted by (by apply StronglySorted_lt_le);
        by apply StronglySorted_lt_le).
  destruct (length times0 =? 0)%nat; [discriminate|].
  case_bool_decide; [discriminate|].
  inv_bind_as H groups Hgroups. inv_bind_as H u Hreg. injection H as <-.
  apply select_keys_keys in Hgroups.
  assert (Forall (λ x, x ≤ t) (last_n N times0)) as Hle.
  { rewrite Forall_forall in Hle0 |- *. intros x Hx. apply Hle0.
    by apply (sublist_subseteq _ _ (last_n_sublist N times0)). }
  assert (t + cadence ≤ utcnow) as Hpast.
  { unfold_find_closest_start_time_in Hclosest. cbn zeta in Hclosest.
    rewrite Hcad in Hclosest. simpl in Hclosest.
    inv_bind_as Hclosest around Haround. apply find_files_end_in_past in Haround.
    unfold t in Haround. rewrite replace_second_microsecond_idemp in Haround.
    replace (replace_second_microsecond latest + cadence)
      with (replace_second_microsecond latest + cadence * 1) in Haround by lia.
    rewrite (cadence_window_whole_second _ _ _ _ Hcad) in Haround. unfold t. lia. }
  exists latest, sector_key, cadence, groups, (last_n N times0).
  split; [exact Hlatest|]. split; [exact Hsec|]. split; [exact Hcad|]. split; [exact Hpast|].
  split; [reflexivity|]. split; [exact Hgroups|]. split; [exact Hle|].
  destruct (decide (latest = t)) as [|Hne]; [by left|]. right.
  intros Hin. rewrite Forall_forall in Hle. apply Hle in Hin.
  unfold t, replace_second_microsecond in *.
  pose proof (Z.mod_pos_bound latest 60000000). lia.
Qed.

End EntryPoints.

Lemma filter_file_empty_channels_witness :
  let fpath := "s3://noaa-himawari8/AHI-L1b-FLDK/2021/01/01/1000/" +:+ rad_name "1000" "FLDK" in
  _get_key_from_filepaths sample_patterns (sample_parse sample_table) [fpath] "channel"
  = Ok [VStr "B01"]
  ∧ _filter_file sample_patterns (sample_parse sample_table) fpath "L1b" None None
      (Some []) None = Ok None
  ∧ _filter_files sample_patterns (sample_parse sample_table) [fpath] "L1b" None None
      (Some []) None = Ok []
  ∧ ∀ sector, _check_filter_parameters (FilterParameters (Some []) None) sector
              = Ok (FilterParameters (Some []) None).
Proof.
  intros fpath.
  assert (_get_key_from_filepaths sample_patterns (sample_parse sample_table) [fpath] "channel"
          = Ok [VStr "B01"]) as H by (vm_compute; reflexivity).
  split; [exact H|].
  exact (filter_file_empty_channels sample_patterns (sample_parse sample_table)
           fpath "L1b" (VStr "B01") None None None H).
Defined.

Lemma filter_file_scene_list_witness :
  let fpath := "s3://noaa-himawari8/AHI-L1b-Japan/2021/01/01/1000/" +:+ rad_name "1000" "JP02" in
  _get_key_from_filepaths sample_patterns (sample_parse sample_table) [fpath] "scene_abbr"
  = Ok [VList ["R1"; "R2"]]
  ∧ _filter_file sample_patterns (sample_parse sample_table) fpath "L1b" None None None
      (Some ["R1"]) = Ok None.
Proof.
  intros fpath.
  assert (_get_key_from_filepaths sample_patterns (sample_parse sample_table) [fpath]
            "scene_abbr" = Ok [VList ["R1"; "R2"]]) as H by (vm_compute; reflexivity).
  split; [exact H|].
  exact (filter_file_scene_list sample_patterns (sample_parse sample_table)
           fpath "L1b" ["R1"; "R2"] None None None ["R1"] H).
Defined.

(** ** Examples for the entry points *)

Lemma filter_files_needs_times_witness :
  let fpath := "s3://noaa-himawari8/AHI-L1b-FLDK/2021/01/01/1000/" +:+ rad_name "1000" "FLDK" in
  ∃ kept,
    filter_files sample_patterns (sample_parse sample_table) sample_products sample_utcnow [fpath] "L1b"
      (Some (hhmm 10 0)) (Some (hhmm 10 10)) None None = Ok kept
    ∧ ∃ s e, Some (hhmm 10 0) = Some s ∧ Some (hhmm 10 10) = Some e
             ∧ kept `sublist_of` [fpath]
             ∧ Forall (overlaps sample_patterns (sample_parse sample_table)
                         (replace_microsecond s) (replace_microsecond e)) kept.
Proof.
  intros fpath.
  assert (∃ kept, filter_files sample_patterns (sample_parse sample_table) sample_products sample_utcnow
                    [fpath] "L1b" (Some (hhmm 10 0)) (Some (hhmm 10 10)) None None = Ok kept)
    as [kept H] by (eexists; vm_compute; reflexivity).
  exists kept. split; [exact H|].
  exact (filter_files_needs_times sample_patterns (sample_parse sample_table) sample_products sample_utcnow
           [fpath] kept "L1b" (Some (hhmm 10 0)) (Some (hhmm 10 10)) None None H).
Defined.

Lemma group_fpaths_by_key_partition_witness :
  let fpaths := [rad_name "1010" "FLDK"; rad_name "1000" "FLDK"; rad_name "1000" "R301"] in
  let list_key_values := [VTime (hhmm 10 10); VTime (hhmm 10 0); VTime (hhmm 10 0)] in
  _get_key_from_filepaths sample_patterns (sample_parse sample_table) fpaths "start_time"
  = Ok list_key_values
  ∧ sortable list_key_values = true
  ∧ ∃ groups,
      _group_fpaths_by_key sample_patterns (sample_parse sample_table) fpaths None "start_time"
      = Ok groups
      ∧ mjoin groups.*2 ≡ₚ fpaths
      ∧ Forall (λ g, g.2 ≠ []) groups
      ∧ (∀ k g fpath, (k, g) ∈ groups → fpath ∈ g →
           _get_key_from_filepaths sample_patterns (sample_parse sample_table) [fpath]
             "start_time" = Ok [k])
      ∧ NoDup groups.*1
      ∧ (∀ k, k ∈ groups.*1 ↔ k ∈ list_key_values).
Proof.
  intros fpaths list_key_values.
  assert (_get_key_from_filepaths sample_patterns (sample_parse sample_table) fpaths
            "start_time" = Ok list_key_values) as Hvalues by (vm_compute; reflexivity).
  assert (sortable list_key_values = true) as Hsortable by reflexivity.
  split; [exact Hvalues|]. split; [exact Hsortable|].
  exact (group_fpaths_by_key_partition sample_patterns (sample_parse sample_table)
           fpaths None "start_time" list_key_values Hvalues Hsortable).
Defined.

Lemma group_files_answers_witness :
  let l := [rad_name "1010" "FLDK"; rad_name "1000" "R301"; rad_name "1000" "FLDK"] in
  let k := "sector" in
  let list_key_values := [VStr "FLDK"; VStr "Target"; VStr "FLDK"] in
  k ∈ available_group_keys
  ∧ _get_key_from_filepaths sample_patterns (sample_parse sample_table) l k
    = Ok list_key_values
  ∧ sortable list_key_values = true
  ∧ (∃ groups,
       group_files sample_patterns (sample_parse sample_table) (FList l) (Some k) = Ok groups
       ∧ mjoin groups.*2 ≡ₚ l
       ∧ get_key_from_filepaths sample_patterns (sample_parse sample_table) (FDict groups) k
         = Ok (KDict ((λ g, (g.1, replicate (length g.2) g.1)) <$> groups)))
  ∧ (∀ d key,
       group_files sample_patterns (sample_parse sample_table) (FDict d) key
       = Raise (TypeError [Txt "It's not possible to group a dictionary ! ";
                           Txt "Pass a list of filepaths instead."]))
  ∧ (∀ l' k', k' ∉ available_group_keys →
       ∃ msg, group_files sample_patterns (sample_parse sample_table) (FList l') (Some k')
              = Raise (ValueError msg)).
Proof.
  intros l k list_key_values.
  assert (k ∈ available_group_keys) as Hin by (do 3 right; left).
  assert (_get_key_from_filepaths sample_patterns (sample_parse sample_table) l k
          = Ok list_key_values) as Hvalues by (vm_compute; reflexivity).
  assert (sortable list_key_values = true) as Hsortable by reflexivity.
  split; [exact Hin|]. split; [exact Hvalues|]. split; [exact Hsortable|].
  exact (group_files_answers sample_patterns (sample_parse sample_table)
           l k list_key_values Hin Hvalues Hsortable).
Defined.

Lemma find_files_level_L1b_witness :
  ∃ fpaths,
    sample_find_files [rad_name "1000" "FLDK"] (hhmm 10 0) (hhmm 10 10) (Some "FLDK")
    = Ok fpaths
    ∧ str_capitalize "L1b" = "L1b" ∧ str_capitalize "L1b" ≠ "L2".
Proof.
  assert (∃ fpaths, sample_find_files [rad_name "1000" "FLDK"] (hhmm 10 0) (hhmm 10 10)
                      (Some "FLDK") = Ok fpaths)
    as [fpaths H] by (eexists; vm_compute; reflexivity).
  exists fpaths. split; [exact H|].
  exact (find_files_level_L1b sample_patterns (sample_parse sample_table) sample_products
           sample_exceptions sample_utcnow (λ _, true) (λ _, true)
           sample_dt_to_year_month_day_hhmm (sample_glob [rad_name "1000" "FLDK"])
           "H8" "L1b" "Rad" (hhmm 10 0) (hhmm 10 10) (Some "FLDK")
           (FilterParameters None None) (Some "start_time") None None (Some "s3") fpaths H).
Defined.

Lemma find_files_storage_witness :
  ∃ fpaths,
    sample_find_files [rad_name "1000" "FLDK"] (hhmm 10 0) (hhmm 10 10) (Some "FLDK")
    = Ok fpaths
    ∧ ((@None string = None ∧ Some "s3" = Some "s3")
       ∨ (@None string ≠ None ∧ Some "s3" ∈ [None; Some "file"; Some "local"]))
    ∧ (@None string ≠ None →
       ∀ other,
         find_files sample_patterns (sample_parse sample_table) sample_products
           sample_exceptions sample_utcnow (λ _, true) (λ _, true)
           sample_dt_to_year_month_day_hhmm (sample_glob [rad_name "1000" "FLDK"])
           "H8" "L1b" "Rad" (hhmm 10 0) (hhmm 10 10) (Some "FLDK")
           (FilterParameters None None) (Some "start_time") other None (Some "s3")
         = Ok fpaths).
Proof.
  assert (∃ fpaths, sample_find_files [rad_name "1000" "FLDK"] (hhmm 10 0) (hhmm 10 10)
                      (Some "FLDK") = Ok fpaths)
    as [fpaths H] by (eexists; vm_compute; reflexivity).
  exists fpaths. split; [exact H|].
  exact (find_files_storage sample_patterns (sample_parse sample_table) sample_products
           sample_exceptions sample_utcnow (λ _, true) (λ _, true)
           sample_dt_to_year_month_day_hhmm (sample_glob [rad_name "1000" "FLDK"])
           "H8" "L1b" "Rad" (hhmm 10 0) (hhmm 10 10) (Some "FLDK")
           (FilterParameters None None) (Some "start_time") None None (Some "s3") fpaths H).
Defined.

Lemma find_files_scene_filter_japan_witness :
  ∃ fpaths,
    find_files sample_patterns (sample_parse sample_table) sample_products
      sample_exceptions sample_utcnow (λ _, true) (λ _, true)
      sample_dt_to_year_month_day_hhmm (sample_glob [rad_name "1000" "JP02"])
      "H8" "L1b" "Rad" (hhmm 10 0) (hhmm 10 10) (Some "japan")
      (FilterParameters None (Some ["R1"])) None None None (Some "s3") = Ok fpaths
    ∧ truthy (Some ["R1"]) = true
    ∧ (∃ s, Some "japan" = Some s ∧ find_alias _sectors (str_upper s) = Some "Japan")
    ∧ ∃ scene_abbr, Some ["R1"] = Some scene_abbr ∧ scene_abbr ⊆ ["R1"; "R2"].
Proof.
  assert (∃ fpaths,
            find_files sample_patterns (sample_parse sample_table) sample_products
              sample_exceptions sample_utcnow (λ _, true) (λ _, true)
              sample_dt_to_year_month_day_hhmm (sample_glob [rad_name "1000" "JP02"])
              "H8" "L1b" "Rad" (hhmm 10 0) (hhmm 10 10) (Some "japan")
              (FilterParameters None (Some ["R1"])) None None None (Some "s3") = Ok fpaths)
    as [fpaths H] by (eexists; vm_compute; reflexivity).
  exists fpaths. split; [exact H|]. split; [reflexivity|].
  exact (find_files_scene_filter_japan sample_patterns (sample_parse sample_table)
           sample_products sample_exceptions sample_utcnow (λ _, true) (λ _, true)
           sample_dt_to_year_month_day_hhmm (sample_glob [rad_name "1000" "JP02"])
           "H8" "L1b" "Rad" (hhmm 10 0) (hhmm 10 10) (Some "japan")
           (FilterParameters None (Some ["R1"])) None None None (Some "s3") fpaths H eq_refl).
Defined.

Lemma find_files_within_window_witness :
  ∃ fpaths,
    find_files sample_patterns (sample_parse sample_table) sample_products
      sample_exceptions sample_utcnow (λ _, true) (λ _, true)
      sample_dt_to_year_month_day_hhmm
      (sample_glob [rad_name "1000" "FLDK"; rad_name "0930" "FLDK"])
      "H8" "L1b" "Rad" (hhmm 10 0) (hhmm 10 10) (Some "FLDK")
      (FilterParameters None None) None None None (Some "s3") = Ok fpaths
    ∧ @None string ∈ [None; Some "bucket"]
    ∧ ∃ list_fpaths,
        fpaths = FList list_fpaths
        ∧ Forall (overlaps sample_patterns (sample_parse sample_table)
                    (replace_microsecond (hhmm 10 0)) (replace_microsecond (hhmm 10 10)))
            list_fpaths.
Proof.
  assert (∃ fpaths,
            find_files sample_patterns (sample_parse sample_table) sample_products
              sample_exceptions sample_utcnow (λ _, true) (λ _, true)
              sample_dt_to_year_month_day_hhmm
              (sample_glob [rad_name "1000" "FLDK"; rad_name "0930" "FLDK"])
              "H8" "L1b" "Rad" (hhmm 10 0) (hhmm 10 10) (Some "FLDK")
              (FilterParameters None None) None None None (Some "s3") = Ok fpaths)
    as [fpaths H] by (eexists; vm_compute; reflexivity).
  assert (@None string ∈ [None; Some "bucket"]) as Hct by left.
  exists fpaths. split; [exact H|]. split; [exact Hct|].
  exact (find_files_within_window sample_patterns (sample_parse sample_table)
           sample_products sample_exceptions sample_utcnow (λ _, true) (λ _, true)
           sample_dt_to_year_month_day_hhmm
           (sample_glob [rad_name "1000" "FLDK"; rad_name "0930" "FLDK"])
           "H8" "L1b" "Rad" (hhmm 10 0) (hhmm 10 10) (Some "FLDK")
           (FilterParameters None None) None None (Some "s3") fpaths H Hct).
Defined.

Lemma find_latest_start_time_greatest_witness :
  let fnames := [rad_name "1000" "FLDK"; rad_name "0950" "FLDK"] in
  ∃ fpath_dict times,
    find_files sample_patterns (sample_parse sample_table) sample_products
      sample_exceptions sample_clock (λ _, true) (λ _, true)
      sample_dt_to_year_month_day_hhmm (sample_glob fnames)
      "H8" "L1b" "Rad" (sample_clock - timedelta 30 0) sample_clock (Some "FLDK")
      (FilterParameters None None) (Some "start_time") None None (Some "s3") = Ok fpath_dict
    ∧ start_times_of fpath_dict = Ok times
    ∧ 0 ≤ 30
    ∧ (times = [] →
       find_latest_start_time sample_patterns (sample_parse sample_table) sample_products
         sample_exceptions sample_clock (λ _, true) (λ _, true)
         sample_dt_to_year_month_day_hhmm (sample_glob fnames)
         "H8" "L1b" "Rad" (Some "FLDK") None None (Some "s3") (FilterParameters None None) 30
       = Raise (ValueError [Txt "No data found. Maybe try to increase `look_ahead_minutes`."]))
    ∧ (times ≠ [] →
       ∃ r, find_latest_start_time sample_patterns (sample_parse sample_table)
              sample_products sample_exceptions sample_clock (λ _, true) (λ _, true)
              sample_dt_to_year_month_day_hhmm (sample_glob fnames)
              "H8" "L1b" "Rad" (Some "FLDK") None None (Some "s3")
              (FilterParameters None None) 30 = Ok r
            ∧ r ∈ times ∧ (∀ x, x ∈ times → x ≤ r) ∧ r ≤ sample_clock).
Proof.
  intros fnames.
  assert (∃ fpath_dict,
            find_files sample_patterns (sample_parse sample_table) sample_products
              sample_exceptions sample_clock (λ _, true) (λ _, true)
              sample_dt_to_year_month_day_hhmm (sample_glob fnames)
              "H8" "L1b" "Rad" (sample_clock - timedelta 30 0) sample_clock (Some "FLDK")
              (FilterParameters None None) (Some "start_time") None None (Some "s3")
            = Ok fpath_dict
            ∧ start_times_of fpath_dict = Ok [hhmm 9 50; hhmm 10 0])
    as (fpath_dict & H & Htimes) by (eexists; split; vm_compute; reflexivity).
  exists fpath_dict, [hhmm 9 50; hhmm 10 0]. split; [exact H|]. split; [exact Htimes|].
  exact (find_latest_start_time_greatest sample_patterns (sample_parse sample_table)
           sample_products sample_exceptions sample_clock (λ _, true) (λ _, true)
           sample_dt_to_year_month_day_hhmm (sample_glob fnames)
           "H8" "L1b" "Rad" (Some "FLDK") None None (Some "s3") (FilterParameters None None)
           30 fpath_dict [hhmm 9 50; hhmm 10 0] H Htimes).
Defined.

Lemma find_closest_files_group_witness :
  let fnames := [rad_name "1000" "FLDK"; rad_name "1010" "FLDK"] in
  let t := replace_second_microsecond (hhmm 10 1) in
  ∃ fpaths,
    find_closest_files sample_patterns (sample_parse sample_table) sample_products
      sample_exceptions sample_utcnow (λ _, true) (λ _, true)
      sample_dt_to_year_month_day_hhmm (sample_glob fnames)
      (hhmm 10 1) "H8" "L1b" "Rad" (Some "FLDK") (Some "https") None (Some "s3")
      (FilterParameters None None) = Ok fpaths
    ∧ ∃ cadence closest groups,
        _get_acquisition_max_timedelta (Some "FLDK") = Ok cadence
        ∧ sample_find_closest_start_time fnames (hhmm 10 1) (Some "FLDK") = Ok closest
        ∧ sample_find_files fnames (t - cadence) (t + cadence) (Some "FLDK") = Ok (FDict groups)
        ∧ (VTime closest, fpaths) ∈ groups
        ∧ fpaths ≠ []
        ∧ ∀ other,
            find_closest_files sample_patterns (sample_parse sample_table) sample_products
              sample_exceptions sample_utcnow (λ _, true) (λ _, true)
              sample_dt_to_year_month_day_hhmm (sample_glob fnames)
              (hhmm 10 1) "H8" "L1b" "Rad" (Some "FLDK") other None (Some "s3")
              (FilterParameters None None) = Ok fpaths.
Proof.
  intros fnames t.
  assert (∃ fpaths,
            find_closest_files sample_patterns (sample_parse sample_table) sample_products
              sample_exceptions sample_utcnow (λ _, true) (λ _, true)
              sample_dt_to_year_month_day_hhmm (sample_glob fnames)
              (hhmm 10 1) "H8" "L1b" "Rad" (Some "FLDK") (Some "https") None (Some "s3")
              (FilterParameters None None) = Ok fpaths)
    as [fpaths H] by (eexists; vm_compute; reflexivity).
  exists fpaths. split; [exact H|].
  exact (find_closest_files_group sample_patterns (sample_parse sample_table)
           sample_products sample_exceptions sample_utcnow (λ _, true) (λ _, true)
           sample_dt_to_year_month_day_hhmm (sample_glob fnames)
           (hhmm 10 1) "H8" "L1b" "Rad" (Some "FLDK") (Some "https") None (Some "s3")
           (FilterParameters None None) fpaths H).
Defined.

(** The scans of the Target sector of 10:00 to 10:10 are asked for the one
    time step that follows the scan of 10:05: the call answers with the scan
    of 10:02:30, which ends after 10:05 and is the earliest one found. *)
Lemma find_next_files_regular_witness :
  ∃ result,
    find_next_files sample_patterns (sample_parse sample_table_target) sample_products
      sample_exceptions sample_utcnow (λ _, true) (λ _, true)
      sample_dt_to_year_month_day_hhmm (sample_glob sample_target_scans)
      (hhmm 10 5) 1 "H8" "L1b" "Rad" (Some "Target") (FilterParameters None None)
      None None (Some "s3") false true = Ok result
    ∧ dict_keys result = Ok [VTime (hhmm 10 0 + timedelta 2 30)]
    ∧ ∃ groups times,
        result = FDict groups
        ∧ groups.*1 = VTime <$> times
        ∧ Z.of_nat (length times) = 1
        ∧ (∀ x, x ∈ times → x ≠ replace_second_microsecond (hhmm 10 5))
        ∧ StronglySorted Z.lt times
        ∧ all_equal (np_diff (sorted (times ++ [replace_second_microsecond (hhmm 10 5)])%list)).
Proof.
  assert (1 ≤ 1) as H11 by lia.
  assert (∃ result,
            find_next_files sample_patterns (sample_parse sample_table_target)
              sample_products sample_exceptions sample_utcnow (λ _, true) (λ _, true)
              sample_dt_to_year_month_day_hhmm (sample_glob sample_target_scans)
              (hhmm 10 5) 1 "H8" "L1b" "Rad" (Some "Target") (FilterParameters None None)
              None None (Some "s3") false true = Ok result
            ∧ dict_keys result = Ok [VTime (hhmm 10 0 + timedelta 2 30)])
    as (result & H & Hkeys) by (eexists; split; vm_compute; reflexivity).
  destruct (find_next_files_regular sample_patterns (sample_parse sample_table_target)
              sample_products sample_exceptions sample_utcnow (λ _, true) (λ _, true)
              sample_dt_to_year_month_day_hhmm (sample_glob sample_target_scans)
              (hhmm 10 5) 1 "H8" "L1b" "Rad" (Some "Target") (FilterParameters None None)
              None None (Some "s3") result H11 H)
    as (sector_key & level & cadence & found & groups & times & _ & _ & _ & _ & _
        & Hgroups & Hk & Hlen & Hin & Hsorted & _ & Hregular & _).
  exists result. split; [exact H|]. split; [exact Hkeys|].
  exists groups, times. split; [exact Hgroups|]. split; [exact Hk|]. split; [exact Hlen|].
  split; [|split; [exact Hsorted | exact Hregular]].
  intros x Hx. exact (proj1 (proj2 (Hin x Hx))).
Defined.

Lemma find_next_files_none_witness :
  ∃ result,
    find_next_files sample_patterns (sample_parse sample_table_target) sample_products
      sample_exceptions sample_utcnow (λ _, true) (λ _, true)
      sample_dt_to_year_month_day_hhmm (sample_glob sample_target_scans)
      (hhmm 10 5) 0 "H8" "L1b" "Rad" (Some "Target") (FilterParameters None None)
      None None (Some "s3") false true = Ok result
    ∧ result = FDict [].
Proof.
  assert (∃ result,
            find_next_files sample_patterns (sample_parse sample_table_target)
              sample_products sample_exceptions sample_utcnow (λ _, true) (λ _, true)
              sample_dt_to_year_month_day_hhmm (sample_glob sample_target_scans)
              (hhmm 10 5) 0 "H8" "L1b" "Rad" (Some "Target") (FilterParameters None None)
              None None (Some "s3") false true = Ok result)
    as [result H] by (eexists; vm_compute; reflexivity).
  exists result. split; [exact H|].
  exact (find_next_files_none sample_patterns (sample_parse sample_table_target)
           sample_products sample_exceptions sample_utcnow (λ _, true) (λ _, true)
           sample_dt_to_year_month_day_hhmm (sample_glob sample_target_scans)
           (hhmm 10 5) "H8" "L1b" "Rad" (Some "Target") (FilterParameters None None)
           None None (Some "s3") false true result H).
Defined.

Lemma find_previous_files_none_witness :
  let fnames := [rad_name "1000" "FLDK"; rad_name "0950" "FLDK"] in
  ∃ result,
    sample_find_previous_files fnames (hhmm 10 0) 0 (Some "FLDK") = Ok result
    ∧ dict_keys result = Ok [VTime (hhmm 9 50)]
    ∧ ∃ groups times,
        result = FDict groups
        ∧ groups.*1 = VTime <$> times
        ∧ times ≠ [].
Proof.
  intros fnames.
  assert (∃ result,
            sample_find_previous_files fnames (hhmm 10 0) 0 (Some "FLDK") = Ok result
            ∧ dict_keys result = Ok [VTime (hhmm 9 50)])
    as (result & H & Hkeys) by (eexists; split; vm_compute; reflexivity).
  destruct (find_previous_files_none sample_patterns (sample_parse sample_table)
              sample_products sample_exceptions sample_utcnow (λ _, true) (λ _, true)
              sample_dt_to_year_month_day_hhmm (sample_glob fnames)
              (hhmm 10 0) "H8" "L1b" "Rad" (Some "FLDK") (FilterParameters None None)
              None None (Some "s3") result H)
    as (sector_key & level & cadence & found & groups & times & _ & _ & _ & _
        & Hgroups & Hk & Hne & _).
  exists result. split; [exact H|]. split; [exact Hkeys|].
  exists groups, times. split; [exact Hgroups|]. split; [exact Hk | exact Hne].
Defined.

Lemma find_latest_files_cut_to_minute_witness :
  let fnames := [rad_name "1000" "FLDK"; rad_name "0950" "FLDK"] in
  ∃ result,
    find_latest_files sample_patterns (sample_parse sample_table) sample_products
      sample_exceptions sample_clock (λ _, true) (λ _, true)
      sample_dt_to_year_month_day_hhmm (sample_glob fnames)
      "H8" "L1b" "Rad" (Some "FLDK") None None (Some "s3") (FilterParameters None None)
      1 true 30 = Ok result
    ∧ ∃ latest sector_key cadence groups times,
        find_latest_start_time sample_patterns (sample_parse sample_table) sample_products
          sample_exceptions sample_clock (λ _, true) (λ _, true)
          sample_dt_to_year_month_day_hhmm (sample_glob fnames)
          "H8" "L1b" "Rad" (Some "FLDK") None None (Some "s3") (FilterParameters None None) 30
        = Ok latest
        ∧ _check_sector sample_products sample_exceptions (Some "FLDK") None = Ok sector_key
        ∧ _get_acquisition_max_timedelta (Some sector_key) = Ok cadence
        ∧ replace_second_microsecond latest + cadence ≤ sample_clock
        ∧ result = FDict groups
        ∧ groups.*1 = VTime <$> times
        ∧ Forall (λ x, x ≤ replace_second_microsecond latest) times
        ∧ (latest = replace_second_microsecond latest ∨ latest ∉ times).
Proof.
  intros fnames.
  assert (∃ result,
            find_latest_files sample_patterns (sample_parse sample_table) sample_products
              sample_exceptions sample_clock (λ _, true) (λ _, true)
              sample_dt_to_year_month_day_hhmm (sample_glob fnames)
              "H8" "L1b" "Rad" (Some "FLDK") None None (Some "s3")
              (FilterParameters None None) 1 true 30 = Ok result)
    as [result H] by (eexists; vm_compute; reflexivity).
  exists result. split; [exact H|].
  exact (find_latest_files_cut_to_minute sample_patterns (sample_parse sample_table)
           sample_products sample_exceptions sample_clock (λ _, true) (λ _, true)
           sample_dt_to_year_month_day_hhmm (sample_glob fnames)
           "H8" "L1b" "Rad" (Some "FLDK") None None (Some "s3") (FilterParameters None None)
           1 30 result H).
Defined.

